(** * dataset_manager: annotation export and dataset synchronisation

    A shallow embedding of [core/tools/exporter.py] (and of the serializer
    copy in [core/tools/export.py]).  The functions of the module are glue
    over a dataset library: samples carry named fields, the module reads
    and writes them, writes one [.anno] JSON document per sample and
    re-synchronises samples with the XML label files lying next to the
    media files.

    The embedding is a state-and-exception monad over a [World]: the file
    system, the process-wide cache and a trace of the calls that an
    observer can see (warnings, checksum computations, parses, saves).

    A dataset is the sequence of its samples as the store holds them.
    The fields of a sample are declared by its dataset; a sample object
    that a loop changes reaches the dataset when it is saved, and a
    collection that is passed to a function shares its samples with the
    cached dataset where that knows them. *)

From Stdlib Require Import ZArith Ascii String PrimFloat.
From stdpp Require Import gmap strings list fin_maps.

Open Scope string_scope.

#[local] Set Warnings "-register-all".

(** ** Values *)

(** JSON-like Python data: what a sample field may hold besides the
    library's embedded documents, and what [json.dump] writes.  Python
    floats are IEEE binary64 numbers, that is [PrimFloat.float]. *)
Inductive Json : Type :=
| JNull
| JBool (b : bool)
| JInt (n : Z)
| JFloat (x : float)
| JStr (s : string)
| JArr (l : list Json)
| JObj (o : gmap string Json).

(** Image metadata of the dataset library; an attribute may be [None]. *)
Record ImageMetadata := mkImageMetadata {
  height : option Z;
  width : option Z;
  num_channels : option Z;
}.

(** A detection of the dataset library: a label and a normalised box
    [x, y, w, h], with its own confidence and free attributes. *)
Record Detection := mkDetection {
  label : string;
  bounding_box : list float;
  confidence : option float;
  attributes : gmap string Json;
}.

(** The value of a sample field. *)
Inductive FieldVal : Type :=
| Plain (j : Json)
| Metadata (m : ImageMetadata)
| Detections (detections : list Detection).

Definition PyNone : FieldVal := Plain JNull.

(** Python truth value.  Embedded documents of the library are never
    falsy (their length counts their attributes). *)
Definition json_truthy (j : Json) : bool :=
  match j with
  | JNull => false
  | JBool b => b
  | JInt n => negb (n =? 0)%Z
  | JFloat x => negb (PrimFloat.eqb x 0%float)
  | JStr s => negb (String.eqb s "")
  | JArr l => negb (Nat.eqb (length l) 0)
  | JObj o => negb (Nat.eqb (size o) 0)
  end.

Definition truthy (v : FieldVal) : bool :=
  match v with
  | Plain j => json_truthy j
  | Metadata _ => true
  | Detections _ => true
  end.

(** [v != s] for a Python string [s]. *)
Definition differs_from_str (v : FieldVal) (s : string) : bool :=
  match v with
  | Plain (JStr t) => negb (String.eqb t s)
  | _ => true
  end.

(** ** Exceptions and results *)

Inductive exn : Type :=
| KeyError
| AttributeError
| IndexError
| TypeError
| ValueError
| ValidationError
| FileNotFoundError
| FileExistsError
| NotADirectoryError
| IsADirectoryError
| CollaboratorError (msg : string).

Inductive res (A : Type) : Type :=
| Ok (a : A)
| Raise (e : exn).
Arguments Ok {A} a.
Arguments Raise {A} e.

(** ** Samples *)

(** A sample of the dataset library.  [filepath] and [id] identify it;
    [fields] holds the values that were set on it, by name.  A name
    bound to [PyNone] is a field that was set to [None]. *)
Record Sample := mkSample {
  id : string;
  filepath : string;
  fields : gmap string FieldVal;
}.

Definition with_fields (s : Sample) (f : gmap string FieldVal) : Sample :=
  {| id := id s; filepath := filepath s; fields := f |}.

(** The fields that every sample of the library has, and what they hold
    when nothing was set. *)
Definition default_value (k : string) : option FieldVal :=
  if String.eqb k "metadata" then Some PyNone
  else if String.eqb k "tags" then Some (Plain (JArr []))
  else None.

(** The fields are declared by the dataset, not by the sample: the
    schema of a dataset has the default fields and every field that was
    set on one of its samples.  A sample on which a field of the schema
    was never set holds [None] there. *)
Definition in_schema (dataset : list Sample) (k : string) : bool :=
  bool_decide (is_Some (default_value k))
  || existsb (λ s, bool_decide (is_Some (fields s !! k))) dataset.

(** [sample.has_field(k)], for a sample of [dataset]. *)
Definition has_field (dataset : list Sample) (s : Sample) (k : string)
  : bool :=
  in_schema dataset k.

(** [sample.get_field(k)], for a sample of [dataset]. *)
Definition get_field (dataset : list Sample) (s : Sample) (k : string)
  : res FieldVal :=
  match fields s !! k with
  | Some v => Ok v
  | None =>
      match default_value k with
      | Some v => Ok v
      | None =>
          if in_schema dataset k then Ok PyNone else Raise AttributeError
      end
  end.

(** [sample[k]]: the value that was set, else the value of a default
    field.  The module reads two fields this way, [metadata], a default
    field, and the label; a label that was never set is read here as a
    field that the sample's dataset does not have, which is a
    [KeyError]. *)
Definition getitem (s : Sample) (k : string) : res FieldVal :=
  match fields s !! k with
  | Some v => Ok v
  | None =>
      match default_value k with
      | Some v => Ok v
      | None => Raise KeyError
      end
  end.

(** [sample.clear_field(k)], for a sample of [dataset]: the field is
    set to [None]; a field that the dataset does not have is an error. *)
Definition clear_field (dataset : list Sample) (s : Sample) (k : string)
  : res Sample :=
  if in_schema dataset k
  then Ok (with_fields s (<[k := PyNone]> (fields s)))
  else Raise ValueError.

(** [sample.update_fields(d)]: every entry of [d] is set. *)
Definition update_fields (s : Sample) (d : gmap string FieldVal) : Sample :=
  with_fields s (d ∪ fields s).

(** Modelled from the spec: [core.utils.get_sample_field], the Field
    Accessor of section 4.1: the field's value, or the supplied default
    when the field is missing; no error, no side effect. *)
Definition get_sample_field (s : Sample) (k : string) (default : FieldVal)
  : FieldVal :=
  match fields s !! k with
  | Some v => v
  | None => default
  end.

(** ** Paths ([os.path], POSIX flavour) *)

Module path.

(** [s.rfind(c)]: the last index of [c], or [-1]. *)
Fixpoint rfind_from (c : ascii) (s : string) (i : Z) : Z :=
  match s with
  | EmptyString => (-1)%Z
  | String a s' =>
      let r := rfind_from c s' (i + 1)%Z in
      if (0 <=? r)%Z then r else if Ascii.eqb a c then i else (-1)%Z
  end.

Definition rfind (c : ascii) (s : string) : Z := rfind_from c s 0.

(** [s[:i]] and [s[i:]] for [0 <= i]. *)
Definition take (i : Z) (s : string) : string :=
  String.substring 0 (Z.to_nat i) s.
Definition drop (i : Z) (s : string) : string :=
  String.substring (Z.to_nat i) (String.length s - Z.to_nat i) s.

(** Is some character of [s] in positions [i, i+n) not [c]? *)
Fixpoint some_other (c : ascii) (s : string) (i n : nat) : bool :=
  match n with
  | O => false
  | S n' =>
      match String.get i s with
      | Some a => if Ascii.eqb a c then some_other c s (S i) n' else true
      | None => false
      end
  end.

(** [os.path.splitext(p)[0]]: the extension starts at the last dot of
    the last component, leading dots of that component apart. *)
Definition splitext_root (p : string) : string :=
  let sepIndex := rfind "/"%char p in
  let dotIndex := rfind "."%char p in
  if (sepIndex <? dotIndex)%Z
  then if some_other "."%char p (Z.to_nat (sepIndex + 1))
                     (Z.to_nat (dotIndex - (sepIndex + 1)))
       then take dotIndex p
       else p
  else p.

Fixpoint all_char (c : ascii) (s : string) : bool :=
  match s with
  | EmptyString => true
  | String a s' => Ascii.eqb a c && all_char c s'
  end.

(** [s.rstrip(c)] *)
Fixpoint rstrip (c : ascii) (s : string) : string :=
  match s with
  | EmptyString => EmptyString
  | String a s' =>
      if all_char c (String a s') then EmptyString
      else String a (rstrip c s')
  end.

(** [os.path.split(p)[0]] *)
Definition split_head (p : string) : string :=
  let i := (rfind "/"%char p + 1)%Z in
  let head := take i p in
  if negb (String.eqb head "") && negb (all_char "/"%char head)
  then rstrip "/"%char head
  else head.

(** [os.path.basename(p)] *)
Definition basename (p : string) : string :=
  drop (rfind "/"%char p + 1) p.

Definition endswith_sep (a : string) : bool :=
  match String.get (String.length a - 1) a with
  | Some c => Ascii.eqb c "/"%char
  | None => false
  end.

(** [os.path.join(a, b)] *)
Definition join (a b : string) : string :=
  match b with
  | String "/"%char _ => b
  | _ =>
      if String.eqb a "" || endswith_sep a then a +:+ b
      else a +:+ "/" +:+ b
  end.

End path.

(** ** The world: files, the process-wide cache, the observable trace *)

Inductive File : Type :=
| Dir
| Text (content : string)
| JsonDoc (doc : gmap string Json)
| Truncated.

(** The session of the dataset library's browser application. *)
Record Session := mkSession {
  selected : list string;
}.

(** Calls that leave the module, in the order they are made. *)
Inductive Event : Type :=
| Warning (msg : string)
| Md5sum (xml_path : string)
| ParseSampleInfo (sample_path : string)
| GenerateSample (img_path : string)
| ContextSave (s : Sample)
| Autosave (s : Sample)
| AddSample (s : Sample)
| DatasetSave
| SessionRefresh
| LogCollection
| ExportSample (image_path : string).

(** [WEAK_CACHE] holds at most two entries, keyed ["dataset"] and
    ["session"].  A dataset is the sequence of its samples. *)
Record World := mkWorld {
  files : gmap string File;
  cache_dataset : option (list Sample);
  cache_session : option Session;
  trace : list Event;
}.

Definition set_files (f : gmap string File) (w : World) : World :=
  {| files := f; cache_dataset := cache_dataset w;
     cache_session := cache_session w; trace := trace w |}.

Definition set_cache_dataset (d : option (list Sample)) (w : World) : World :=
  {| files := files w; cache_dataset := d;
     cache_session := cache_session w; trace := trace w |}.

Definition add_event (e : Event) (w : World) : World :=
  {| files := files w; cache_dataset := cache_dataset w;
     cache_session := cache_session w; trace := trace w ++ [e] |}.

(** ** The monad of the module's functions *)

Definition M (A : Type) : Type := World → World * res A.

#[global] Instance M_ret : MRet M := λ A a w, (w, Ok a).
#[global] Instance M_bind : MBind M := λ A B f m w,
  match m w with
  | (w', Ok a) => f a w'
  | (w', Raise e) => (w', Raise e)
  end.

#[global] Instance res_ret : MRet res := λ A a, Ok a.
#[global] Instance res_bind : MBind res := λ A B f r,
  match r with
  | Ok a => f a
  | Raise e => Raise e
  end.

Definition lift {A} (r : res A) : M A := λ w, (w, r).
Definition raise {A} (e : exn) : M A := λ w, (w, Raise e).
Definition emit (e : Event) : M unit := λ w, (add_event e w, Ok tt).
Definition get_files : M (gmap string File) := λ w, (w, Ok (files w)).
Definition put_files (f : gmap string File) : M unit :=
  λ w, (set_files f w, Ok tt).

(** [WEAK_CACHE.get("dataset", None)], [WEAK_CACHE.get("session", None)] *)
Definition WEAK_CACHE_get_dataset : M (option (list Sample)) :=
  λ w, (w, Ok (cache_dataset w)).
Definition WEAK_CACHE_get_session : M (option Session) :=
  λ w, (w, Ok (cache_session w)).

(** [logging.warning(msg)] *)
Definition logging_warning (msg : string) : M unit := emit (Warning msg).

(** [os.path.exists(p)] *)
Definition os_path_exists (p : string) : M bool :=
  λ w, (w, Ok (bool_decide (is_Some (files w !! p)))).

(** What the system answers when [d] is to be the directory of a new
    entry.  The root and the working directory (the empty head of a
    relative path) are always there. *)
Definition isdir (fs : gmap string File) (d : string) : res unit :=
  if path.all_char "/"%char d then Ok tt
  else match fs !! d with
       | Some Dir => Ok tt
       | Some _ => Raise NotADirectoryError
       | None => Raise FileNotFoundError
       end.

(** [os.mkdir(p)]: [p] must be new and its parent a directory. *)
Definition os_mkdir (p : string) : M unit :=
  fs ← get_files;
  if String.eqb p "" then raise FileNotFoundError
  else if bool_decide (is_Some (fs !! p)) || path.all_char "/"%char p
  then raise FileExistsError
  else
    lift (isdir fs (path.split_head p)) ;;
    put_files (<[p := Dir]> fs).

(** [open(p, "w")]: the file is created or emptied; its parent must be
    a directory and [p] itself must not be one. *)
Definition open_w (p : string) : M unit :=
  fs ← get_files;
  lift (isdir fs (path.split_head p)) ;;
  match fs !! p with
  | Some Dir => raise IsADirectoryError
  | _ => put_files (<[p := Truncated]> fs)
  end.

(** A [for] loop over a list. *)
Fixpoint for_each {A} (l : list A) (body : A → M unit) : M unit :=
  match l with
  | [] => mret tt
  | x :: l' => body x ;; for_each l' body
  end.

(** A task handed to the thread pool runs to its end; an exception it
    raises is kept in its future and raised again by [task.result()].
    The tasks are run here in the order of submission. *)
Definition submit {A} (task : M A) : M (res A) :=
  λ w, let '(w', r) := task w in (w', Ok r).

Fixpoint submit_all {A B} (task : A → M B) (l : list A) : M (list (res B)) :=
  match l with
  | [] => mret []
  | x :: l' =>
      t ← submit (task x);
      ts ← submit_all task l';
      mret (t :: ts)
  end.

(** ** Collaborators outside the module *)

(** The media and label exporter of the repository, seen through the
    capabilities the module uses. *)
Record Exporter := mkExporter {
  requires_image_metadata : bool;
  exporter_enter : gmap string File → res (gmap string File);
  exporter_export_sample :
    string → FieldVal → FieldVal → gmap string File → res (gmap string File);
  exporter_exit : gmap string File → gmap string File;
}.

(** Functions of the repository and of the dataset library that the
    module calls: those that read the file system, and the library's
    check of an assignment to a field, by which the name must be one
    that a field can have and the value must fit the type that the
    dataset declares for the field. *)
Record Collaborators := mkCollaborators {
  md5sum : gmap string File → string → res string;
  parse_sample_info :
    gmap string File → string →
    res (FieldVal * FieldVal * gmap string FieldVal);
  generate_sgcc_sample : gmap string File → string → res Sample;
  get_all_file_path :
    gmap string File → string → option (list string) → res (list string);
  ImageMetadata_build_for : gmap string File → string → res ImageMetadata;
  SGCCGameDatasetExporter : string → gmap string Json → res Exporter;
  validate_field : string → FieldVal → res unit;
}.

(** ** [json.dump] *)

Definition is_plain (v : FieldVal) : Prop :=
  match v with Plain _ => True | _ => False end.

#[global] Instance is_plain_dec v : Decision (is_plain v).
Proof. destruct v; simpl; apply _. Defined.

Definition plain_of (v : FieldVal) : option Json :=
  match v with Plain j => Some j | _ => None end.

(** An embedded document of the library is not JSON serializable. *)
Definition json_dump (result : gmap string FieldVal)
  : res (gmap string Json) :=
  if decide (map_Forall (λ _ v, is_plain v) result)
  then Ok (omap plain_of result)
  else Raise TypeError.

(** [with open(save_path, "w") as fw: json.dump(result, fw, ...)]: the
    file is opened, then written; a value that cannot be serialized
    leaves an unfinished document behind. *)
Definition write_json (save_path : string) (result : gmap string FieldVal)
  : M unit :=
  open_w save_path ;;
  doc ← lift (json_dump result);
  fs ← get_files;
  put_files (<[save_path := JsonDoc doc]> fs).

(** ** Attribute and index access on library values *)

Definition json_of_int (n : option Z) : Json :=
  match n with
  | Some n => JInt n
  | None => JNull
  end.

(** [v.height], [v.width], [v.num_channels] *)
Definition metadata_attr (v : FieldVal) (proj : ImageMetadata → option Z)
  : res Json :=
  match v with
  | Metadata m => Ok (json_of_int (proj m))
  | _ => Raise AttributeError
  end.

(** [v.detections] *)
Definition detections_attr (v : FieldVal) : res (list Detection) :=
  match v with
  | Detections l => Ok l
  | _ => Raise AttributeError
  end.

(** [l[i]] *)
Definition index (l : list float) (i : nat) : res float :=
  match l !! i with
  | Some x => Ok x
  | None => Raise IndexError
  end.

Definition is_none (v : FieldVal) : bool :=
  match v with
  | Plain JNull => true
  | _ => false
  end.

(** ** [core/tools/exporter.py] *)

Module exporter.

Definition need_export_map : list (string * string) :=
  [ ("data_source", "data_source");
    ("img_quality", "img_quality");
    ("additions", "additions");
    ("tags", "sample_tags");
    ("chiebot_ID", "ID") ].

(** The loop over [need_export_map]. *)
Definition copy_fields (sample : Sample) (result : gmap string FieldVal)
  : gmap string FieldVal :=
  foldl (λ result '(k, v),
           let vv := get_sample_field sample k PyNone in
           if truthy vv then <[v := vv]> result else result)
        result need_export_map.

(** The body of the loop over [dets.detections]. *)
Definition obj_of (det : Detection) : res Json :=
  let obj : gmap string Json := ∅ in
  let obj := <["name" := JStr (label det)]> obj in
  let obj := <["pose" := JStr "Unspecified"]> obj in
  let obj := <["truncated" := JInt 0]> obj in
  let obj := <["difficult" := JInt 0]> obj in
  let obj := <["mask" := JArr []]> obj in
  let obj := <["confidence" := JInt (-1)]> obj in
  let obj := <["quality" := JInt 10]> obj in
  b0 ← index (bounding_box det) 0;
  b1 ← index (bounding_box det) 1;
  b0' ← index (bounding_box det) 0;
  b2 ← index (bounding_box det) 2;
  b1' ← index (bounding_box det) 1;
  b3 ← index (bounding_box det) 3;
  let obj :=
    <["bbox" := JArr [JFloat b0; JFloat b1;
                      JFloat (b0' + b2)%float; JFloat (b1' + b3)%float]]> obj in
  mret (JObj obj).

(** The record that is handed to [json.dump]. *)
Definition build_result (sample : Sample) : res (gmap string FieldVal) :=
  let result : gmap string FieldVal := ∅ in
  let result := copy_fields sample result in
  let result :=
    <["chiebot_sample_tags" :=
        get_sample_field sample "chiebot_sample_tags" (Plain (JArr []))]>
      result in
  m1 ← getitem sample "metadata";
  h ← metadata_attr m1 height;
  m2 ← getitem sample "metadata";
  w ← metadata_attr m2 width;
  m3 ← getitem sample "metadata";
  c ← metadata_attr m3 num_channels;
  let result := <["img_shape" := Plain (JArr [h; w; c])]> result in
  let dets := get_sample_field sample "ground_truth" PyNone in
  objs ← (if truthy dets
          then ds ← detections_attr dets; mapM obj_of ds
          else mret []);
  let result := <["objs_info" := Plain (JArr objs)]> result in
  mret result.

Definition anno_path (sample : Sample) (save_dir : string) : string :=
  path.join save_dir
    (path.splitext_root (path.basename (filepath sample)) +:+ ".anno").

Definition _export_one_sample_anno (sample : Sample) (save_dir : string)
  : M unit :=
  result ← lift (build_result sample);
  let save_path := anno_path sample save_dir in
  write_json save_path result.

Section with_collaborators.
Context (E : Collaborators).

(** [task.result()] for every task, in the order of the futures. *)
Definition collect {A} (tasks : list (res A)) : M unit :=
  for_each tasks (λ task, _ ← lift task; mret tt).

Definition export_anno_file (save_dir : string)
    (dataset : option (list Sample)) : M unit :=
  let run (dataset : list Sample) : M unit :=
    ex ← os_path_exists save_dir;
    (if negb ex then os_mkdir save_dir else mret tt) ;;
    tasks ← submit_all (λ sample, _export_one_sample_anno sample save_dir)
                       dataset;
    collect tasks in
  match dataset with
  | None =>
      dataset ← WEAK_CACHE_get_dataset;
      match dataset with
      | None => logging_warning "no dataset in cache,no thing export"
      | Some dataset => run dataset
      end
  | Some dataset => run dataset
  end.

Definition _export_one_sample (sample : Sample) (exporter : Exporter)
    (get_anno : bool) (save_dir : string) : M unit :=
  let image_path := filepath sample in
  let metadata := get_sample_field sample "metadata" PyNone in
  metadata ←
    (if requires_image_metadata exporter && is_none metadata
     then fs ← get_files;
          m ← lift (ImageMetadata_build_for E fs image_path);
          mret (Metadata m)
     else mret metadata);
  label ← lift (getitem sample "ground_truth");
  emit (ExportSample image_path) ;;
  fs ← get_files;
  fs' ← lift (exporter_export_sample exporter image_path label metadata fs);
  put_files fs' ;;
  if get_anno then _export_one_sample_anno sample save_dir else mret tt.

(** [with exporter: body]: entered, and left whatever [body] does. *)
Definition with_exporter (exporter : Exporter) (body : M unit) : M unit :=
  fs ← get_files;
  fs' ← lift (exporter_enter exporter fs);
  put_files fs' ;;
  r ← submit body;
  fs ← get_files;
  put_files (exporter_exit exporter fs) ;;
  lift r.

Definition export_sample (save_dir : string)
    (dataset : option (list Sample)) (get_anno : bool)
    (kwargs : gmap string Json) : M unit :=
  let run (dataset : list Sample) : M unit :=
    ex ← os_path_exists save_dir;
    (if negb ex then os_mkdir save_dir else mret tt) ;;
    let kwargs := delete "export_dir" kwargs in
    exporter ← lift (SGCCGameDatasetExporter E save_dir kwargs);
    with_exporter exporter (
      emit LogCollection ;;
      tasks ← submit_all
                (λ sample, _export_one_sample sample exporter get_anno
                                              save_dir)
                dataset;
      collect tasks) in
  match dataset with
  | None =>
      dataset ← WEAK_CACHE_get_dataset;
      match dataset with
      | None => logging_warning "no dataset in cache,no thing export"
      | Some dataset => run dataset
      end
  | Some dataset => run dataset
  end.

Definition image_filter : list string :=
  [".jpg"; ".JPG"; ".png"; ".PNG"; ".bmp"; ".BMP"; ".jpeg"; ".JPEG"].

(** [md5sum(xml_path)] *)
Definition call_md5sum (xml_path : string) : M string :=
  emit (Md5sum xml_path) ;;
  fs ← get_files;
  lift (md5sum E fs xml_path).

(** [parse_sample_info(sample.filepath)] *)
Definition call_parse_sample_info (p : string)
  : M (FieldVal * FieldVal * gmap string FieldVal) :=
  emit (ParseSampleInfo p) ;;
  fs ← get_files;
  lift (parse_sample_info E fs p).

(** [generate_sgcc_sample(img_path)] *)
Definition call_generate_sgcc_sample (img_path : string) : M Sample :=
  emit (GenerateSample img_path) ;;
  fs ← get_files;
  lift (generate_sgcc_sample E fs img_path).

(** The dataset object of unattached mode is the cached one; the
    loop reads it there, and what it saves is stored there. *)
Definition the_dataset : M (list Sample) :=
  λ w, match cache_dataset w with
       | Some d => (w, Ok d)
       | None => (w, Raise ValueError)
       end.

Definition put_dataset (dataset : list Sample) : M unit :=
  λ w, (set_cache_dataset (Some dataset) w, Ok tt).

(** [img_path in dataset] and [dataset[img_path]]: the first sample
    with that file path, and its position. *)
Definition dataset_find (dataset : list Sample) (img_path : string)
  : option (nat * Sample) :=
  list_find (λ s, filepath s = img_path) dataset.

(** The sample at position [i] of the dataset takes the state of the
    sample object. *)
Definition store (i : nat) (sample : Sample) : M unit :=
  dataset ← the_dataset;
  put_dataset (<[i := sample]> dataset).

(** [dataset.add_sample(sample)]: the sample comes last; the fields it
    brings are from then on fields of the dataset (see [in_schema]). *)
Definition add_sample (sample : Sample) : M unit :=
  emit (AddSample sample) ;;
  dataset ← the_dataset;
  put_dataset (dataset ++ [sample]).

(** [context.save(sample)] *)
Definition context_save (sample : Sample) : M unit :=
  emit (ContextSave sample).

Definition xml_path_of (sample : Sample) : string :=
  path.splitext_root (filepath sample) +:+ ".xml".

(** The three fields of the second [update_fields] call. *)
Definition refreshed (img_meta label_info : FieldVal) (xml_md5 : string)
  : gmap string FieldVal :=
  {[ "metadata" := img_meta;
     "ground_truth" := label_info;
     "xml_md5" := Plain (JStr xml_md5) ]}.

(** Unattached mode, the body of the loop over [imgs_path].  The
    sample object of an iteration is the loop's own: the dataset takes
    its state where the object is saved. *)
Definition update_listed (img_path : string) : M unit :=
  dataset ← the_dataset;
  match dataset_find dataset img_path with
  | Some (i, sample) =>
      let xml_path := xml_path_of sample in
      ex ← os_path_exists xml_path;
      if negb ex then
        _ ← lift (clear_field dataset sample "ground_truth");
        mret tt
        (* continue: the object is dropped as it is, not saved *)
      else
        xml_md5 ← call_md5sum xml_path;
        if has_field dataset sample "xml_md5" then
          cached ← lift (get_field dataset sample "xml_md5");
          sample ←
            (if differs_from_str cached xml_md5 then
               '(img_meta, label_info, anno_dict) ←
                 call_parse_sample_info (filepath sample);
               let sample := update_fields sample anno_dict in
               let sample :=
                 update_fields sample
                   (refreshed img_meta label_info xml_md5) in
               mret sample
             else mret sample);
          context_save sample ;;
          store i sample
        else mret tt
  | None =>
      sample ← call_generate_sgcc_sample img_path;
      add_sample sample
  end.

(** [sample.id in dataset] *)
Definition is_member (dataset : list Sample) (sample : Sample) : bool :=
  bool_decide (id sample ∈ id <$> dataset).

(** The dataset of a sample of attached mode.  The collection that was
    passed is the cached dataset, a view of it, or a dataset of its own:
    a sample that the cached dataset knows (by its id) is a sample of
    the cached dataset, any other one a sample of the collection. *)
Definition home (cached : option (list Sample))
    (collection : list Sample) (sample : Sample) : list Sample :=
  match cached with
  | Some cached => if is_member cached sample then cached else collection
  | None => collection
  end.

Definition dataset_of (collection : list Sample) (sample : Sample)
  : M (list Sample) :=
  cached ← WEAK_CACHE_get_dataset;
  mret (home cached collection sample).

(** A save writes what is set on the sample object: the members with
    the id of [sample] take its path and its values, and keep the
    values of the fields that are not set on it. *)
Definition save_in (sample : Sample) (dataset : list Sample)
  : list Sample :=
  (λ s, if bool_decide (id s = id sample)
        then {| id := id s; filepath := filepath sample;
                fields := fields sample ∪ fields s |}
        else s) <$> dataset.

(** The save of a sample object of a collection that was passed
    reaches the cached dataset where that knows the sample. *)
Definition save_back (sample : Sample) : M unit :=
  cached ← WEAK_CACHE_get_dataset;
  match cached with
  | Some cached => put_dataset (save_in sample cached)
  | None => mret tt
  end.

(** [iter_samples(autosave=True)]: the sample is saved when the loop
    asks for the next one, also after a [continue]. *)
Definition autosave (sample : Sample) : M unit :=
  emit (Autosave sample) ;;
  save_back sample.

(** Attached mode, the body of the loop over the given collection;
    the result is the sample as the body leaves it. *)
Definition update_given (collection : list Sample) (sample : Sample)
  : M Sample :=
  dataset ← dataset_of collection sample;
  let xml_path := xml_path_of sample in
  ex ← os_path_exists xml_path;
  if negb ex then
    lift (clear_field dataset sample "ground_truth")
    (* continue *)
  else
    xml_md5 ← call_md5sum xml_path;
    if has_field dataset sample "xml_md5" then
      cached ← lift (get_field dataset sample "xml_md5");
      if differs_from_str cached xml_md5 then
        '(img_meta, label_info, anno_dict) ←
          call_parse_sample_info (filepath sample);
        let sample := update_fields sample anno_dict in
        let sample :=
          update_fields sample (refreshed img_meta label_info xml_md5) in
        mret sample
      else mret sample
    else mret sample.

(** Attached mode, the loop: [seen] are the samples that the loop has
    left, as it left them, [todo] the ones to come. *)
Fixpoint update_each (seen todo : list Sample) : M (list Sample) :=
  match todo with
  | [] => mret seen
  | sample :: rest =>
      sample ← update_given (seen ++ sample :: rest) sample;
      autosave sample ;;
      update_each (seen ++ [sample]) rest
  end.

(** [update_dataset(dataset)].  In attached mode the collection that
    was passed is returned as the loop leaves it; in unattached mode
    the dataset is the cached one and nothing is returned. *)
Definition update_dataset (dataset : option (list Sample))
  : M (option (list Sample)) :=
  r ← match dataset with
      | None =>
          dataset ← WEAK_CACHE_get_dataset;
          match dataset with
          | None =>
              logging_warning "no dataset in cache,do no thing" ;;
              mret None
              (* return *)
          | Some dataset =>
              first ← match dataset with
                      | [] => raise ValueError
                      | s :: _ => mret s
                      end;
              let dataset_dir := path.split_head (filepath first) in
              fs ← get_files;
              imgs_path ←
                lift (get_all_file_path E fs dataset_dir
                        (Some image_filter));
              for_each imgs_path update_listed ;;
              emit DatasetSave ;;
              mret (Some None)
          end
      | Some dataset =>
          dataset ← update_each [] dataset;
          mret (Some (Some dataset))
      end;
  match r with
  | None => mret None
  | Some out =>
      session ← WEAK_CACHE_get_session;
      match session with
      | Some _ => emit SessionRefresh
      | None => mret tt
      end ;;
      mret out
  end.

(** Truth value of the cache entries: a dataset has a length, a
    session has none. *)
Definition dataset_truthy (d : option (list Sample)) : bool :=
  match d with
  | Some d => negb (Nat.eqb (length d) 0)
  | None => false
  end.

Definition session_truthy (s : option Session) : bool :=
  match s with
  | Some _ => true
  | None => false
  end.

(** [dataset.select_by("filepath", imgs_path)] and
    [dataset.select(ids)] *)
Definition select_by_filepath (dataset : list Sample)
    (imgs_path : list string) : list Sample :=
  filter (λ s, filepath s ∈ imgs_path) dataset.

Definition select (dataset : list Sample) (ids : list string)
  : list Sample :=
  filter (λ s, id s ∈ ids) dataset.

Definition get_select_dv (txt_path : option string)
  : M (option (list Sample)) :=
  dataset ← WEAK_CACHE_get_dataset;
  session ← WEAK_CACHE_get_session;
  if dataset_truthy dataset && session_truthy session then
    match dataset, session with
    | Some dataset, Some session =>
        match txt_path with
        | Some txt_path =>
            ex ← os_path_exists txt_path;
            if (ex : bool) then
              fs ← get_files;
              imgs_path ← lift (get_all_file_path E fs txt_path None);
              mret (Some (select_by_filepath dataset imgs_path))
            else mret None
        | None => mret (Some (select dataset (selected session)))
        end
    | _, _ => mret None
    end
  else mret None.

End with_collaborators.

Section field_assignment.
Context (E : Collaborators).

(** [json.load] of the file at a path, with its [open]: a collaborator
    of the standard library, which raises when the file is missing or
    holds no JSON object.  The items come in the order of the file. *)
Context (json_load_file
         : gmap string File → string → res (list (string * Json))).

(** [sample[k] = v].  The path and the id are attributes of the sample
    that go by a field name. *)
Definition setitem (sample : Sample) (k : string) (v : FieldVal)
  : res Sample :=
  validate_field E k v ;;
  if String.eqb k "filepath" then
    match v with
    | Plain (JStr p) =>
        Ok {| id := id sample; filepath := p; fields := fields sample |}
    | _ => Raise ValidationError
    end
  else if String.eqb k "id" then
    match v with
    | Plain (JStr i) =>
        Ok {| id := i; filepath := filepath sample;
              fields := fields sample |}
    | _ => Raise ValidationError
    end
  else Ok (with_fields sample (<[k := v]> (fields sample))).

(** The loop over [fields_dict.items()]. *)
Fixpoint assign_fields (fields_dict : list (string * FieldVal))
    (sample : Sample) : res Sample :=
  match fields_dict with
  | [] => Ok sample
  | (k, v) :: fields_dict =>
      sample ← setitem sample k v;
      assign_fields fields_dict sample
  end.

(** The loop over [dataset.select_by("filepath", imgs_path)]: the view
    yields, in the order of the dataset, the samples whose path is
    listed; the other samples are passed over.  [i] is the position of
    the first sample of [todo] in the dataset, which takes the state of
    a sample where the sample is saved.  The result is the collection
    as the loop leaves it. *)
Fixpoint assign_selected (cached : bool) (imgs_path : list string)
    (fields_dict : list (string * FieldVal)) (i : nat)
    (todo : list Sample) : M (list Sample) :=
  match todo with
  | [] => mret []
  | sample :: rest =>
      sample ←
        (if decide (filepath sample ∈ imgs_path) then
           sample ← lift (assign_fields fields_dict sample);
           context_save sample ;;
           (if cached then store i sample else save_back sample) ;;
           mret sample
         else mret sample);
      rest ← assign_selected cached imgs_path fields_dict (S i) rest;
      mret (sample :: rest)
  end.

(** [add_dataset_fields_by_txt(txt_path, fields_dict, dataset)].
    [fields_dict] is the path of a JSON file or a dict.  As for
    [update_dataset], a collection that was passed is returned as the
    loop leaves it, and the cached dataset is updated in the cache. *)
Definition add_dataset_fields_by_txt (txt_path : string)
    (fields_dict : string + list (string * FieldVal))
    (dataset : option (list Sample)) : M (option (list Sample)) :=
  let run (cached : bool) (dataset : list Sample)
    : M (option (list Sample)) :=
    fs ← get_files;
    imgs_path ← lift (get_all_file_path E fs txt_path (Some image_filter));
    fields_dict ←
      match fields_dict with
      | inl json_path =>
          fs ← get_files;
          doc ← lift (json_load_file fs json_path);
          mret (prod_map (λ k, k) Plain <$> doc)
      | inr fields_dict => mret fields_dict
      end;
    dataset ← assign_selected cached imgs_path fields_dict 0 dataset;
    session ← WEAK_CACHE_get_session;
    match session with
    | Some _ => emit SessionRefresh
    | None => mret tt
    end ;;
    mret (if cached then None else Some dataset) in
  match dataset with
  | None =>
      dataset ← WEAK_CACHE_get_dataset;
      match dataset with
      | None =>
          logging_warning "no dataset in cache,do no thing" ;;
          mret None
          (* return *)
      | Some dataset => run true dataset
      end
  | Some dataset => run false dataset
  end.

End field_assignment.

End exporter.

(** ** [core/tools/export.py]: the second copy of the serializer *)

Module export.

Definition need_export_map : list (string * string) :=
  [ ("data_source", "data_source");
    ("img_quality", "img_quality");
    ("additions", "additions");
    ("tags", "sample_tags");
    ("chiebot_ID", "ID") ].

Definition copy_fields (sample : Sample) (result : gmap string FieldVal)
  : gmap string FieldVal :=
  foldl (λ result '(k, v),
           let vv := get_sample_field sample k PyNone in
           if truthy vv then <[v := vv]> result else result)
        result need_export_map.

Definition obj_of (det : Detection) : res Json :=
  let obj : gmap string Json := ∅ in
  let obj := <["name" := JStr (label det)]> obj in
  let obj := <["pose" := JStr "Unspecified"]> obj in
  let obj := <["truncated" := JInt 0]> obj in
  let obj := <["difficult" := JInt 0]> obj in
  let obj := <["mask" := JArr []]> obj in
  let obj := <["confidence" := JInt (-1)]> obj in
  let obj := <["quality" := JInt 10]> obj in
  b0 ← index (bounding_box det) 0;
  b1 ← index (bounding_box det) 1;
  b0' ← index (bounding_box det) 0;
  b2 ← index (bounding_box det) 2;
  b1' ← index (bounding_box det) 1;
  b3 ← index (bounding_box det) 3;
  let obj :=
    <["bbox" := JArr [JFloat b0; JFloat b1;
                      JFloat (b0' + b2)%float; JFloat (b1' + b3)%float]]> obj in
  mret (JObj obj).

Definition build_result (sample : Sample) : res (gmap string FieldVal) :=
  let result : gmap string FieldVal := ∅ in
  let result := copy_fields sample result in
  let result :=
    <["chiebot_sample_tags" :=
        get_sample_field sample "chiebot_sample_tags" (Plain (JArr []))]>
      result in
  m1 ← getitem sample "metadata";
  h ← metadata_attr m1 height;
  m2 ← getitem sample "metadata";
  w ← metadata_attr m2 width;
  m3 ← getitem sample "metadata";
  c ← metadata_attr m3 num_channels;
  let result := <["img_shape" := Plain (JArr [h; w; c])]> result in
  let dets := get_sample_field sample "ground_truth" PyNone in
  objs ← (if truthy dets
          then ds ← detections_attr dets; mapM obj_of ds
          else mret []);
  let result := <["objs_info" := Plain (JArr objs)]> result in
  mret result.

Definition anno_path (sample : Sample) (save_dir : string) : string :=
  path.join save_dir
    (path.splitext_root (path.basename (filepath sample)) +:+ ".anno").

(** This copy returns the path it wrote. *)
Definition _export_one_sample_anno (sample : Sample) (save_dir : string)
  : M string :=
  result ← lift (build_result sample);
  let save_path := anno_path sample save_dir in
  write_json save_path result ;;
  mret save_path.

(** The dataset that a session shows, [s.dataset]. *)
Section with_session.
Context (session_dataset : Session → list Sample).

(** [task.result()] for every task, in the order of the futures. *)
Definition collect (tasks : list (res string)) : M unit :=
  for_each tasks (λ task, _ ← lift task; mret tt).

(** [export_anno_file(save_dir, dataset)] of this file: the dataset
    that is not passed is the one of the cached session.  Standard
    output is no part of the world: the lines the call prints are what
    it returns here. *)
Definition export_anno_file (save_dir : string)
    (dataset : option (list Sample)) : M (list string) :=
  let run (dataset : list Sample) : M (list string) :=
    ex ← os_path_exists save_dir;
    (if negb ex then os_mkdir save_dir else mret tt) ;;
    tasks ← submit_all (λ sample, _export_one_sample_anno sample save_dir)
                       dataset;
    collect tasks ;;
    mret ["anno ????????????"] in
  match dataset with
  | None =>
      s ← WEAK_CACHE_get_session;
      match s with
      | None =>
          logging_warning "no dataset in cache,no thing export" ;;
          mret []
          (* return *)
      | Some s => run (session_dataset s)
      end
  | Some dataset => run dataset
  end.

End with_session.

End export.

(** ** Vocabulary of the statements *)

(** The box of a detection starts with [x, y, w, h]. *)
Definition has_box (det : Detection) : Prop :=
  ∃ x y bw bh rest, bounding_box det = x :: y :: bw :: bh :: rest.

(** The record written for one detection. *)
Definition is_obj_of (det : Detection) (j : Json) : Prop :=
  ∃ o, j = JObj o
    ∧ o !! "name" = Some (JStr (label det))
    ∧ o !! "pose" = Some (JStr "Unspecified")
    ∧ o !! "truncated" = Some (JInt 0)
    ∧ o !! "difficult" = Some (JInt 0)
    ∧ o !! "mask" = Some (JArr [])
    ∧ o !! "confidence" = Some (JInt (-1))
    ∧ o !! "quality" = Some (JInt 10)
    ∧ ∀ x y bw bh rest,
        bounding_box det = x :: y :: bw :: bh :: rest →
        o !! "bbox" = Some (JArr [JFloat x; JFloat y;
                                  JFloat (x + bw)%float;
                                  JFloat (y + bh)%float]).

(** The fields that reach [json.dump] besides the shape and the
    object records. *)
Definition dumped_fields : list string :=
  ["data_source"; "img_quality"; "additions"; "tags"; "chiebot_ID";
   "chiebot_sample_tags"].

Definition dumped_fields_plain (sample : Sample) : Prop :=
  ∀ k v, k ∈ dumped_fields → fields sample !! k = Some v → is_plain v.

(** The world with more calls on its trace. *)
Definition add_events (evs : list Event) (w : World) : World :=
  {| files := files w; cache_dataset := cache_dataset w;
     cache_session := cache_session w; trace := trace w ++ evs |}.

(** The file paths of a dataset, the samples passed to [context.save],
    the samples passed to [add_sample] and the checksummed paths of a
    trace. *)
Definition paths (dataset : list Sample) : list string :=
  filepath <$> dataset.

Definition saved (evs : list Event) : list Sample :=
  omap (λ e, match e with ContextSave s => Some s | _ => None end) evs.

Definition added (evs : list Event) : list Sample :=
  omap (λ e, match e with AddSample s => Some s | _ => None end) evs.

Definition checksummed (evs : list Event) : list string :=
  omap (λ e, match e with Md5sum p => Some p | _ => None end) evs.

Definition parsed (evs : list Event) : list string :=
  omap (λ e, match e with ParseSampleInfo p => Some p | _ => None end) evs.

(** The call that closes [update_dataset] when a session is cached. *)
Definition refresh_calls (w : World) : list Event :=
  match cache_session w with
  | Some _ => [SessionRefresh]
  | None => []
  end.

(** The samples that [iter_samples(autosave=True)] saved. *)
Definition autosaved (evs : list Event) : list Sample :=
  omap (λ e, match e with Autosave s => Some s | _ => None end) evs.

(** A dataset keeps its fields, which only grow in number; a sample
    keeps the names of the fields that are set on it. *)
Definition grows (ds ds' : list Sample) : Prop :=
  ∀ k, in_schema ds k = true → in_schema ds' k = true.

Definition keeps_names (s s' : Sample) : Prop :=
  ∀ k, is_Some (fields s !! k) → is_Some (fields s' !! k).

Section sync.
Context (E : Collaborators).
Implicit Types (fs : gmap string File) (ds : list Sample) (s : Sample).

Definition sidecar_exists fs s : bool :=
  bool_decide (is_Some (fs !! exporter.xml_path_of s)).

(** The cached checksum that the rule compares, for a sample of a
    dataset that has the checksum field ([has]): a sample on which the
    field was never set holds [None]. *)
Definition cached_checksum (has : bool) s : option FieldVal :=
  if has then Some (default PyNone (fields s !! "xml_md5")) else None.

(** The checksum-diff rule, as a function of the files. *)
Definition refreshed_by fs (has : bool) s : res Sample :=
  xml_md5 ← md5sum E fs (exporter.xml_path_of s);
  match cached_checksum has s with
  | Some cached =>
      if differs_from_str cached xml_md5 then
        '(img_meta, label_info, anno_dict) ←
          parse_sample_info E fs (filepath s);
        mret (update_fields (update_fields s anno_dict)
                (exporter.refreshed img_meta label_info xml_md5))
      else mret s
  | None => mret s
  end.

(** What the body of either loop makes of the sample object it holds,
    the sample being one of the dataset [ds]. *)
Definition synced fs ds s : res Sample :=
  if sidecar_exists fs s
  then refreshed_by fs (in_schema ds "xml_md5") s
  else clear_field ds s "ground_truth".

(** What the dataset holds of a member after its iteration of the
    unattached loop: the object reaches the dataset where it is saved,
    which is on the way through the checksum. *)
Definition kept fs ds s : res Sample :=
  s' ← synced fs ds s;
  mret (if sidecar_exists fs s then s' else s).

(** A sample whose cached checksum is that of its sidecar. *)
Definition in_sync fs s : Prop :=
  sidecar_exists fs s = true
  ∧ ∃ h, md5sum E fs (exporter.xml_path_of s) = Ok h
         ∧ fields s !! "xml_md5" = Some (Plain (JStr h)).

(** A sample that its own iteration leaves as it is, in every
    dataset. *)
Definition settled fs s : Prop :=
  ∀ ds s', kept fs ds s = Ok s' → s' = s.

(** The collaborator calls that the rule makes, and those made on the
    way through the body of either loop. *)
Definition rule_calls fs (has : bool) s : list Event :=
  Md5sum (exporter.xml_path_of s) ::
  match md5sum E fs (exporter.xml_path_of s), cached_checksum has s with
  | Ok xml_md5, Some cached =>
      if differs_from_str cached xml_md5
      then [ParseSampleInfo (filepath s)]
      else []
  | _, _ => []
  end.

Definition sync_calls fs ds s : list Event :=
  if sidecar_exists fs s
  then rule_calls fs (in_schema ds "xml_md5") s
  else [].

(** The save that closes an iteration of the unattached loop. *)
Definition save_call fs ds s (s' : Sample) : list Event :=
  if sidecar_exists fs s && in_schema ds "xml_md5"
  then [ContextSave s']
  else [].

(** The unattached loop, one step per listed path: a member is synced,
    a path that is no member yet is built and appended. *)
Inductive steps fs
  : list string → list Sample → list Sample → list Event → Prop :=
| steps_nil ds : steps fs [] ds ds []
| steps_member p imgs ds i s s' ds' evs :
    exporter.dataset_find ds p = Some (i, s) →
    kept fs ds s = Ok s' →
    steps fs imgs (<[i := s']> ds) ds' evs →
    steps fs (p :: imgs) ds ds'
          (sync_calls fs ds s ++ save_call fs ds s s' ++ evs)
| steps_new p imgs ds g ds' evs :
    exporter.dataset_find ds p = None →
    generate_sgcc_sample E fs p = Ok g →
    steps fs imgs (ds ++ [g]) ds' evs →
    steps fs (p :: imgs) ds ds' (GenerateSample p :: AddSample g :: evs).

(** The attached loop, one step per sample of the collection: [seen]
    are the samples that the loop has left, [cached] is the cached
    dataset, in which every sample is saved as the loop leaves it. *)
Inductive given_steps fs
  : option (list Sample) → list Sample → list Sample
    → option (list Sample) → list Sample → list Event → Prop :=
| given_nil cached seen : given_steps fs cached seen [] cached seen []
| given_cons cached seen s rest s' cached' out evs :
    synced fs (exporter.home cached (seen ++ s :: rest) s) s = Ok s' →
    given_steps fs (exporter.save_in s' <$> cached) (seen ++ [s']) rest
                cached' out evs →
    given_steps fs cached seen (s :: rest) cached' out
      (sync_calls fs (exporter.home cached (seen ++ s :: rest) s) s
       ++ Autosave s' :: evs).

(** What the updater owes a sample [s] whose sidecar exists, in a
    dataset that has the checksum field or has it not ([has]): the
    checksum is computed; with the field, a cached checksum that is
    unset or differs makes the sidecar be parsed and its metadata,
    label, extra annotation fields and the fresh checksum be written
    over the sample; otherwise the sample is left as it is. *)
Definition refresh_outcome fs (has : bool) s (s' : Sample)
    (evs : list Event) : Prop :=
  ∃ xml_md5,
    md5sum E fs (exporter.xml_path_of s) = Ok xml_md5
    ∧ exporter.xml_path_of s ∈ checksummed evs
    ∧ match cached_checksum has s with
      | Some cached =>
          if differs_from_str cached xml_md5
          then ∃ img_meta label_info anno_dict,
                 parse_sample_info E fs (filepath s)
                 = Ok (img_meta, label_info, anno_dict)
                 ∧ filepath s ∈ parsed evs
                 ∧ s' = update_fields (update_fields s anno_dict)
                          (exporter.refreshed img_meta label_info xml_md5)
          else s' = s
      | None => s' = s
      end.

(** The media files that unattached mode lists: those under the
    directory of the first sample of the cached dataset. *)
Definition media_files (w : World) : res (list string) :=
  match cache_dataset w with
  | Some (first :: _) =>
      get_all_file_path E (files w) (path.split_head (filepath first))
                        (Some exporter.image_filter)
  | _ => Raise ValueError
  end.

(** The sample builder keeps the path it is given. *)
Definition builder_keeps_path : Prop :=
  ∀ fs p g, generate_sgcc_sample E fs p = Ok g → filepath g = p.

End sync.

(** ** Vocabulary of the further statements *)

(** The document the serializer writes for a sample, when it does. *)
Definition anno_doc (sample : Sample) : res (gmap string Json) :=
  result ← exporter.build_result sample; json_dump result.

(** The keys a written document can hold. *)
Definition anno_keys : list string :=
  ["data_source"; "img_quality"; "additions"; "sample_tags"; "ID";
   "chiebot_sample_tags"; "img_shape"; "objs_info"].

(** What [open(p, "w")] answers. *)
Definition can_open (fs : gmap string File) (p : string) : res unit :=
  isdir fs (path.split_head p) ;;
  match fs !! p with
  | Some Dir => Raise IsADirectoryError
  | _ => Ok tt
  end.

(** The files after the serializer ran on a sample, and after it ran on
    the samples of a list, one after the other. *)
Definition task_files (save_dir : string) (fs : gmap string File)
    (sample : Sample) : gmap string File :=
  match exporter.build_result sample with
  | Ok result =>
      match can_open fs (exporter.anno_path sample save_dir) with
      | Ok _ =>
          match json_dump result with
          | Ok doc =>
              <[exporter.anno_path sample save_dir := JsonDoc doc]> fs
          | Raise _ =>
              <[exporter.anno_path sample save_dir := Truncated]> fs
          end
      | Raise _ => fs
      end
  | Raise _ => fs
  end.

Definition tasks_files (save_dir : string) (fs : gmap string File)
    (dataset : list Sample) : gmap string File :=
  foldl (task_files save_dir) fs dataset.

(** A file system in which [save_dir] is a directory and the files of
    the samples can be opened. *)
Definition ready (save_dir : string) (fs : gmap string File)
    (ds : list Sample) : Prop :=
  fs !! save_dir = Some Dir
  ∧ ∀ s, s ∈ ds →
      path.split_head (exporter.anno_path s save_dir) = save_dir
      ∧ fs !! exporter.anno_path s save_dir ≠ Some Dir.

(** The files once [save_dir] is there. *)
Definition with_dir (save_dir : string) (fs : gmap string File)
  : gmap string File :=
  if bool_decide (is_Some (fs !! save_dir)) then fs
  else <[save_dir := Dir]> fs.

(** What [os.mkdir(p)] answers. *)
Definition can_mkdir (fs : gmap string File) (p : string) : res unit :=
  if String.eqb p "" then Raise FileNotFoundError
  else if bool_decide (is_Some (fs !! p)) || path.all_char "/"%char p
  then Raise FileExistsError
  else isdir fs (path.split_head p).

(** What the two export functions answer when they look for [save_dir]
    and make it where it is missing. *)
Definition dir_found (fs : gmap string File) (save_dir : string)
  : res unit :=
  if bool_decide (is_Some (fs !! save_dir)) then Ok tt
  else can_mkdir fs save_dir.

(** A directory that takes the file of every sample of a dataset:
    it is a directory or can be made, and the path of every file lies
    directly in it and is not a directory itself. *)
Definition takes_files (fs : gmap string File) (save_dir : string)
    (dataset : list Sample) : Prop :=
  (fs !! save_dir = Some Dir
   ∨ fs !! save_dir = None ∧ can_mkdir fs save_dir = Ok tt)
  ∧ ∀ s, s ∈ dataset →
      path.split_head (exporter.anno_path s save_dir) = save_dir
      ∧ fs !! exporter.anno_path s save_dir ≠ Some Dir.

(** The calls an iteration of the updater's loops can make. *)
Definition loop_call (e : Event) : Prop :=
  match e with
  | Md5sum _ | ParseSampleInfo _ | GenerateSample _
  | ContextSave _ | AddSample _ => True
  | _ => False
  end.

(** The calls an iteration of the attached loop can make. *)
Definition given_call (e : Event) : Prop :=
  match e with
  | Md5sum _ | ParseSampleInfo _ | Autosave _ => True
  | _ => False
  end.

(** The names that are attributes of a sample. *)
Definition attribute_names : list string := ["filepath"; "id"].

(** What the library answers to an assignment: its check, and a path
    or an id must be a string. *)
Definition accepts (E : Collaborators) (item : string * FieldVal)
  : res unit :=
  validate_field E item.1 item.2 ;;
  if String.eqb item.1 "filepath" || String.eqb item.1 "id" then
    match item.2 with
    | Plain (JStr _) => Ok tt
    | _ => Raise ValidationError
    end
  else Ok tt.

(** The first refusal among the items of a dict. *)
Fixpoint accepts_all (E : Collaborators)
    (fields_dict : list (string * FieldVal)) : res unit :=
  match fields_dict with
  | [] => Ok tt
  | item :: fields_dict => accepts E item ;; accepts_all E fields_dict
  end.

(** What an assignment that is accepted makes of the id, of the path
    and of the fields of a sample, and so of the sample. *)
Definition id_after (i : string) (item : string * FieldVal) : string :=
  if String.eqb item.1 "id" then
    match item.2 with
    | Plain (JStr j) => j
    | _ => i
    end
  else i.

Definition path_after (p : string) (item : string * FieldVal) : string :=
  if String.eqb item.1 "filepath" then
    match item.2 with
    | Plain (JStr q) => q
    | _ => p
    end
  else p.

Definition fields_after (m : gmap string FieldVal)
    (item : string * FieldVal) : gmap string FieldVal :=
  if String.eqb item.1 "filepath" || String.eqb item.1 "id" then m
  else <[item.1 := item.2]> m.

Definition set_value (s : Sample) (item : string * FieldVal) : Sample :=
  {| id := id_after (id s) item;
     filepath := path_after (filepath s) item;
     fields := fields_after (fields s) item |}.

(** A dict whose items the library accepts and that assigns to fields
    only, each once. *)
Definition assignable (E : Collaborators)
    (fields_dict : list (string * FieldVal)) : Prop :=
  NoDup fields_dict.*1
  ∧ (∀ k, k ∈ attribute_names → k ∉ fields_dict.*1)
  ∧ ∀ k v, (k, v) ∈ fields_dict → validate_field E k v = Ok tt.

(** What the assignment of such a dict makes of a sample. *)
Definition assigned (fields_dict : list (string * FieldVal)) (s : Sample)
  : Sample :=
  with_fields s (list_to_map fields_dict ∪ fields s).

(** The loop of the field assignment over a dataset: the dataset as
    the loop leaves it, the samples it saved, and how it ends.  It
    stops at the first listed sample that cannot be assigned to. *)
Fixpoint assign_run (assign : Sample → res Sample)
    (imgs_path : list string) (dataset : list Sample)
  : list Sample * list Sample * res unit :=
  match dataset with
  | [] => ([], [], Ok tt)
  | s :: dataset =>
      if decide (filepath s ∈ imgs_path) then
        match assign s with
        | Ok s' =>
            let '(dataset', saved, r) :=
              assign_run assign imgs_path dataset in
            (s' :: dataset', s' :: saved, r)
        | Raise e => (s :: dataset, [], Raise e)
        end
      else
        let '(dataset', saved, r) := assign_run assign imgs_path dataset in
        (s :: dataset', saved, r)
  end.

(** The result a task of the dispatch keeps, in [exporter.py] and in
    [export.py], for the files it finds. *)
Definition task_result (save_dir : string) (fs : gmap string File)
    (s : Sample) : res unit :=
  result ← exporter.build_result s;
  can_open fs (exporter.anno_path s save_dir) ;;
  json_dump result ;;
  Ok tt.

Definition task_path (save_dir : string) (fs : gmap string File)
    (s : Sample) : res string :=
  task_result save_dir fs s ;; Ok (exporter.anno_path s save_dir).

(** The results that the tasks of the dispatch keep, run one after the
    other on the files. *)
Fixpoint tasks_results (save_dir : string) (fs : gmap string File)
    (dataset : list Sample) : list (res unit) :=
  match dataset with
  | [] => []
  | s :: dataset =>
      task_result save_dir fs s
      :: tasks_results save_dir (task_files save_dir fs s) dataset
  end.

(** The first exception among the results of the tasks. *)
Fixpoint first_error {A} (tasks : list (res A)) : res unit :=
  match tasks with
  | [] => Ok tt
  | Ok _ :: tasks => first_error tasks
  | Raise e :: _ => Raise e
  end.

(** What a world keeps through the loops, whatever they return. *)
Definition frame (P : Event → Prop) (w w' : World) : Prop :=
  files w' = files w
  ∧ cache_session w' = cache_session w
  ∧ ∃ evs, trace w' = (trace w ++ evs)%list ∧ Forall P evs.

(** ** Sample collaborators and worlds

    A small, concrete environment on which the functions can be run. *)

Module demo.

(** A checksum that is the text of the file. *)
Definition md5 (fs : gmap string File) (p : string) : res string :=
  match fs !! p with
  | Some (Text c) => Ok c
  | _ => Raise (CollaboratorError "md5sum")
  end.

Definition meta : ImageMetadata :=
  mkImageMetadata (Some 10%Z) (Some 20%Z) (Some 3%Z).

Definition cat : Detection :=
  mkDetection "cat" [0.25; 0.5; 0.125; 0.25]%float (Some 0.5%float)
              {[ "pose" := JStr "Left" ]}.

Definition dog : Detection :=
  mkDetection "dog" [0.5; 0.25; 0.25; 0.5]%float None ∅.

(** The parse of a sidecar: one detection, and the source as an extra
    annotation field. *)
Definition parse (fs : gmap string File) (p : string)
  : res (FieldVal * FieldVal * gmap string FieldVal) :=
  Ok (Metadata meta, Detections [dog],
      {[ "data_source" := Plain (JStr "camera") ]}).

Definition generate (fs : gmap string File) (p : string) : res Sample :=
  Ok (mkSample ("new:" +:+ p) p {[ "metadata" := Metadata meta ]}).

(** The listing: the three media paths of the demo that exist. *)
Definition listing (fs : gmap string File) (dir : string)
    (filter_ : option (list string)) : res (list string) :=
  Ok (filter (λ p, is_Some (fs !! p))
             ["/data/a.jpg"; "/data/b.jpg"; "/data/c.jpg"]).

(** A check that lets every assignment pass but one to [img_quality]
    of a value that is no number. *)
Definition check (k : string) (v : FieldVal) : res unit :=
  if String.eqb k "img_quality" then
    match v with
    | Plain (JInt _) | Plain (JFloat _) | Plain JNull => Ok tt
    | _ => Raise ValidationError
    end
  else Ok tt.

Definition the_exporter : Exporter :=
  mkExporter false (λ fs, Ok fs) (λ _ _ _ fs, Ok fs) (λ fs, fs).

Definition E : Collaborators :=
  mkCollaborators md5 parse generate listing
    (λ _ _, Ok meta) (λ _ _, Ok the_exporter) check.

(** [a.jpg] has a sidecar and a stale checksum, [b.jpg] has lost its
    sidecar, [c.jpg] is not in the dataset. *)
Definition fs : gmap string File :=
  {[ "/data" := Dir;
     "/data/a.jpg" := Text "A";
     "/data/a.xml" := Text "new";
     "/data/b.jpg" := Text "B";
     "/data/c.jpg" := Text "C";
     "/data/c.xml" := Text "c" ]}.

Definition a : Sample :=
  mkSample "1" "/data/a.jpg"
    {[ "metadata" := Metadata meta;
       "ground_truth" := Detections [cat; dog];
       "xml_md5" := Plain (JStr "old");
       "data_source" := Plain (JStr "web");
       "tags" := Plain (JArr []) ]}.

Definition b : Sample :=
  mkSample "2" "/data/b.jpg"
    {[ "metadata" := Metadata meta;
       "ground_truth" := Detections [cat];
       "xml_md5" := Plain (JStr "gone") ]}.

Definition session : Session := mkSession ["1"].

Definition empty_cache : World := mkWorld fs None None [].
Definition w : World := mkWorld fs (Some [a; b]) (Some session) [].

(** A member with a sidecar and no cached checksum, alone in its
    directory. *)
Definition fs_c : gmap string File :=
  {[ "/data" := Dir;
     "/data/c.jpg" := Text "C";
     "/data/c.xml" := Text "c" ]}.

Definition c : Sample :=
  mkSample "3" "/data/c.jpg"
    {[ "metadata" := Metadata meta;
       "ground_truth" := Detections [cat] ]}.

Definition w_c : World := mkWorld fs_c (Some [c]) None [].

(** That member in a dataset that has the checksum field, set on
    [a]. *)
Definition w_ac : World := mkWorld fs (Some [a; c]) None [].

(** What [parse] makes of [c]. *)
Definition c_new : Sample :=
  update_fields
    (update_fields c {[ "data_source" := Plain (JStr "camera") ]})
    (exporter.refreshed (Metadata meta) (Detections [dog]) "c").

(** The empty dataset, with a session. *)
Definition w_empty : World := mkWorld fs (Some []) (Some session) [].

(** What [parse] makes of [a]. *)
Definition a_new : Sample :=
  update_fields
    (update_fields a {[ "data_source" := Plain (JStr "camera") ]})
    (exporter.refreshed (Metadata meta) (Detections [dog]) "new").

(** [b] without its label. *)
Definition b_cleared : Sample :=
  with_fields b (<["ground_truth" := PyNone]> (fields b)).

(** The worlds after a run of the updater. *)
Definition after : World := fst (exporter.update_dataset E None w).
Definition after_given : World :=
  fst (exporter.update_dataset E (Some [a; b]) w).
Definition after_c : World := fst (exporter.update_dataset E None w_c).
Definition after_ac : World := fst (exporter.update_dataset E None w_ac).
Definition after_again : World :=
  fst (exporter.update_dataset E None after).
Definition after_anno : World :=
  fst (exporter._export_one_sample_anno a "/data" w).

(** A sample without metadata and without label, and one whose only
    detection has a box of three numbers. *)
Definition bare : Sample := mkSample "4" "/data/d.jpg" ∅.

Definition short_box : Sample :=
  mkSample "5" "/data/e.jpg"
    {[ "metadata" := Metadata meta;
       "ground_truth" :=
         Detections [mkDetection "cat" [0.25; 0.5; 0.125]%float None ∅] ]}.

(** A sample with metadata and no label field. *)
Definition unlabelled : Sample :=
  mkSample "6" "/data/f.jpg" {[ "metadata" := Metadata meta ]}.

(** The same stem as [a] under another extension. *)
Definition a_png : Sample :=
  mkSample "7" "/data/a.png"
    {[ "metadata" := Metadata meta; "ground_truth" := Detections [dog] ]}.

(** An exporter that needs no metadata and writes a marker file. *)
Definition marking_exporter : Exporter :=
  mkExporter false (λ fs, Ok fs)
    (λ image_path _ _ fs, Ok (<[image_path +:+ ".exported" := Text ""]> fs))
    (λ fs, <["/out/closed" := Text ""]> fs).

Definition E_marking : Collaborators :=
  mkCollaborators md5 parse generate listing
    (λ _ _, Ok meta) (λ _ _, Ok marking_exporter) check.

(** Reading a JSON file: the document of the file, if it holds one. *)
Definition load (fs : gmap string File) (p : string)
  : res (list (string * Json)) :=
  match fs !! p with
  | Some (JsonDoc doc) => Ok (map_to_list doc)
  | _ => Raise (CollaboratorError "json.load")
  end.

Definition review : list (string * FieldVal) :=
  [ ("data_source", Plain (JStr "review")); ("checked", Plain (JBool true)) ].

(** A world with a cached dataset and no session. *)
Definition w_no_session : World := mkWorld fs (Some [a; b]) None [].

(** The dataset a session shows. *)
Definition shown (s : Session) : list Sample := [a].

(** A world where the sidecar of [a] is a directory, so that its
    checksum cannot be computed. *)
Definition fs_bad : gmap string File :=
  {[ "/data" := Dir;
     "/data/a.jpg" := Text "A";
     "/data/a.xml" := Dir ]}.

Definition w_bad : World := mkWorld fs_bad (Some [a]) (Some session) [].

(** A dataset that holds the path of [a] twice. *)
Definition w_twice : World := mkWorld fs (Some [a; a]) None [].

End demo.

(** * Properties *)

Ltac unfold_M :=
  unfold mbind, M_bind, mret, M_ret, lift, raise, emit, get_files, put_files,
    logging_warning, WEAK_CACHE_get_dataset, WEAK_CACHE_get_session,
    os_path_exists, os_mkdir, submit in *.

(** ** Path examples *)

Example splitext_jpg :
  path.splitext_root "/data/img/a.b.jpg" = "/data/img/a.b".
Proof. reflexivity. Qed.

Example splitext_hidden :
  path.splitext_root "/data.d/.bashrc" = "/data.d/.bashrc".
Proof. reflexivity. Qed.

Example split_head_ex : path.split_head "/data/img//a.jpg" = "/data/img".
Proof. reflexivity. Qed.

Example basename_ex : path.basename "/data/img/a.jpg" = "a.jpg".
Proof. reflexivity. Qed.

Example join_ex : path.join "out" "a.anno" = "out/a.anno".
Proof. reflexivity. Qed.

(** ** No cached dataset *)

(** C8. With no dataset argument and no dataset in the cache,
    [export_anno_file], [export_sample] and [update_dataset] log one
    warning and return: files and cache are as before, the trace grew by
    that warning only.  [get_select_dv] returns [None] and leaves the
    world as it is. *)
Theorem no_cached_dataset_is_noop (E : Collaborators) (w : World)
    (save_dir : string) (get_anno : bool) (kwargs : gmap string Json)
    (txt_path : option string) :
  cache_dataset w = None →
  exporter.export_anno_file save_dir None w
    = (add_event (Warning "no dataset in cache,no thing export") w, Ok tt)
  ∧ exporter.export_sample E save_dir None get_anno kwargs w
    = (add_event (Warning "no dataset in cache,no thing export") w, Ok tt)
  ∧ exporter.update_dataset E None w
    = (add_event (Warning "no dataset in cache,do no thing") w, Ok None)
  ∧ exporter.get_select_dv E txt_path w = (w, Ok None).
Proof.
  intros Hc.
  unfold exporter.export_anno_file, exporter.export_sample,
    exporter.update_dataset, exporter.get_select_dv.
  unfold_M. rewrite Hc. simpl. done.
Qed.

Lemma no_cached_dataset_is_noop_witness :
  cache_dataset demo.empty_cache = None
  ∧ exporter.export_anno_file "out" None demo.empty_cache
    = (add_event (Warning "no dataset in cache,no thing export")
                 demo.empty_cache, Ok tt)
  ∧ exporter.export_sample demo.E "out" None true ∅ demo.empty_cache
    = (add_event (Warning "no dataset in cache,no thing export")
                 demo.empty_cache, Ok tt)
  ∧ exporter.update_dataset demo.E None demo.empty_cache
    = (add_event (Warning "no dataset in cache,do no thing")
                 demo.empty_cache, Ok None)
  ∧ exporter.get_select_dv demo.E None demo.empty_cache
    = (demo.empty_cache, Ok None).
Proof.
  split; [reflexivity |].
  apply (no_cached_dataset_is_noop demo.E demo.empty_cache "out" true ∅ None).
  reflexivity.
Defined.

(** ** Selection *)

(** C9. [get_select_dv] returns [None] when the cached dataset is empty,
    a cached session notwithstanding, and when a path-list file is named
    that does not exist; in the second case the session's selection is
    not used, although the same call without a path list returns it. *)
Theorem get_select_dv_none_cases (E : Collaborators) (w : World) :
  (cache_dataset w = Some [] →
   ∀ txt_path, exporter.get_select_dv E txt_path w = (w, Ok None))
  ∧ (∀ txt_path, files w !! txt_path = None →
     exporter.get_select_dv E (Some txt_path) w = (w, Ok None))
  ∧ (∀ s dataset session,
       cache_dataset w = Some (s :: dataset) →
       cache_session w = Some session →
       exporter.get_select_dv E None w
       = (w, Ok (Some (exporter.select (s :: dataset) (selected session))))).
Proof.
  unfold exporter.get_select_dv. unfold_M. repeat split.
  - intros Hd txt_path. rewrite Hd. reflexivity.
  - intros txt_path Hf.
    destruct (cache_dataset w) as [[|s d]|], (cache_session w);
      simpl; try reflexivity.
    rewrite Hf. reflexivity.
  - intros s d ss Hd Hs. rewrite Hd, Hs. reflexivity.
Qed.

(** ** Opening and writing a file *)

Lemma set_files_id w : set_files (files w) w = w.
Proof. by destruct w. Qed.

Lemma set_files_twice f g w : set_files f (set_files g w) = set_files f w.
Proof. done. Qed.

(** [write_json] in one step: what [open] answers, then the dump. *)
Lemma write_json_eq save_path result w :
  write_json save_path result w
  = match can_open (files w) save_path with
    | Ok _ =>
        match json_dump result with
        | Ok doc =>
            (set_files (<[save_path := JsonDoc doc]> (files w)) w, Ok tt)
        | Raise e =>
            (set_files (<[save_path := Truncated]> (files w)) w, Raise e)
        end
    | Raise e => (w, Raise e)
    end.
Proof.
  unfold write_json, open_w, can_open. unfold_M.
  unfold mbind, res_bind.
  destruct (isdir (files w) (path.split_head save_path)) as [[]|e];
    simpl; [|done].
  destruct (json_dump result) as [d|e']; simpl;
    destruct (files w !! save_path) as [[]|] eqn:Hp; simpl; try done;
    by rewrite insert_insert_eq.
Qed.

(** ** The two copies of the serializer *)

(** C10. On every sample, directory and world the serializer of
    [export.py] and the serializer of [exporter.py] leave the same world
    behind: the same document under the same path.  They differ in what
    they return: the first returns that path, the second nothing; when
    one raises, the other raises the same exception. *)
Theorem serializer_copies_agree (sample : Sample) (save_dir : string)
    (w : World) :
  export.anno_path sample save_dir = exporter.anno_path sample save_dir
  ∧ fst (export._export_one_sample_anno sample save_dir w)
    = fst (exporter._export_one_sample_anno sample save_dir w)
  ∧ match snd (exporter._export_one_sample_anno sample save_dir w),
          snd (export._export_one_sample_anno sample save_dir w) with
    | Ok tt, Ok p =>
        p = exporter.anno_path sample save_dir
        ∧ ∃ doc,
            files (fst (exporter._export_one_sample_anno sample save_dir w))
              !! p = Some (JsonDoc doc)
    | Raise e1, Raise e2 => e1 = e2
    | _, _ => False
    end.
Proof.
  split; [reflexivity |].
  unfold export._export_one_sample_anno, exporter._export_one_sample_anno.
  change (export.build_result sample) with (exporter.build_result sample).
  change (export.anno_path sample save_dir)
    with (exporter.anno_path sample save_dir).
  unfold_M.
  destruct (exporter.build_result sample) as [result|e]; simpl; [|done].
  rewrite write_json_eq.
  destruct (can_open _ _) as [[]|e]; simpl; [|done].
  destruct (json_dump result) as [doc|e]; simpl; [|done].
  repeat split. exists doc. apply lookup_insert_eq.
Qed.

(** ** The serializer *)

Section serializer.

Implicit Types (sample : Sample) (result : gmap string FieldVal).

Lemma json_dump_Ok result doc :
  json_dump result = Ok doc →
  map_Forall (λ _ v, is_plain v) result ∧ doc = omap plain_of result.
Proof.
  unfold json_dump. destruct (decide _); [|done]. by intros [= <-].
Qed.

Lemma json_dump_lookup result doc k :
  json_dump result = Ok doc →
  doc !! k = result !! k ≫= plain_of.
Proof.
  intros [_ ->]%json_dump_Ok. apply lookup_omap.
Qed.

(** A successful run wrote the dump of the record it built. *)
Lemma export_one_sample_anno_Ok sample save_dir w w' :
  exporter._export_one_sample_anno sample save_dir w = (w', Ok tt) →
  ∃ result doc,
    exporter.build_result sample = Ok result
    ∧ json_dump result = Ok doc
    ∧ w' = set_files (<[exporter.anno_path sample save_dir := JsonDoc doc]>
                        (files w)) w.
Proof.
  unfold exporter._export_one_sample_anno. unfold_M.
  destruct (exporter.build_result sample) as [result|e]; simpl; [|done].
  rewrite write_json_eq.
  destruct (can_open _ _) as [[]|e]; simpl; [|done].
  destruct (json_dump result) as [doc|e] eqn:Hd; simpl; [|done].
  intros [= <-]. by exists result, doc.
Qed.

(** What the record holds under a key once the closing fields are set. *)
Lemma build_result_lookup sample result k :
  exporter.build_result sample = Ok result →
  k ≠ "objs_info" → k ≠ "img_shape" → k ≠ "chiebot_sample_tags" →
  result !! k = exporter.copy_fields sample ∅ !! k.
Proof.
  unfold exporter.build_result. intros H ? ? ?.
  unfold mbind, res_bind, mret, res_ret in H.
  repeat match type of H with
         | match ?x with _ => _ end = _ => destruct x; try done
         end.
  injection H as <-. by rewrite !lookup_insert_ne.
Qed.

Lemma copy_step_lookup result (x : FieldVal) (v v' : string) :
  (if truthy x then <[v := x]> result else result) !! v'
  = if decide (v = v')
    then (if truthy x then Some x else result !! v')
    else result !! v'.
Proof.
  destruct (decide (v = v')) as [->|], (truthy x);
    by rewrite ?lookup_insert_eq, ?lookup_insert_ne.
Qed.

(** The loop over [need_export_map] binds an output key exactly when
    the field it is copied from is truthy. *)
Lemma copy_fields_lookup sample k v :
  (k, v) ∈ exporter.need_export_map →
  exporter.copy_fields sample ∅ !! v
  = if truthy (get_sample_field sample k PyNone)
    then Some (get_sample_field sample k PyNone)
    else None.
Proof.
  unfold exporter.need_export_map, exporter.copy_fields. intros Hin.
  repeat (apply elem_of_cons in Hin as [[= -> ->]|Hin]);
    [..|by apply elem_of_nil in Hin];
    simpl; rewrite !copy_step_lookup; simpl;
    by destruct (truthy _).
Qed.

End serializer.


Section object_records.

Lemma obj_of_Ok det :
  has_box det → ∃ j, exporter.obj_of det = Ok j ∧ is_obj_of det j.
Proof.
  intros (x & y & bw & bh & rest & Hb).
  unfold exporter.obj_of. rewrite Hb. simpl.
  eexists. split; [reflexivity|].
  eexists. split; [reflexivity|].
  repeat split; try by simplify_map_eq.
  intros ? ? ? ? ? Heq. rewrite Hb in Heq. injection Heq as <- <- <- <- _.
  apply lookup_insert_eq.
Qed.

Lemma mapM_obj_of_Ok dets :
  Forall has_box dets →
  ∃ objs, mapM exporter.obj_of dets = Ok objs
    ∧ Forall2 is_obj_of dets objs.
Proof.
  induction 1 as [|det dets Hd _ IH]; simpl.
  - by exists [].
  - destruct IH as (objs & Hobjs & IH).
    destruct (obj_of_Ok det Hd) as (j & Hj & ?).
    exists (j :: objs). rewrite Hj. simpl. rewrite Hobjs. simpl.
    split; [done|]. by constructor.
Qed.

Lemma get_sample_field_plain sample k j :
  dumped_fields_plain sample → k ∈ dumped_fields →
  is_plain (get_sample_field sample k (Plain j)).
Proof.
  intros Hp Hk. unfold get_sample_field.
  destruct (fields sample !! k) eqn:E; [by eapply Hp | done].
Qed.

Lemma copy_fields_plain sample :
  dumped_fields_plain sample →
  map_Forall (λ _ v, is_plain v) (exporter.copy_fields sample ∅).
Proof.
  intros Hp. unfold exporter.copy_fields, exporter.need_export_map. simpl.
  repeat match goal with
         | |- map_Forall _ (if truthy ?x then _ else _) =>
             destruct (truthy x)
         | |- map_Forall _ (<[_ := _]> _) =>
             apply map_Forall_insert_2;
             [apply get_sample_field_plain; [done|set_solver] |]
         end; apply map_Forall_empty.
Qed.

End object_records.

(** C2. A sample with metadata, whose primary label field holds [k]
    detections with a box each and whose copied fields are plain data,
    is written, where its file can be opened, with an [objs_info] list
    of exactly [k] records, the [i]-th made from the [i]-th detection:
    its name, the fixed pose, flags, mask, confidence and quality, and
    the box [(x, y, x+w, y+h)], whatever the confidence and attributes
    of the detection are. *)
Theorem objs_info_one_record_per_detection (sample : Sample)
    (dets : list Detection) (m : ImageMetadata) (save_dir : string)
    (w : World) :
  fields sample !! "ground_truth" = Some (Detections dets) →
  fields sample !! "metadata" = Some (Metadata m) →
  Forall has_box dets →
  dumped_fields_plain sample →
  can_open (files w) (exporter.anno_path sample save_dir) = Ok tt →
  ∃ doc objs,
    exporter._export_one_sample_anno sample save_dir w
    = (set_files (<[exporter.anno_path sample save_dir := JsonDoc doc]>
                    (files w)) w, Ok tt)
    ∧ doc !! "objs_info" = Some (JArr objs)
    ∧ length objs = length dets
    ∧ ∀ i det, dets !! i = Some det →
        ∃ j, objs !! i = Some j ∧ is_obj_of det j.
Proof.
  intros Hg Hm Hbox Hplain Hopen.
  destruct (mapM_obj_of_Ok dets Hbox) as (objs & Hobjs & Hall).
  pose (result :=
    <["objs_info" := Plain (JArr objs)]>
      (<["img_shape" := Plain (JArr [json_of_int (height m);
                                     json_of_int (width m);
                                     json_of_int (num_channels m)])]>
         (<["chiebot_sample_tags" :=
              get_sample_field sample "chiebot_sample_tags" (Plain (JArr []))]>
            (exporter.copy_fields sample ∅)))).
  assert (Hb : exporter.build_result sample = Ok result).
  { assert (Hgt : get_sample_field sample "ground_truth" PyNone
                  = Detections dets)
      by (unfold get_sample_field; by rewrite Hg).
    unfold exporter.build_result, getitem.
    rewrite Hm, Hgt. cbn -[mapM exporter.copy_fields].
    rewrite Hobjs. reflexivity. }
  assert (Hd : json_dump result = Ok (omap plain_of result)).
  { unfold json_dump. destruct (decide _) as [|Hn]; [done|].
    exfalso. apply Hn. unfold result.
    repeat (apply map_Forall_insert_2; [try done|]).
    - apply get_sample_field_plain; [done|]. unfold dumped_fields. set_solver.
    - by apply copy_fields_plain. }
  exists (omap plain_of result), objs. repeat split.
  - unfold exporter._export_one_sample_anno. unfold_M.
    rewrite Hb. simpl. by rewrite write_json_eq, Hopen, Hd.
  - rewrite lookup_omap. unfold result. by rewrite lookup_insert_eq.
  - symmetry. by eapply Forall2_length.
  - intros i det Hi.
    destruct (Forall2_lookup_l _ _ _ _ _ Hall Hi) as (j & ? & ?). eauto.
Qed.

(** ** The updater *)

Section updater.
Context (E : Collaborators).
Implicit Types (fs : gmap string File) (s : Sample) (w : World).
Implicit Types (ds : list Sample) (evs : list Event).

Lemma add_events_nil w : add_events [] w = w.
Proof. destruct w. unfold add_events. simpl. by rewrite app_nil_r. Qed.

Lemma add_events_app evs1 evs2 w :
  add_events evs2 (add_events evs1 w) = add_events (evs1 ++ evs2) w.
Proof. unfold add_events. simpl. by rewrite app_assoc. Qed.

Lemma add_event_eq e w : add_event e w = add_events [e] w.
Proof. reflexivity. Qed.

Lemma set_cache_add_events d evs w :
  set_cache_dataset d (add_events evs w)
  = add_events evs (set_cache_dataset d w).
Proof. reflexivity. Qed.

Ltac norm_events :=
  rewrite ?add_event_eq, ?set_cache_add_events, ?add_events_app; simpl.

Lemma set_cache_dataset_id w ds :
  cache_dataset w = Some ds → set_cache_dataset (Some ds) w = w.
Proof. destruct w. simpl. by intros ->. Qed.

Ltac unfold_updater :=
  unfold exporter.call_md5sum, exporter.call_parse_sample_info,
    exporter.call_generate_sgcc_sample, exporter.store,
    exporter.add_sample, exporter.context_save, exporter.the_dataset,
    exporter.put_dataset in *;
  unfold_M.

(** *** The fields of a dataset *)

Lemma in_schema_spec ds k :
  in_schema ds k = true
  ↔ is_Some (default_value k) ∨ ∃ s, s ∈ ds ∧ is_Some (fields s !! k).
Proof.
  unfold in_schema. rewrite orb_true_iff, bool_decide_eq_true.
  apply or_iff_compat_l. induction ds as [|t ds IH]; simpl.
  - split; [done|]. by intros (s & ?%elem_of_nil & _).
  - rewrite orb_true_iff, bool_decide_eq_true, IH. split.
    + intros [?|(s & ? & ?)].
      * exists t. split; [by left|done].
      * exists s. split; [by right|done].
    + intros (s & [->|?]%elem_of_cons & ?); [by left|].
      right. by exists s.
Qed.

Lemma in_schema_member ds j s k :
  ds !! j = Some s → is_Some (fields s !! k) → in_schema ds k = true.
Proof.
  intros Hj Hk. apply in_schema_spec. right. exists s.
  split; [by eapply list_elem_of_lookup_2|done].
Qed.

Lemma grows_refl ds : grows ds ds.
Proof. by intros k. Qed.

Lemma grows_trans ds1 ds2 ds3 : grows ds1 ds2 → grows ds2 ds3 → grows ds1 ds3.
Proof. intros H1 H2 k Hk. by apply H2, H1. Qed.

Lemma grows_insert ds i s s' :
  ds !! i = Some s → keeps_names s s' → grows ds (<[i := s']> ds).
Proof.
  intros Hi Hk k [?|(t & Ht & Hkt)]%in_schema_spec; apply in_schema_spec;
    [by left|]. right.
  apply list_elem_of_lookup in Ht as [j Hj].
  destruct (decide (j = i)) as [->|Hne].
  - exists s'. split.
    + eapply list_elem_of_lookup_2, list_lookup_insert_eq.
      by eapply lookup_lt_Some.
    + apply Hk. congruence.
  - exists t. split; [|done].
    eapply list_elem_of_lookup_2. by rewrite list_lookup_insert_ne.
Qed.

Lemma grows_app ds g : grows ds (ds ++ [g]).
Proof.
  intros k [?|(t & Ht & Hkt)]%in_schema_spec; apply in_schema_spec;
    [by left|]. right. exists t. split; [|done].
  apply elem_of_app. by left.
Qed.

Lemma keeps_names_update s d : keeps_names s (update_fields s d).
Proof.
  intros k Hk. unfold update_fields. simpl.
  apply lookup_union_is_Some. by right.
Qed.

Lemma get_field_checksum ds s :
  in_schema ds "xml_md5" = true →
  get_field ds s "xml_md5" = Ok (default PyNone (fields s !! "xml_md5")).
Proof.
  intros Hs. unfold get_field. destruct (fields s !! "xml_md5"); [done|].
  simpl. by rewrite Hs.
Qed.

(** *** The bodies of the two loops *)

(** The body of the attached loop is the checksum-diff rule, for the
    dataset of the sample. *)
Lemma update_given_eq collection s w :
  exporter.update_given E collection s w
  = (add_events
       (sync_calls E (files w)
          (exporter.home (cache_dataset w) collection s) s) w,
     synced E (files w) (exporter.home (cache_dataset w) collection s) s).
Proof.
  unfold exporter.update_given, exporter.dataset_of, synced, sync_calls,
    refreshed_by, rule_calls, sidecar_exists.
  unfold_updater. set (d := exporter.home _ _ _).
  destruct (bool_decide _); simpl; [|by rewrite add_events_nil].
  destruct (md5sum E (files w) _) as [h|e]; simpl; [|done].
  unfold has_field, cached_checksum.
  destruct (in_schema d "xml_md5") eqn:Hd; simpl; [|done].
  rewrite get_field_checksum by done. simpl.
  destruct (differs_from_str _ h); simpl; [|done].
  destruct (parse_sample_info E (files w) _) as [[[m l] a]|e]; simpl;
    by norm_events.
Qed.

(** The body of the unattached loop on a member: the same rule; the
    dataset takes what is saved. *)
Lemma update_listed_member p w ds i s :
  cache_dataset w = Some ds →
  exporter.dataset_find ds p = Some (i, s) →
  exporter.update_listed E p w
  = match kept E (files w) ds s with
    | Ok s' =>
        (set_cache_dataset (Some (<[i := s']> ds))
           (add_events (sync_calls E (files w) ds s
                        ++ save_call (files w) ds s s') w), Ok tt)
    | Raise e => (add_events (sync_calls E (files w) ds s) w, Raise e)
    end.
Proof.
  intros Hc Hf.
  assert (Hi : ds !! i = Some s).
  { by apply list_find_Some in Hf as [? _]. }
  assert (Hid : ∀ w0, cache_dataset w0 = Some ds →
            set_cache_dataset (Some (<[i := s]> ds)) w0 = w0).
  { intros w0 H0. rewrite list_insert_id by done.
    by apply set_cache_dataset_id. }
  unfold exporter.update_listed, kept, synced, sync_calls, save_call,
    refreshed_by, rule_calls, sidecar_exists.
  unfold_updater. rewrite Hc, Hf. simpl.
  destruct (bool_decide _); simpl.
  2: { unfold mbind, res_bind.
       destruct (clear_field ds s "ground_truth"); simpl;
         rewrite add_events_nil; [by rewrite Hid|done]. }
  unfold mbind, res_bind.
  destruct (md5sum E (files w) _) as [h|e]; simpl; [|done].
  unfold has_field, cached_checksum.
  destruct (in_schema ds "xml_md5") eqn:Hd; simpl.
  2: { by rewrite Hid. }
  rewrite get_field_checksum by done. simpl.
  destruct (differs_from_str _ h); simpl.
  2: { rewrite Hc. simpl. by norm_events. }
  destruct (parse_sample_info E (files w) _) as [[[m l] a]|e]; simpl.
  2: { by norm_events. }
  rewrite Hc. simpl. by norm_events.
Qed.

(** The body of the unattached loop on a path that is no member. *)
Lemma update_listed_new p w ds :
  cache_dataset w = Some ds →
  exporter.dataset_find ds p = None →
  exporter.update_listed E p w
  = match generate_sgcc_sample E (files w) p with
    | Ok g =>
        (set_cache_dataset (Some (ds ++ [g])%list)
           (add_events [GenerateSample p; AddSample g] w), Ok tt)
    | Raise e => (add_events [GenerateSample p] w, Raise e)
    end.
Proof.
  intros Hc Hf. unfold exporter.update_listed. unfold_updater.
  rewrite Hc, Hf. simpl.
  destruct (generate_sgcc_sample E (files w) p) as [g|e]; simpl; [|done].
  rewrite Hc. simpl. by norm_events.
Qed.

(** *** The checksum-diff rule *)

Lemma differs_false (c : FieldVal) (h : string) :
  differs_from_str c h = false → c = Plain (JStr h).
Proof.
  destruct c as [[]| |]; simpl; try done.
  intros H%negb_false_iff%String.eqb_eq. by subst.
Qed.

Lemma refreshed_md5 (m l : FieldVal) (h : string) :
  exporter.refreshed m l h !! "xml_md5" = Some (Plain (JStr h)).
Proof. unfold exporter.refreshed. by simplify_map_eq. Qed.

Lemma xml_path_of_with_fields s f :
  exporter.xml_path_of (with_fields s f) = exporter.xml_path_of s.
Proof. reflexivity. Qed.

Lemma refreshed_by_filepath fs has s s' :
  refreshed_by E fs has s = Ok s' →
  filepath s' = filepath s ∧ id s' = id s ∧ keeps_names s s'.
Proof.
  unfold refreshed_by.
  destruct (md5sum E fs _) as [h|]; simpl; [|done].
  destruct (cached_checksum has s) as [c|];
    [|intros [= <-]; split_and!; [done..|by intros k]].
  destruct (differs_from_str c h);
    [|intros [= <-]; split_and!; [done..|by intros k]].
  destruct (parse_sample_info E fs _) as [[[m l] a]|]; simpl; [|done].
  intros [= <-]. split_and!; [done..|].
  intros k Hk. by do 2 apply keeps_names_update.
Qed.

Lemma clear_field_Ok ds s k s' :
  clear_field ds s k = Ok s' →
  s' = with_fields s (<[k := PyNone]> (fields s)) ∧ in_schema ds k = true.
Proof.
  unfold clear_field. destruct (in_schema ds k); [|done]. by intros [= <-].
Qed.

Lemma synced_filepath fs ds s s' :
  synced E fs ds s = Ok s' →
  filepath s' = filepath s ∧ id s' = id s ∧ keeps_names s s'.
Proof.
  unfold synced. destruct (sidecar_exists fs s).
  - apply refreshed_by_filepath.
  - intros [-> _]%clear_field_Ok. split_and!; [done..|].
    intros k Hk. simpl. apply lookup_insert_is_Some'. by right.
Qed.

Lemma kept_filepath fs ds s s' :
  kept E fs ds s = Ok s' →
  filepath s' = filepath s ∧ id s' = id s ∧ keeps_names s s'.
Proof.
  unfold kept, mbind, res_bind.
  destruct (synced E fs ds s) as [t|] eqn:Hs; [|done].
  destruct (sidecar_exists fs s); intros [= <-]; [by eapply synced_filepath|].
  split_and!; [done..|]. by intros k.
Qed.

(** With its sidecar in place, what the dataset keeps of a member is
    what the rule makes of it. *)
Lemma kept_sidecar fs ds s :
  sidecar_exists fs s = true →
  kept E fs ds s = refreshed_by E fs (in_schema ds "xml_md5") s.
Proof.
  intros Hx. unfold kept, synced. rewrite Hx. unfold mbind, res_bind.
  by destruct (refreshed_by _ _ _ _).
Qed.

(** Without it, the dataset keeps the member as it is. *)
Lemma kept_missing fs ds s s' :
  sidecar_exists fs s = false →
  kept E fs ds s = Ok s' →
  s' = s ∧ sync_calls E fs ds s = [] ∧ save_call fs ds s s' = [].
Proof.
  intros Hx. unfold kept, synced, sync_calls, save_call. rewrite Hx.
  unfold mbind, res_bind. destruct (clear_field _ _ _); [|done].
  by intros [= <-].
Qed.

Lemma refreshed_by_in_sync fs has s :
  in_sync E fs s → refreshed_by E fs has s = Ok s.
Proof.
  intros (_ & h & Hh & Hc). unfold refreshed_by, cached_checksum.
  rewrite Hh, Hc. simpl. destruct has; simpl; [|done].
  by rewrite String.eqb_refl.
Qed.

(** The rule leaves a sample of a dataset with the checksum field in
    sync. *)
Lemma refreshed_by_true fs s s' :
  sidecar_exists fs s = true →
  refreshed_by E fs true s = Ok s' → in_sync E fs s'.
Proof.
  intros Hx. unfold refreshed_by, cached_checksum.
  destruct (md5sum E fs _) as [h|] eqn:Hh; simpl; [|done].
  destruct (differs_from_str _ h) eqn:Hd.
  - destruct (parse_sample_info E fs _) as [[[m l] a]|]; simpl; [|done].
    intros [= <-]. split; [done|]. exists h. split; [done|].
    unfold update_fields. simpl.
    rewrite lookup_union_l' by (rewrite refreshed_md5; eauto).
    apply refreshed_md5.
  - intros [= <-]. split; [done|]. exists h. split; [done|].
    apply differs_false in Hd.
    destruct (fields s !! "xml_md5") as [c|]; simpl in Hd; by subst.
Qed.

Lemma in_sync_settled fs s : in_sync E fs s → settled E fs s.
Proof.
  intros Hs ds s'. rewrite kept_sidecar by apply Hs.
  rewrite refreshed_by_in_sync by done. by intros [= <-].
Qed.

Lemma missing_settled fs s : sidecar_exists fs s = false → settled E fs s.
Proof. intros Hx ds s' Hk. by eapply kept_missing. Qed.

(** Every checksum that is computed is that of an existing file. *)
Lemma sync_calls_checksummed fs ds s x :
  x ∈ checksummed (sync_calls E fs ds s) →
  x = exporter.xml_path_of s ∧ is_Some (fs !! x).
Proof.
  unfold sync_calls, rule_calls, sidecar_exists.
  case_bool_decide as Hx; simpl.
  - destruct (md5sum E fs _);
      destruct (cached_checksum (in_schema ds "xml_md5") s) as [c|]; simpl;
      try destruct (differs_from_str _ _); simpl;
      intros ->%list_elem_of_singleton; done.
  - by intros ?%elem_of_nil.
Qed.

Lemma sync_calls_given fs ds s : Forall given_call (sync_calls E fs ds s).
Proof.
  unfold sync_calls, rule_calls. destruct (sidecar_exists fs s); [|done].
  constructor; [done|].
  destruct (md5sum E fs _);
    destruct (cached_checksum (in_schema ds "xml_md5") s); try done.
  destruct (differs_from_str _ _); [|done]. by constructor.
Qed.

Lemma sync_calls_autosaved fs ds s : autosaved (sync_calls E fs ds s) = [].
Proof.
  unfold sync_calls, rule_calls. destruct (sidecar_exists fs s); [|done].
  destruct (md5sum E fs _);
    destruct (cached_checksum (in_schema ds "xml_md5") s); try done.
  by destruct (differs_from_str _ _).
Qed.

(** *** Positions of members *)

Lemma find_Some ds p i s :
  exporter.dataset_find ds p = Some (i, s) →
  ds !! i = Some s ∧ filepath s = p.
Proof. by intros (? & ? & _)%list_find_Some. Qed.

Lemma find_None ds p : exporter.dataset_find ds p = None ↔ p ∉ paths ds.
Proof.
  unfold exporter.dataset_find, paths.
  rewrite list_find_None, Forall_forall, list_elem_of_fmap. split.
  - intros H (s & -> & Hs). by apply (H s).
  - intros H s Hs Hp. apply H. by exists s.
Qed.

Lemma find_member ds p i s :
  exporter.dataset_find ds p = Some (i, s) → p ∈ paths ds.
Proof.
  intros [Hi <-]%find_Some. apply list_elem_of_fmap_2.
  by eapply list_elem_of_lookup_2.
Qed.

Lemma find_insert_same ds p i s s' :
  exporter.dataset_find ds p = Some (i, s) →
  filepath s' = p →
  exporter.dataset_find (<[i := s']> ds) p = Some (i, s').
Proof.
  intros (Hi & _ & Hleast)%list_find_Some Hp.
  apply list_find_Some. split_and!; [|done|].
  - apply list_lookup_insert_eq. by eapply lookup_lt_Some.
  - intros j y Hj Hlt. rewrite list_lookup_insert_ne in Hj by lia. eauto.
Qed.

Lemma find_insert_other ds p i s j t t' :
  exporter.dataset_find ds p = Some (i, s) →
  ds !! j = Some t → filepath t ≠ p → filepath t' ≠ p →
  exporter.dataset_find (<[j := t']> ds) p = Some (i, s).
Proof.
  intros (Hi & Hs & Hleast)%list_find_Some Hj Ht Ht'.
  assert (i ≠ j) by (intros ->; congruence).
  apply list_find_Some. split_and!; [|done|].
  - by rewrite list_lookup_insert_ne.
  - intros k y Hk Hlt. destruct (decide (k = j)) as [->|].
    + rewrite list_lookup_insert_eq in Hk by (by eapply lookup_lt_Some).
      by injection Hk as <-.
    + rewrite list_lookup_insert_ne in Hk by done. eauto.
Qed.

Lemma find_absent_insert ds p j t t' :
  exporter.dataset_find ds p = None →
  ds !! j = Some t → filepath t' = filepath t →
  exporter.dataset_find (<[j := t']> ds) p = None.
Proof.
  rewrite !find_None. unfold paths. intros Hn Hj Ht.
  rewrite list_fmap_insert, Ht, list_insert_id; [done|].
  by rewrite list_lookup_fmap, Hj.
Qed.

Lemma paths_insert ds j t t' :
  ds !! j = Some t → filepath t' = filepath t →
  paths (<[j := t']> ds) = paths ds.
Proof.
  intros Hj Ht. unfold paths.
  rewrite list_fmap_insert, Ht, list_insert_id; [done|].
  by rewrite list_lookup_fmap, Hj.
Qed.

(** *** The unattached loop as a sequence of steps *)

Lemma for_each_steps imgs w w' ds :
  cache_dataset w = Some ds →
  for_each imgs (exporter.update_listed E) w = (w', Ok tt) →
  ∃ ds' evs,
    steps E (files w) imgs ds ds' evs
    ∧ w' = set_cache_dataset (Some ds') (add_events evs w).
Proof.
  revert w ds. induction imgs as [|p imgs IH]; intros w ds Hc; simpl.
  - intros [= <-]. exists ds, []. split; [constructor|].
    by rewrite add_events_nil, set_cache_dataset_id.
  - unfold mbind, M_bind.
    destruct (exporter.dataset_find ds p) as [[i s]|] eqn:Hf.
    + rewrite (update_listed_member _ _ _ _ _ Hc Hf).
      destruct (kept E (files w) ds s) as [s'|e] eqn:Hs; [|done].
      intros Hrest. apply IH with (ds := <[i := s']> ds) in Hrest; [|done].
      destruct Hrest as (ds' & evs & Hst & ->). simpl in Hst.
      eexists ds', _. split; [by eapply steps_member|].
      unfold set_cache_dataset, add_events. simpl.
      by rewrite <- !app_assoc.
    + rewrite (update_listed_new _ _ _ Hc Hf).
      destruct (generate_sgcc_sample E (files w) p) as [g|e] eqn:Hg; [|done].
      intros Hrest. apply IH with (ds := (ds ++ [g])%list) in Hrest; [|done].
      destruct Hrest as (ds' & evs & Hst & ->). simpl in Hst.
      eexists ds', _. split; [by eapply steps_new|].
      unfold set_cache_dataset, add_events. simpl.
      by rewrite <- !app_assoc.
Qed.

(** *** What a run of steps keeps and what it establishes *)

Lemma added_rule fs has s : added (rule_calls E fs has s) = [].
Proof.
  unfold rule_calls, added. simpl.
  destruct (md5sum E fs _), (cached_checksum has s); simpl;
    try destruct (differs_from_str _ _); done.
Qed.

Lemma added_sync fs ds s s' :
  added (sync_calls E fs ds s ++ save_call fs ds s s') = [].
Proof.
  unfold sync_calls, save_call.
  destruct (sidecar_exists fs s); [|done].
  pose proof (added_rule fs (in_schema ds "xml_md5") s) as Hr.
  unfold added in *. rewrite omap_app, Hr.
  by destruct (in_schema ds "xml_md5").
Qed.

Lemma checksummed_save fs ds s s' : checksummed (save_call fs ds s s') = [].
Proof. unfold save_call. by destruct (_ && _). Qed.

(** The fields of the dataset only grow in number. *)
Lemma steps_grows fs imgs ds ds' evs :
  steps E fs imgs ds ds' evs → grows ds ds'.
Proof.
  induction 1 as [ds|q imgs ds i0 s0 s0' ds' evs Hf0 Hs0 _ IH
                    |q imgs ds g ds' evs Hf0 Hg _ IH].
  - apply grows_refl.
  - eapply grows_trans; [|exact IH].
    destruct (find_Some _ _ _ _ Hf0) as [Hi0 _].
    eapply grows_insert; [done|]. by eapply kept_filepath.
  - eapply grows_trans; [apply grows_app|exact IH].
Qed.

(** A member that no later step visits, or that its iteration leaves as
    it is, stays as it is and where it is. *)
Lemma steps_keep_member fs imgs ds ds' evs p i s :
  steps E fs imgs ds ds' evs →
  exporter.dataset_find ds p = Some (i, s) →
  p ∉ imgs ∨ settled E fs s →
  exporter.dataset_find ds' p = Some (i, s).
Proof.
  induction 1 as [ds|q imgs ds i0 s0 s0' ds' evs Hf0 Hs0 _ IH
                    |q imgs ds g ds' evs Hf0 Hg _ IH]; intros Hf Hor.
  - done.
  - destruct (kept_filepath _ _ _ _ Hs0) as [Hp0 _].
    destruct (find_Some _ _ _ _ Hf0) as [Hi0 Hq].
    destruct (decide (q = p)) as [->|Hne].
    + rewrite Hf in Hf0. injection Hf0 as <- <-.
      destruct Hor as [Hn|Hfix]; [by apply not_elem_of_cons in Hn as [? _]|].
      apply Hfix in Hs0 as ->.
      apply IH; [|by right].
      eapply find_insert_same; [exact Hf|congruence].
    + apply IH.
      * eapply find_insert_other; [done|exact Hi0|congruence|congruence].
      * destruct Hor as [Hn|?]; [left|by right].
        by apply not_elem_of_cons in Hn as [_ ?].
  - apply IH.
    + by apply list_find_app_l.
    + destruct Hor as [Hn|?]; [left|by right].
      by apply not_elem_of_cons in Hn as [_ ?].
Qed.

(** A sample that its iteration leaves as it is stays as it is,
    visited or not, found under its path or not. *)
Lemma steps_keep_settled fs imgs ds ds' evs j s :
  steps E fs imgs ds ds' evs →
  ds !! j = Some s → settled E fs s → ds' !! j = Some s.
Proof.
  induction 1 as [ds|q imgs ds i0 s0 s0' ds' evs Hf0 Hs0 _ IH
                    |q imgs ds g ds' evs Hf0 Hg _ IH]; intros Hj Hfix.
  - done.
  - apply IH; [|done]. destruct (find_Some _ _ _ _ Hf0) as [Hi0 _].
    destruct (decide (i0 = j)) as [->|].
    + rewrite Hi0 in Hj. injection Hj as ->.
      apply Hfix in Hs0 as ->.
      apply list_lookup_insert_eq. by eapply lookup_lt_Some.
    + by rewrite list_lookup_insert_ne.
  - apply IH; [|done]. rewrite lookup_app_l; [done|].
    by eapply lookup_lt_Some.
Qed.

(** A member with a sidecar whose path is listed ends as the rule makes
    it, for a dataset with the checksum field or for one without: with
    the field where the dataset has it from the start, without it only
    where the dataset is still without it in the end.  The calls of the
    rule are on the trace, and with the field the save is. *)
Lemma steps_visit_member fs imgs ds ds' evs p i s :
  steps E fs imgs ds ds' evs →
  exporter.dataset_find ds p = Some (i, s) →
  p ∈ imgs →
  sidecar_exists fs s = true →
  ∃ (has : bool) s',
    (in_schema ds "xml_md5" = true → has = true)
    ∧ (has = true → in_schema ds' "xml_md5" = true)
    ∧ refreshed_by E fs has s = Ok s'
    ∧ exporter.dataset_find ds' p = Some (i, s')
    ∧ ∀ e : Event,
        e ∈ (rule_calls E fs has s
             ++ if has then [ContextSave s'] else [])%list →
        e ∈ evs.
Proof.
  induction 1 as [ds|q imgs ds i0 s0 s0' ds' evs Hf0 Hs0 Hst IH
                    |q imgs ds g ds' evs Hf0 Hg Hst IH]; intros Hf Hin Hx.
  - by apply elem_of_nil in Hin.
  - destruct (kept_filepath _ _ _ _ Hs0) as (Hp0 & _ & Hk0).
    destruct (find_Some _ _ _ _ Hf0) as [Hi0 Hq].
    destruct (decide (q = p)) as [->|Hne].
    + rewrite Hf in Hf0. injection Hf0 as <- <-.
      assert (Hfs : exporter.dataset_find (<[i := s0']> ds) p
                    = Some (i, s0'))
        by (eapply find_insert_same; [exact Hf|congruence]).
      assert (Hcalls : sync_calls E fs ds s
                       = rule_calls E fs (in_schema ds "xml_md5") s)
        by (unfold sync_calls; by rewrite Hx).
      rewrite kept_sidecar in Hs0 by done.
      destruct (in_schema ds "xml_md5") eqn:Hhas.
      * pose proof (refreshed_by_true _ _ _ Hx Hs0) as Hsync.
        assert (Hend : exporter.dataset_find ds' p = Some (i, s0')).
        { eapply steps_keep_member; [done..|].
          right. by apply in_sync_settled. }
        exists true, s0'. split_and!; try done.
        -- intros _. destruct (find_Some _ _ _ _ Hend) as [Hi' _].
           eapply in_schema_member; [exact Hi'|].
           destruct Hsync as (_ & h & _ & ->). eauto.
        -- intros e He. rewrite Hcalls. unfold save_call.
           rewrite Hx, Hhas. simpl andb. cbv iota.
           rewrite app_assoc. apply elem_of_app. by left.
      * assert (s0' = s) as ->.
        { unfold refreshed_by, cached_checksum in Hs0.
          destruct (md5sum E fs _); simpl in Hs0; [|done].
          by injection Hs0. }
        destruct (decide (p ∈ imgs)) as [Hin'|Hout].
        -- destruct (IH Hfs Hin' Hx) as (has & s' & H1 & H2 & H3 & H4 & H5).
           exists has, s'. split_and!; try done.
           intros e He. rewrite app_assoc. apply elem_of_app. right. eauto.
        -- exists false, s. split_and!; try done.
           ++ eapply steps_keep_member; [done..|]. by left.
           ++ intros e He. rewrite Hcalls. rewrite app_nil_r in He.
              apply elem_of_app. by left.
    + destruct IH as (has & s' & H1 & H2 & H3 & H4 & H5); [| |done|].
      * eapply find_insert_other; [done|exact Hi0|congruence|congruence].
      * by apply elem_of_cons in Hin as [->|?].
      * exists has, s'. split_and!; try done.
        -- intros Hd. apply H1. by eapply grows_insert.
        -- intros e He. rewrite app_assoc. apply elem_of_app. right. eauto.
  - destruct (decide (q = p)) as [->|Hne]; [congruence|].
    destruct IH as (has & s' & H1 & H2 & H3 & H4 & H5); [| |done|].
    + by apply list_find_app_l.
    + by apply elem_of_cons in Hin as [->|?].
    + exists has, s'. split_and!; try done.
      * intros Hd. apply H1. by apply grows_app.
      * intros e He. do 2 apply list_elem_of_further. eauto.
Qed.

(** No checksum is computed for a file that does not exist. *)
Lemma steps_checksummed fs imgs ds ds' evs x :
  steps E fs imgs ds ds' evs → x ∈ checksummed evs → is_Some (fs !! x).
Proof.
  induction 1 as [ds|q imgs ds i0 s0 s0' ds' evs Hf0 Hs0 _ IH
                    |q imgs ds g ds' evs Hf0 Hg _ IH]; simpl.
  - by intros ?%elem_of_nil.
  - unfold checksummed in *. rewrite !omap_app.
    fold (checksummed (save_call fs ds s0 s0')). rewrite checksummed_save.
    simpl. intros [Hx|Hx]%elem_of_app; [|by apply IH].
    by apply sync_calls_checksummed in Hx as [_ ?].
  - done.
Qed.

(** *** Additions *)

Lemma filter_absent (p : string) (l : list string) :
  p ∉ l → filter (λ q, q = p) l = [].
Proof.
  induction l as [|q l IH]; [done|].
  intros [Hne Hl]%not_elem_of_cons.
  rewrite filter_cons_False by congruence. auto.
Qed.

Lemma added_step fs ds s s' evs :
  added ((sync_calls E fs ds s ++ save_call fs ds s s' ++ evs)%list)
  = added evs.
Proof.
  rewrite app_assoc. unfold added. rewrite omap_app.
  fold (added (sync_calls E fs ds s ++ save_call fs ds s s')).
  by rewrite added_sync.
Qed.

(** Nothing is added for a path that is a member, and the samples
    with that path stay as many as they were. *)
Lemma steps_member_no_add fs imgs ds ds' evs p :
  builder_keeps_path E →
  steps E fs imgs ds ds' evs →
  p ∈ paths ds →
  filter (λ g, filepath g = p) (added evs) = []
  ∧ filter (λ q, q = p) (paths ds') = filter (λ q, q = p) (paths ds).
Proof.
  intros Hb.
  induction 1 as [ds|q imgs ds i0 s0 s0' ds' evs Hf0 Hs0 _ IH
                    |q imgs ds g ds' evs Hf0 Hg _ IH]; intros Hp.
  - done.
  - destruct (kept_filepath _ _ _ _ Hs0) as [Hp0 _].
    destruct (find_Some _ _ _ _ Hf0) as [Hi0 _].
    rewrite added_step.
    rewrite <- (paths_insert ds i0 s0 s0') by done.
    apply IH. by rewrite (paths_insert ds i0 s0 s0').
  - assert (filepath g = q) as Hgq by eauto.
    assert (q ≠ p) by (apply find_None in Hf0; congruence).
    destruct IH as [IH1 IH2].
    { unfold paths. rewrite fmap_app. apply elem_of_app. by left. }
    split.
    + change (added (GenerateSample q :: AddSample g :: evs))
        with (g :: added evs).
      rewrite filter_cons_False by congruence. done.
    + rewrite IH2. unfold paths. rewrite fmap_app, filter_app. simpl.
      rewrite filter_cons_False by congruence. by rewrite app_nil_r.
Qed.

(** For a listed path that is no member exactly one sample is added,
    the one the builder makes, and the dataset then holds exactly one
    sample with that path. *)
Lemma steps_add_once fs imgs ds ds' evs p :
  builder_keeps_path E →
  steps E fs imgs ds ds' evs →
  p ∉ paths ds → p ∈ imgs →
  ∃ g, generate_sgcc_sample E fs p = Ok g
    ∧ filter (λ g, filepath g = p) (added evs) = [g]
    ∧ filter (λ q, q = p) (paths ds') = [p].
Proof.
  intros Hb.
  induction 1 as [ds|q imgs ds i0 s0 s0' ds' evs Hf0 Hs0 Hst IH
                    |q imgs ds g ds' evs Hf0 Hg Hst IH]; intros Hp Hin.
  - by apply elem_of_nil in Hin.
  - destruct (kept_filepath _ _ _ _ Hs0) as [Hp0 _].
    destruct (find_Some _ _ _ _ Hf0) as [Hi0 _].
    assert (q ≠ p) by (apply find_member in Hf0; congruence).
    rewrite added_step. apply IH.
    + by rewrite (paths_insert ds i0 s0 s0').
    + by apply elem_of_cons in Hin as [->|?].
  - assert (filepath g = q) as Hgq by eauto.
    change (added (GenerateSample q :: AddSample g :: evs))
      with (g :: added evs).
    assert (Hpaths : paths (ds ++ [g]) = (paths ds ++ [q])%list).
    { unfold paths. by rewrite fmap_app, <- Hgq. }
    destruct (decide (q = p)) as [->|Hne].
    + exists g. split; [done|].
      destruct (steps_member_no_add _ _ _ _ _ p Hb Hst) as [H1 H2].
      { rewrite Hpaths. apply elem_of_app. right. by left. }
      split.
      * rewrite filter_cons_True by done. by rewrite H1.
      * rewrite H2, Hpaths, filter_app, filter_absent by done.
        simpl. by rewrite filter_cons_True.
    + destruct IH as (g' & ? & IH1 & IH2).
      * rewrite Hpaths. intros [?|Hq%list_elem_of_singleton]%elem_of_app;
          [done|congruence].
      * by apply elem_of_cons in Hin as [->|?].
      * exists g'. split; [done|]. split; [|done].
        rewrite filter_cons_False by congruence. done.
Qed.

(** *** The attached loop as a sequence of steps *)

Lemma set_cache_dataset_same w : set_cache_dataset (cache_dataset w) w = w.
Proof. by destruct w. Qed.

Lemma autosave_eq s w :
  exporter.autosave s w
  = (set_cache_dataset (exporter.save_in s <$> cache_dataset w)
       (add_events [Autosave s] w), Ok tt).
Proof.
  unfold exporter.autosave, exporter.save_back. unfold_updater. simpl.
  destruct w as [f [d|] c t]; simpl; done.
Qed.

Lemma update_each_steps todo seen w w' out :
  exporter.update_each E seen todo w = (w', Ok out) →
  ∃ cached' evs,
    given_steps E (files w) (cache_dataset w) seen todo cached' out evs
    ∧ w' = set_cache_dataset cached' (add_events evs w).
Proof.
  revert seen w. induction todo as [|s rest IH]; intros seen w; simpl.
  - intros [= <- <-]. exists (cache_dataset w), []. split; [constructor|].
    by rewrite add_events_nil, set_cache_dataset_same.
  - unfold mbind at 1, M_bind at 1. rewrite update_given_eq.
    destruct (synced E (files w) _ s) as [s'|e] eqn:Hs; [|done].
    unfold mbind at 1, M_bind at 1. rewrite autosave_eq.
    intros Hrest. apply IH in Hrest as (cached' & evs & Hst & ->).
    simpl in Hst. eexists cached', _. split; [by eapply given_cons|].
    unfold set_cache_dataset, add_events. simpl.
    by rewrite <- !app_assoc.
Qed.

Lemma save_in_ids s d : id <$> exporter.save_in s d = id <$> d.
Proof.
  unfold exporter.save_in. rewrite <- list_fmap_compose.
  apply list_fmap_ext. intros _ t _. simpl. by case_bool_decide.
Qed.

Lemma save_in_other s d j m :
  d !! j = Some m → id m ≠ id s → exporter.save_in s d !! j = Some m.
Proof.
  intros Hj Hne. unfold exporter.save_in.
  rewrite list_lookup_fmap, Hj. simpl. by rewrite bool_decide_eq_false_2.
Qed.

Lemma grows_save_in s d : grows d (exporter.save_in s d).
Proof.
  intros k [?|(t & Ht & Hkt)]%in_schema_spec; apply in_schema_spec;
    [by left|]. right.
  eexists. split.
  - unfold exporter.save_in. apply list_elem_of_fmap_2, Ht.
  - simpl. case_bool_decide; [|done]. simpl.
    apply lookup_union_is_Some. by right.
Qed.

Lemma is_member_save_in s d t :
  exporter.is_member (exporter.save_in s d) t = exporter.is_member d t.
Proof. unfold exporter.is_member. by rewrite save_in_ids. Qed.

Lemma home_id cached collection t t' :
  id t' = id t →
  exporter.home cached collection t' = exporter.home cached collection t.
Proof.
  intros Hid. unfold exporter.home, exporter.is_member. by rewrite Hid.
Qed.

Lemma grows_middle seen s s' rest :
  keeps_names s s' → grows (seen ++ s :: rest) ((seen ++ [s']) ++ rest).
Proof.
  intros Hk. rewrite <- app_assoc. simpl.
  replace (seen ++ s' :: rest)%list
    with (<[length seen := s']> (seen ++ s :: rest)%list).
  - eapply grows_insert; [|done]. by rewrite list_lookup_middle.
  - rewrite insert_app_r_alt by done. by rewrite Nat.sub_diag.
Qed.

(** One step of the loop lets the dataset of every sample grow. *)
Lemma home_step cached seen s s' rest t :
  keeps_names s s' →
  grows (exporter.home cached (seen ++ s :: rest) t)
        (exporter.home (exporter.save_in s' <$> cached)
                       ((seen ++ [s']) ++ rest) t).
Proof.
  intros Hk. unfold exporter.home. destruct cached as [d|]; simpl.
  - rewrite is_member_save_in. destruct (exporter.is_member d t).
    + apply grows_save_in.
    + by apply grows_middle.
  - by apply grows_middle.
Qed.

Lemma given_steps_grows fs cached seen todo cached' out evs t :
  given_steps E fs cached seen todo cached' out evs →
  grows (exporter.home cached (seen ++ todo) t)
        (exporter.home cached' out t).
Proof.
  induction 1 as [cached seen|cached seen s rest s' cached' out evs Hs _ IH].
  - rewrite app_nil_r. apply grows_refl.
  - eapply grows_trans; [|exact IH].
    apply home_step. by eapply synced_filepath.
Qed.

(** The collection keeps its length and its order, and every sample
    its path and its id. *)
Lemma given_steps_out fs cached seen todo cached' out evs :
  given_steps E fs cached seen todo cached' out evs →
  ∃ left,
    out = (seen ++ left)%list
    ∧ autosaved evs = left
    ∧ Forall2 (λ s s', filepath s' = filepath s ∧ id s' = id s) todo left.
Proof.
  induction 1 as [cached seen|cached seen s rest s' cached' out evs Hs _ IH].
  - exists []. by rewrite app_nil_r.
  - destruct IH as (left & -> & Hauto & Hall).
    exists (s' :: left). split_and!.
    + by rewrite <- app_assoc.
    + pose proof (sync_calls_autosaved fs
                    (exporter.home cached (seen ++ s :: rest) s) s) as Hn.
      unfold autosaved in *. rewrite omap_app, Hn. simpl.
      f_equal. exact Hauto.
    + constructor; [|done].
      by destruct (synced_filepath _ _ _ _ Hs) as (? & ? & _).
Qed.

(** What the loop makes of the sample at a position: what the body
    makes of the sample in its dataset as the loop finds it, which has
    the fields it had at the start and possibly more; and that is
    saved. *)
Lemma given_steps_lookup fs cached seen todo cached' out evs i s :
  given_steps E fs cached seen todo cached' out evs →
  todo !! i = Some s →
  ∃ d s',
    out !! (length seen + i) = Some s'
    ∧ synced E fs d s = Ok s'
    ∧ grows (exporter.home cached (seen ++ todo) s) d
    ∧ grows d (exporter.home cached' out s')
    ∧ ∀ e : Event,
        e ∈ (sync_calls E fs d s ++ [Autosave s'])%list → e ∈ evs.
Proof.
  intros Hst. revert i.
  induction Hst as [cached seen|cached seen s0 rest s0' cached' out evs
                      Hs Hst IH]; intros i Hi.
  - done.
  - destruct (synced_filepath _ _ _ _ Hs) as (_ & Hid & Hk).
    destruct i as [|i]; simpl in Hi.
    + injection Hi as ->.
      exists (exporter.home cached (seen ++ s :: rest) s), s0'.
      split_and!; [|done|apply grows_refl| |].
      * destruct (given_steps_out _ _ _ _ _ _ _ Hst) as (left & -> & _).
        rewrite Nat.add_0_r, <- app_assoc. simpl.
        by rewrite list_lookup_middle.
      * eapply grows_trans;
          [|exact (given_steps_grows _ _ _ _ _ _ _ s0' Hst)].
        rewrite (home_id _ _ s s0') by done. by apply home_step.
      * intros e He. apply elem_of_app in He as [He|He];
          apply elem_of_app; [by left|right].
        apply list_elem_of_singleton in He as ->. by left.
    + destruct (IH i Hi) as (d & s' & H1 & H2 & H3 & H4 & H5).
      exists d, s'. split_and!; try done.
      * rewrite length_app in H1. simpl in H1.
        by replace (length seen + S i) with (length seen + 1 + i) by lia.
      * eapply grows_trans; [|exact H3]. by apply home_step.
      * intros e He. apply elem_of_app. right.
        apply list_elem_of_further. eauto.
Qed.

(** The loop computes checksums of existing files only and adds
    nothing. *)
Lemma given_steps_calls fs cached seen todo cached' out evs :
  given_steps E fs cached seen todo cached' out evs →
  Forall given_call evs
  ∧ ∀ x, x ∈ checksummed evs → is_Some (fs !! x).
Proof.
  induction 1 as [cached seen|cached seen s rest s' cached' out evs Hs _ IH].
  - split; [constructor|]. by intros x ?%elem_of_nil.
  - destruct IH as [IH1 IH2]. split.
    + apply Forall_app. split; [apply sync_calls_given|].
      by constructor.
    + intros x. unfold checksummed. rewrite omap_app. simpl.
      intros [Hx|Hx]%elem_of_app; [|by apply IH2].
      by apply sync_calls_checksummed in Hx as [_ ?].
Qed.

(** The cached dataset keeps its members, in their order; a member
    whose id no sample of the collection has is left as it is. *)
Lemma given_steps_cache fs cached seen todo cached' out evs :
  given_steps E fs cached seen todo cached' out evs →
  match cached, cached' with
  | Some d, Some d' =>
      id <$> d' = id <$> d
      ∧ ∀ j m, d !! j = Some m → id m ∉ id <$> todo → d' !! j = Some m
  | None, None => True
  | _, _ => False
  end.
Proof.
  induction 1 as [cached seen|cached seen s rest s' cached' out evs Hs _ IH].
  - by destruct cached.
  - destruct (synced_filepath _ _ _ _ Hs) as (_ & Hid & _).
    destruct cached as [d|], cached' as [d'|]; simpl in IH; try done.
    destruct IH as [IH1 IH2]. split.
    + by rewrite IH1, save_in_ids.
    + intros j m Hj Hm. rewrite fmap_cons in Hm.
      apply not_elem_of_cons in Hm as [Hne Hm].
      apply IH2; [|done]. apply save_in_other; [done|congruence].
Qed.

(** *** The two modes of [update_dataset] *)

Lemma update_dataset_unattached w w' r ds :
  cache_dataset w = Some ds →
  exporter.update_dataset E None w = (w', Ok r) →
  ∃ imgs ds' evs,
    media_files E w = Ok imgs
    ∧ steps E (files w) imgs ds ds' evs
    ∧ r = None
    ∧ w' = set_cache_dataset (Some ds')
             (add_events (evs ++ DatasetSave :: refresh_calls w) w).
Proof.
  intros Hc. unfold exporter.update_dataset, media_files, refresh_calls.
  unfold_M. rewrite Hc. destruct ds as [|first rest]; simpl; [done|].
  destruct (get_all_file_path E (files w) _ _) as [imgs|e]; simpl; [|done].
  destruct (for_each imgs (exporter.update_listed E) w) as [w1 [[]|e]]
    eqn:Hloop; simpl; [|done].
  apply for_each_steps with (ds := first :: rest) in Hloop; [|done].
  destruct Hloop as (ds' & evs & Hst & ->). simpl.
  destruct (cache_session w); simpl; intros [= <- <-];
    exists imgs, ds', evs; split_and!; try done;
    unfold add_event, add_events, set_cache_dataset; simpl;
    by rewrite <- ?app_assoc.
Qed.

Lemma update_dataset_attached ds w w' r :
  exporter.update_dataset E (Some ds) w = (w', Ok r) →
  ∃ ds' cached' evs,
    r = Some ds'
    ∧ given_steps E (files w) (cache_dataset w) [] ds cached' ds' evs
    ∧ w' = set_cache_dataset cached'
             (add_events (evs ++ refresh_calls w) w).
Proof.
  unfold exporter.update_dataset, refresh_calls.
  unfold mbind at 1, M_bind at 1. unfold mbind at 1, M_bind at 1.
  destruct (exporter.update_each E [] ds w) as [w1 [ds'|e]] eqn:Hloop;
    [|done].
  apply update_each_steps in Hloop as (cached' & evs & Hst & ->).
  unfold_M. simpl.
  destruct (cache_session w); simpl; intros [= <- <-];
    exists ds', cached', evs; split_and!; try done;
    unfold add_event, add_events, set_cache_dataset; simpl;
    by rewrite <- ?app_assoc, ?app_nil_r.
Qed.

End updater.

Section updater_claims.
Context (E : Collaborators).
Implicit Types (fs : gmap string File) (s : Sample) (w : World).
Implicit Types (ds : list Sample) (evs : list Event).

Lemma in_checksummed evs x : x ∈ checksummed evs ↔ Md5sum x ∈ evs.
Proof.
  unfold checksummed. rewrite list_elem_of_omap. split.
  - intros (e & He & Hx). destruct e; by simplify_eq.
  - intros He. by exists (Md5sum x).
Qed.

Lemma in_parsed evs x : x ∈ parsed evs ↔ ParseSampleInfo x ∈ evs.
Proof.
  unfold parsed. rewrite list_elem_of_omap. split.
  - intros (e & He & Hx). destruct e; by simplify_eq.
  - intros He. by exists (ParseSampleInfo x).
Qed.

Lemma in_saved evs x : x ∈ saved evs ↔ ContextSave x ∈ evs.
Proof.
  unfold saved. rewrite list_elem_of_omap. split.
  - intros (e & He & Hx). destruct e; by simplify_eq.
  - intros He. by exists (ContextSave x).
Qed.

Lemma in_autosaved evs x : x ∈ autosaved evs ↔ Autosave x ∈ evs.
Proof.
  unfold autosaved. rewrite list_elem_of_omap. split.
  - intros (e & He & Hx). destruct e; by simplify_eq.
  - intros He. by exists (Autosave x).
Qed.

Lemma trace_add_events evs w : trace (add_events evs w) = (trace w ++ evs)%list.
Proof. reflexivity. Qed.

Lemma sidecar_missing fs s :
  fs !! exporter.xml_path_of s = None → sidecar_exists fs s = false.
Proof.
  intros H. unfold sidecar_exists. rewrite H.
  apply bool_decide_eq_false. by intros [? ?].
Qed.

Lemma sidecar_present fs s :
  is_Some (fs !! exporter.xml_path_of s) → sidecar_exists fs s = true.
Proof. intros H. by apply bool_decide_eq_true. Qed.

Lemma checksummed_refresh w : checksummed (refresh_calls w) = [].
Proof. unfold refresh_calls. by destruct (cache_session w). Qed.

Lemma added_refresh w : added (refresh_calls w) = [].
Proof. unfold refresh_calls. by destruct (cache_session w). Qed.

Lemma added_given evs : Forall given_call evs → added evs = [].
Proof.
  induction 1 as [|e evs He _ IH]; [done|].
  unfold added in *. destruct e; try done; simpl; exact IH.
Qed.

(** The calls of the rule are what the updater owes the sample. *)
Lemma rule_outcome fs has s s' evs :
  refreshed_by E fs has s = Ok s' →
  (∀ e : Event, e ∈ rule_calls E fs has s → e ∈ evs) →
  refresh_outcome E fs has s s' evs.
Proof.
  unfold refreshed_by, rule_calls, refresh_outcome. intros Hs Hev.
  destruct (md5sum E fs _) as [h|] eqn:Hh; simpl in Hs; [|done].
  exists h. split; [done|]. split.
  { apply in_checksummed, Hev. by left. }
  destruct (cached_checksum has s) as [c|]; [|by injection Hs].
  destruct (differs_from_str c h); [|by injection Hs].
  destruct (parse_sample_info E fs _) as [[[m l] a]|]; simpl in Hs; [|done].
  injection Hs as <-. exists m, l, a. split_and!; [done| |done].
  apply in_parsed, Hev. right. by left.
Qed.


(** C3. In unattached mode, in a dataset that has the checksum field, a
    member that is found under a listed path and whose sidecar exists
    is passed to [context.save] at the end of its iteration, as the
    iteration leaves it, whether its fields changed or not: a member
    whose cached checksum is that of its sidecar is saved
    unchanged. *)
Theorem checked_member_is_saved w w' ds imgs r p i s :
  cache_dataset w = Some ds →
  media_files E w = Ok imgs →
  exporter.update_dataset E None w = (w', Ok r) →
  p ∈ imgs →
  exporter.dataset_find ds p = Some (i, s) →
  is_Some (files w !! exporter.xml_path_of s) →
  in_schema ds "xml_md5" = true →
  ∃ s' ds' evs,
    cache_dataset w' = Some ds'
    ∧ exporter.dataset_find ds' p = Some (i, s')
    ∧ trace w' = (trace w ++ evs)%list
    ∧ s' ∈ saved evs
    ∧ ∀ xml_md5,
        md5sum E (files w) (exporter.xml_path_of s) = Ok xml_md5 →
        fields s !! "xml_md5" = Some (Plain (JStr xml_md5)) →
        s' = s.
Proof.
  intros Hc Hm Hrun Hp Hf Hx Hhas.
  destruct (update_dataset_unattached E _ _ _ _ Hc Hrun)
    as (imgs' & ds' & evs & Hm' & Hst & _ & ->).
  rewrite Hm in Hm'. injection Hm' as <-.
  destruct (steps_visit_member E _ _ _ _ _ _ _ _ Hst Hf Hp
              (sidecar_present _ _ Hx))
    as (has & s' & H1 & _ & H3 & H4 & H5).
  rewrite (H1 Hhas) in H3, H5.
  exists s', ds', (evs ++ DatasetSave :: refresh_calls w)%list.
  split_and!; try done.
  - apply in_saved, elem_of_app. left. apply H5, elem_of_app. right.
    by left.
  - intros h Hh Hcached.
    rewrite (refreshed_by_in_sync E (files w) true s) in H3.
    + by injection H3.
    + split; [by apply sidecar_present|]. by exists h.
Qed.

(** C4, what the code does.  A sample whose sidecar is missing has its
    label cleared on the sample object of the iteration, and no
    checksum is computed.  In attached mode the loop saves that object:
    the collection holds the sample with [ground_truth] set to [None]
    and every other field as it was.  In unattached mode the iteration
    ends before the save: the dataset keeps the member as it was, with
    its label. *)
Theorem missing_sidecar_clear_is_lost w w' :
  (∀ ds imgs r p i s,
     cache_dataset w = Some ds →
     media_files E w = Ok imgs →
     exporter.update_dataset E None w = (w', Ok r) →
     p ∈ imgs →
     exporter.dataset_find ds p = Some (i, s) →
     files w !! exporter.xml_path_of s = None →
     ∃ ds' evs,
       cache_dataset w' = Some ds'
       ∧ exporter.dataset_find ds' p = Some (i, s)
       ∧ trace w' = (trace w ++ evs)%list
       ∧ exporter.xml_path_of s ∉ checksummed evs)
  ∧ (∀ ds ds' i s,
       exporter.update_dataset E (Some ds) w = (w', Ok (Some ds')) →
       ds !! i = Some s →
       files w !! exporter.xml_path_of s = None →
       ∃ s' evs,
         ds' !! i = Some s'
         ∧ id s' = id s ∧ filepath s' = filepath s
         ∧ fields s' = <["ground_truth" := PyNone]> (fields s)
         ∧ trace w' = (trace w ++ evs)%list
         ∧ s' ∈ autosaved evs
         ∧ exporter.xml_path_of s ∉ checksummed evs).
Proof.
  split.
  - intros ds imgs r p i s Hc Hm Hrun Hp Hf Hx.
    destruct (update_dataset_unattached E _ _ _ _ Hc Hrun)
      as (imgs' & ds' & evs & Hm' & Hst & _ & ->).
    rewrite Hm in Hm'. injection Hm' as <-.
    eexists ds', _. split_and!; [done| |done|].
    + eapply steps_keep_member; [done..|]. right.
      by apply missing_settled, sidecar_missing.
    + unfold checksummed. rewrite omap_app.
      intros [Hin|Hin]%elem_of_app.
      * apply (steps_checksummed E _ _ _ _ _ _ Hst) in Hin as [? ?].
        congruence.
      * simpl in Hin. fold (checksummed (refresh_calls w)) in Hin.
        rewrite checksummed_refresh in Hin. by apply elem_of_nil in Hin.
  - intros ds ds' i s Hrun Hi Hx.
    destruct (update_dataset_attached E _ _ _ _ Hrun)
      as (ds0 & cached' & evs & [= <-] & Hst & ->).
    destruct (given_steps_lookup E _ _ _ _ _ _ _ _ _ Hst Hi)
      as (d & s' & H1 & H2 & _ & _ & H5).
    unfold synced in H2. rewrite (sidecar_missing _ _ Hx) in H2.
    apply clear_field_Ok in H2 as [-> _].
    eexists _, _. split_and!; [done..| |].
    + apply in_autosaved, elem_of_app. left.
      apply H5, elem_of_app. right. by left.
    + unfold checksummed. rewrite omap_app.
      intros [Hin|Hin]%elem_of_app.
      * apply (given_steps_calls E _ _ _ _ _ _ _ Hst) in Hin as [? ?].
        congruence.
      * fold (checksummed (refresh_calls w)) in Hin.
        rewrite checksummed_refresh in Hin. by apply elem_of_nil in Hin.
Qed.

(** C5. A sample whose sidecar exists and whose cached checksum equals
    the checksum of the sidecar is left exactly as it is by a run of the
    updater: every field, hence label, metadata and the extra annotation
    fields, is unmodified, and the sample keeps its position. *)
Theorem matching_checksum_leaves_sample w w' :
  (∀ ds r j s xml_md5,
     cache_dataset w = Some ds →
     exporter.update_dataset E None w = (w', Ok r) →
     ds !! j = Some s →
     is_Some (files w !! exporter.xml_path_of s) →
     md5sum E (files w) (exporter.xml_path_of s) = Ok xml_md5 →
     fields s !! "xml_md5" = Some (Plain (JStr xml_md5)) →
     ∃ ds', cache_dataset w' = Some ds' ∧ ds' !! j = Some s)
  ∧ (∀ ds ds' j s xml_md5,
       exporter.update_dataset E (Some ds) w = (w', Ok (Some ds')) →
       ds !! j = Some s →
       is_Some (files w !! exporter.xml_path_of s) →
       md5sum E (files w) (exporter.xml_path_of s) = Ok xml_md5 →
       fields s !! "xml_md5" = Some (Plain (JStr xml_md5)) →
       ds' !! j = Some s).
Proof.
  split.
  - intros ds r j s h Hc Hrun Hj Hx Hh Hcached.
    destruct (update_dataset_unattached E _ _ _ _ Hc Hrun)
      as (imgs & ds' & evs & _ & Hst & _ & ->).
    exists ds'. split; [done|].
    eapply steps_keep_settled; [done..|]. apply in_sync_settled.
    split; [by apply sidecar_present|]. by exists h.
  - intros ds ds' j s h Hrun Hj Hx Hh Hcached.
    destruct (update_dataset_attached E _ _ _ _ Hrun)
      as (ds0 & cached' & evs & [= <-] & Hst & ->).
    destruct (given_steps_lookup E _ _ _ _ _ _ _ _ _ Hst Hj)
      as (d & s' & H1 & H2 & _).
    unfold synced in H2. rewrite (sidecar_present _ _ Hx) in H2.
    rewrite refreshed_by_in_sync in H2.
    + by injection H2 as <-.
    + split; [by apply sidecar_present|]. by exists h.
Qed.

(** C6. Unattached mode adds, for a listed media file that is no member
    of the dataset, exactly one sample, the one the sample builder makes
    for that path, and the dataset then holds exactly one sample with
    that path.  Attached mode adds nothing: the collection comes back
    with the same length, paths and ids, the cached dataset keeps its
    members in their order, a member whose id no sample of the
    collection has is left as it is, and [add_sample] is never
    called. *)
Theorem new_media_is_added_once w w' :
  (∀ ds imgs r p,
     builder_keeps_path E →
     cache_dataset w = Some ds →
     media_files E w = Ok imgs →
     exporter.update_dataset E None w = (w', Ok r) →
     p ∈ imgs →
     p ∉ paths ds →
     ∃ g ds' evs,
       generate_sgcc_sample E (files w) p = Ok g
       ∧ cache_dataset w' = Some ds'
       ∧ trace w' = (trace w ++ evs)%list
       ∧ filter (λ g, filepath g = p) (added evs) = [g]
       ∧ filter (λ q, q = p) (paths ds') = [p])
  ∧ (∀ ds ds',
       exporter.update_dataset E (Some ds) w = (w', Ok (Some ds')) →
       length ds' = length ds
       ∧ paths ds' = paths ds
       ∧ id <$> ds' = id <$> ds
       ∧ fmap (M := list) id <$> cache_dataset w'
         = fmap (M := list) id <$> cache_dataset w
       ∧ (∀ cached j m,
            cache_dataset w = Some cached →
            cached !! j = Some m →
            id m ∉ id <$> ds →
            ∃ cached', cache_dataset w' = Some cached'
                       ∧ cached' !! j = Some m)
       ∧ ∃ evs, trace w' = (trace w ++ evs)%list ∧ added evs = []).
Proof.
  split.
  - intros ds imgs r p Hb Hc Hm Hrun Hp Hn.
    destruct (update_dataset_unattached E _ _ _ _ Hc Hrun)
      as (imgs' & ds' & evs & Hm' & Hst & _ & ->).
    rewrite Hm in Hm'. injection Hm' as <-.
    destruct (steps_add_once E _ _ _ _ _ p Hb Hst Hn Hp)
      as (g & Hg & Ha & Hd).
    exists g, ds', (evs ++ DatasetSave :: refresh_calls w)%list.
    split_and!; try done.
    unfold added. rewrite omap_app. simpl.
    fold (added evs) (added (refresh_calls w)).
    by rewrite added_refresh, app_nil_r.
  - intros ds ds' Hrun.
    destruct (update_dataset_attached E _ _ _ _ Hrun)
      as (ds0 & cached' & evs & [= <-] & Hst & ->).
    destruct (given_steps_out E _ _ _ _ _ _ _ Hst) as (left & -> & _ & Hall).
    pose proof (given_steps_cache E _ _ _ _ _ _ _ Hst) as Hcache.
    destruct (given_steps_calls E _ _ _ _ _ _ _ Hst) as [Hcalls _].
    simpl. split_and!.
    + symmetry. by eapply Forall2_length.
    + unfold paths. clear -Hall.
      induction Hall as [|?????]; simpl; [done|]. f_equal; [|done]. tauto.
    + clear -Hall.
      induction Hall as [|?????]; simpl; [done|]. f_equal; [|done]. tauto.
    + destruct (cache_dataset w), cached'; simpl in *; try done.
      f_equal. apply Hcache.
    + intros cached j m Hc Hj Hm. rewrite Hc in Hcache.
      destruct cached' as [d'|]; [|done]. exists d'. split; [done|].
      by apply Hcache.
    + eexists. split; [done|]. unfold added. rewrite omap_app.
      fold (added evs) (added (refresh_calls w)).
      by rewrite added_refresh, added_given.
Qed.

End updater_claims.

(** ** The claims on the sample worlds *)

Lemma get_select_dv_none_cases_witness :
  cache_dataset demo.w_empty = Some []
  ∧ files demo.w !! "/data/list.txt" = None
  ∧ exporter.get_select_dv demo.E None demo.w_empty = (demo.w_empty, Ok None)
  ∧ exporter.get_select_dv demo.E (Some "/data/list.txt") demo.w
    = (demo.w, Ok None)
  ∧ exporter.get_select_dv demo.E None demo.w
    = (demo.w, Ok (Some [demo.a])).
Proof.
  split; [reflexivity|]. split; [vm_compute; reflexivity|].
  destruct (get_select_dv_none_cases demo.E demo.w_empty) as (H1 & _ & _).
  destruct (get_select_dv_none_cases demo.E demo.w) as (_ & H2 & H3).
  split; [apply H1; reflexivity|].
  split; [apply H2; vm_compute; reflexivity|].
  rewrite (H3 demo.a [demo.b] demo.session); vm_compute; reflexivity.
Defined.


Lemma objs_info_one_record_per_detection_witness :
  fields demo.a !! "ground_truth" = Some (Detections [demo.cat; demo.dog])
  ∧ can_open (files demo.w) "/data/a.anno" = Ok tt
  ∧ ∃ doc objs,
      exporter._export_one_sample_anno demo.a "/data" demo.w
      = (set_files (<["/data/a.anno" := JsonDoc doc]> (files demo.w)) demo.w,
         Ok tt)
      ∧ doc !! "objs_info" = Some (JArr objs)
      ∧ length objs = 2.
Proof.
  split; [vm_compute; reflexivity|].
  split; [vm_compute; reflexivity|].
  destruct (objs_info_one_record_per_detection demo.a [demo.cat; demo.dog]
              demo.meta "/data" demo.w)
    as (doc & objs & Hrun & Hobjs & Hlen & _).
  - vm_compute; reflexivity.
  - vm_compute; reflexivity.
  - constructor; [|constructor; [|constructor]].
    + by eexists _, _, _, _, _.
    + by eexists _, _, _, _, _.
  - intros k v Hk Hv. unfold dumped_fields in Hk.
    repeat (apply elem_of_cons in Hk as [->|Hk]);
      try (vm_compute in Hv; by simplify_eq).
    by apply elem_of_nil in Hk.
  - vm_compute; reflexivity.
  - exists doc, objs. split; [exact Hrun|]. split; [exact Hobjs|exact Hlen].
Defined.


Lemma checked_member_is_saved_witness :
  in_schema [demo.a; demo.b] "xml_md5" = true
  ∧ ∃ s' ds' evs,
      cache_dataset demo.after = Some ds'
      ∧ exporter.dataset_find ds' "/data/a.jpg" = Some (0, s')
      ∧ trace demo.after = (trace demo.w ++ evs)%list
      ∧ s' ∈ saved evs.
Proof.
  assert (Hc : in_schema [demo.a; demo.b] "xml_md5" = true)
    by (vm_compute; reflexivity).
  split; [exact Hc|].
  destruct (checked_member_is_saved demo.E demo.w demo.after
              [demo.a; demo.b] ["/data/a.jpg"; "/data/b.jpg"; "/data/c.jpg"]
              None "/data/a.jpg" 0 demo.a)
    as (s' & ds' & evs & H1 & H2 & H3 & H4 & _).
  - reflexivity.
  - vm_compute; reflexivity.
  - vm_compute; reflexivity.
  - by left.
  - vm_compute; reflexivity.
  - exists (Text "new"); vm_compute; reflexivity.
  - exact Hc.
  - exists s', ds', evs. split; [exact H1|]. split; [exact H2|].
    split; [exact H3|exact H4].
Defined.

Lemma missing_sidecar_clear_is_lost_witness :
  files demo.w !! exporter.xml_path_of demo.b = None
  ∧ fields demo.b !! "ground_truth" = Some (Detections [demo.cat])
  ∧ (∃ ds' evs,
       cache_dataset demo.after = Some ds'
       ∧ exporter.dataset_find ds' "/data/b.jpg" = Some (1, demo.b)
       ∧ trace demo.after = (trace demo.w ++ evs)%list
       ∧ exporter.xml_path_of demo.b ∉ checksummed evs)
  ∧ exporter.update_dataset demo.E (Some [demo.a; demo.b]) demo.w
    = (demo.after_given, Ok (Some [demo.a_new; demo.b_cleared]))
  ∧ fields demo.b_cleared !! "ground_truth" = Some PyNone
  ∧ ∃ evs,
      trace demo.after_given = (trace demo.w ++ evs)%list
      ∧ demo.b_cleared ∈ autosaved evs.
Proof.
  assert (Hx : files demo.w !! exporter.xml_path_of demo.b = None)
    by (vm_compute; reflexivity).
  assert (Hrun : exporter.update_dataset demo.E (Some [demo.a; demo.b])
                   demo.w
                 = (demo.after_given,
                    Ok (Some [demo.a_new; demo.b_cleared])))
    by (vm_compute; reflexivity).
  split; [exact Hx|]. split; [vm_compute; reflexivity|]. split.
  { apply (proj1 (missing_sidecar_clear_is_lost demo.E demo.w demo.after)
             [demo.a; demo.b] ["/data/a.jpg"; "/data/b.jpg"; "/data/c.jpg"]
             None "/data/b.jpg" 1 demo.b).
    - reflexivity.
    - vm_compute; reflexivity.
    - vm_compute; reflexivity.
    - right. by left.
    - vm_compute; reflexivity.
    - exact Hx. }
  split; [exact Hrun|]. split; [vm_compute; reflexivity|].
  destruct (proj2 (missing_sidecar_clear_is_lost demo.E demo.w
                     demo.after_given)
              [demo.a; demo.b] [demo.a_new; demo.b_cleared] 1 demo.b
              Hrun eq_refl Hx)
    as (s' & evs & H1 & _ & _ & _ & H5 & H6 & _).
  injection H1 as <-. by exists evs.
Defined.

Lemma matching_checksum_leaves_sample_witness :
  fields demo.a_new !! "xml_md5" = Some (Plain (JStr "new"))
  ∧ default [] (cache_dataset demo.after) !! 0 = Some demo.a_new
  ∧ ∃ ds', cache_dataset demo.after_again = Some ds'
           ∧ ds' !! 0 = Some demo.a_new.
Proof.
  assert (Hc : fields demo.a_new !! "xml_md5" = Some (Plain (JStr "new")))
    by (vm_compute; reflexivity).
  split; [exact Hc|]. split; [vm_compute; reflexivity|].
  apply (proj1 (matching_checksum_leaves_sample demo.E demo.after
                  demo.after_again)
           (default [] (cache_dataset demo.after)) None 0 demo.a_new "new").
  - vm_compute; reflexivity.
  - vm_compute; reflexivity.
  - vm_compute; reflexivity.
  - exists (Text "new"); vm_compute; reflexivity.
  - vm_compute; reflexivity.
  - exact Hc.
Defined.

Lemma new_media_is_added_once_witness :
  builder_keeps_path demo.E
  ∧ ("/data/c.jpg" ∉ paths [demo.a; demo.b])
  ∧ ∃ g ds' evs,
      generate_sgcc_sample demo.E (files demo.w) "/data/c.jpg" = Ok g
      ∧ cache_dataset demo.after = Some ds'
      ∧ trace demo.after = (trace demo.w ++ evs)%list
      ∧ filter (λ g, filepath g = "/data/c.jpg") (added evs) = [g]
      ∧ filter (λ q, q = "/data/c.jpg") (paths ds') = ["/data/c.jpg"].
Proof.
  assert (Hb : builder_keeps_path demo.E).
  { intros fs p g Hg. vm_compute in Hg. by injection Hg as <-. }
  assert (Hn : "/data/c.jpg" ∉ paths [demo.a; demo.b]).
  { unfold paths. simpl. intros H.
    repeat (apply elem_of_cons in H as [H|H]; [discriminate H|]).
    by apply elem_of_nil in H. }
  split; [exact Hb|]. split; [exact Hn|].
  apply (proj1 (new_media_is_added_once demo.E demo.w demo.after)
           [demo.a; demo.b] ["/data/a.jpg"; "/data/b.jpg"; "/data/c.jpg"]
           None "/data/c.jpg" Hb).
  - reflexivity.
  - vm_compute; reflexivity.
  - vm_compute; reflexivity.
  - do 2 right. by left.
  - exact Hn.
Defined.

(** ** Where the code departs from the claims as stated *)


(** C3 as stated fails: the member [c], found under a listed path, has
    its sidecar, and its checksum is computed; the dataset has no
    checksum field, and the member is not saved. *)
Lemma member_of_dataset_without_checksums_is_not_saved :
  media_files demo.E demo.w_c = Ok ["/data/c.jpg"]
  ∧ exporter.dataset_find [demo.c] "/data/c.jpg" = Some (0, demo.c)
  ∧ is_Some (files demo.w_c !! exporter.xml_path_of demo.c)
  ∧ in_schema [demo.c] "xml_md5" = false
  ∧ exporter.update_dataset demo.E None demo.w_c = (demo.after_c, Ok None)
  ∧ trace demo.after_c = [Md5sum "/data/c.xml"; DatasetSave]
  ∧ saved (trace demo.after_c) = [].
Proof.
  split; [vm_compute; reflexivity|]. split; [vm_compute; reflexivity|].
  split; [exists (Text "c"); vm_compute; reflexivity|].
  repeat split; vm_compute; reflexivity.
Qed.

(** * Further properties *)

(** ** More on the serializer *)

Section serializer_more.

Implicit Types (sample : Sample) (result : gmap string FieldVal).
Implicit Types (w : World) (save_dir : string).

Ltac in_list :=
  solve [repeat first [left; reflexivity | right]].

(** The serializer as a function of the files. *)
Lemma export_one_sample_anno_eq sample save_dir w :
  exporter._export_one_sample_anno sample save_dir w
  = (set_files (task_files save_dir (files w) sample) w,
     task_result save_dir (files w) sample).
Proof.
  unfold exporter._export_one_sample_anno, task_files, task_result.
  unfold_M.
  destruct (exporter.build_result sample) as [result|e]; simpl.
  - rewrite write_json_eq. unfold mbind, res_bind.
    destruct (can_open _ _) as [[]|e]; [|by rewrite set_files_id].
    by destruct (json_dump result).
  - by rewrite set_files_id.
Qed.

(** What the record is made of, when it is made. *)
Lemma build_result_Ok sample result :
  exporter.build_result sample = Ok result →
  ∃ m objs,
    fields sample !! "metadata" = Some (Metadata m)
    ∧ result
      = <["objs_info" := Plain (JArr objs)]>
          (<["img_shape" := Plain (JArr [json_of_int (height m);
                                         json_of_int (width m);
                                         json_of_int (num_channels m)])]>
             (<["chiebot_sample_tags" :=
                  get_sample_field sample "chiebot_sample_tags"
                                   (Plain (JArr []))]>
                (exporter.copy_fields sample ∅)))
    ∧ if truthy (get_sample_field sample "ground_truth" PyNone)
      then ∃ dets,
             get_sample_field sample "ground_truth" PyNone = Detections dets
             ∧ mapM exporter.obj_of dets = Ok objs
      else objs = [].
Proof.
  unfold exporter.build_result, getitem.
  destruct (fields sample !! "metadata") as [[j|m|d]|]; simpl; try done.
  destruct (truthy (get_sample_field sample "ground_truth" PyNone)) eqn:Ht.
  - destruct (get_sample_field sample "ground_truth" PyNone) as [j|m'|dets];
      simpl; try done.
    destruct (mapM exporter.obj_of dets) as [objs|e] eqn:Hobjs; simpl;
      [|done].
    intros [= <-]. exists m, objs. split_and!; [done..|]. by exists dets.
  - simpl. intros [= <-]. by exists m, [].
Qed.

Lemma copy_fields_keys sample k :
  is_Some (exporter.copy_fields sample ∅ !! k) →
  k ∈ ["data_source"; "img_quality"; "additions"; "sample_tags"; "ID"].
Proof.
  unfold exporter.copy_fields, exporter.need_export_map. simpl.
  rewrite !copy_step_lookup.
  destruct (decide (k ∈ ["data_source"; "img_quality"; "additions";
                         "sample_tags"; "ID"])) as [|Hn]; [done|].
  repeat (case_decide; [exfalso; apply Hn; subst k; in_list|]).
  rewrite lookup_empty. by intros [? ?].
Qed.

(** X1. Without metadata the serializer raises [AttributeError] and
    writes nothing: the world is as before.  That is so for a sample on
    which no metadata was set, whose [metadata] field holds [None], and
    for one whose field holds anything else that is no image
    metadata. *)
Theorem serializer_needs_metadata sample save_dir w :
  (∀ m, fields sample !! "metadata" ≠ Some (Metadata m)) →
  exporter._export_one_sample_anno sample save_dir w
  = (w, Raise AttributeError).
Proof.
  intros Hm. rewrite export_one_sample_anno_eq.
  unfold task_files, task_result, exporter.build_result, getitem.
  destruct (fields sample !! "metadata") as [[j|m|d]|]; simpl;
    rewrite ?set_files_id; try done.
  by destruct (Hm m).
Qed.

(** X2. A document that is written holds the sample-level tag list
    (the field, or the empty list when the sample has none), the shape
    [height, width, channels] of the metadata and the object list, and
    no key outside the eight of the format. *)
Theorem written_document_shape sample save_dir w w' :
  exporter._export_one_sample_anno sample save_dir w = (w', Ok tt) →
  ∃ doc m tags,
    files w' !! exporter.anno_path sample save_dir = Some (JsonDoc doc)
    ∧ fields sample !! "metadata" = Some (Metadata m)
    ∧ doc !! "img_shape"
      = Some (JArr [json_of_int (height m); json_of_int (width m);
                    json_of_int (num_channels m)])
    ∧ get_sample_field sample "chiebot_sample_tags" (Plain (JArr []))
      = Plain tags
    ∧ doc !! "chiebot_sample_tags" = Some tags
    ∧ is_Some (doc !! "objs_info")
    ∧ ∀ k, is_Some (doc !! k) → k ∈ anno_keys.
Proof.
  intros (result & doc & Hb & Hd & ->)%export_one_sample_anno_Ok.
  destruct (build_result_Ok _ _ Hb) as (m & objs & Hm & Hr & _).
  pose proof (json_dump_Ok _ _ Hd) as [Hplain _].
  assert (Htags : is_plain (get_sample_field sample "chiebot_sample_tags"
                              (Plain (JArr [])))).
  { apply (Hplain "chiebot_sample_tags"). rewrite Hr.
    rewrite !lookup_insert_ne by done. apply lookup_insert_eq. }
  destruct (get_sample_field sample "chiebot_sample_tags" (Plain (JArr [])))
    as [tags| |] eqn:Ht; try done.
  exists doc, m, tags. split_and!; try done.
  - apply lookup_insert_eq.
  - rewrite (json_dump_lookup _ _ _ Hd), Hr.
    rewrite lookup_insert_ne by done. by rewrite lookup_insert_eq.
  - rewrite (json_dump_lookup _ _ _ Hd), Hr.
    rewrite !lookup_insert_ne by done. by rewrite lookup_insert_eq.
  - rewrite (json_dump_lookup _ _ _ Hd), Hr. rewrite lookup_insert_eq.
    by eexists.
  - intros k [j Hk]. rewrite (json_dump_lookup _ _ _ Hd), Hr in Hk.
    unfold anno_keys.
    destruct (decide (k = "objs_info")) as [->|]; [in_list|].
    destruct (decide (k = "img_shape")) as [->|]; [in_list|].
    destruct (decide (k = "chiebot_sample_tags")) as [->|]; [in_list|].
    rewrite !lookup_insert_ne in Hk by done.
    destruct (exporter.copy_fields sample ∅ !! k) eqn:Hc; [|done].
    assert (Hin := copy_fields_keys sample k (mk_is_Some _ _ Hc)).
    repeat (apply elem_of_cons in Hin as [->|Hin]; [in_list|]).
    by apply elem_of_nil in Hin.
Qed.

(** X3. A sample whose primary label field is missing or falsy is
    written with an empty object list. *)
Theorem no_label_no_objects sample save_dir w w' :
  truthy (get_sample_field sample "ground_truth" PyNone) = false →
  exporter._export_one_sample_anno sample save_dir w = (w', Ok tt) →
  ∃ doc,
    files w' !! exporter.anno_path sample save_dir = Some (JsonDoc doc)
    ∧ doc !! "objs_info" = Some (JArr []).
Proof.
  intros Ht (result & doc & Hb & Hd & ->)%export_one_sample_anno_Ok.
  destruct (build_result_Ok _ _ Hb) as (m & objs & Hm & Hr & Hobjs).
  rewrite Ht in Hobjs. subst objs.
  exists doc. split; [apply lookup_insert_eq|].
  rewrite (json_dump_lookup _ _ _ Hd), Hr. by rewrite lookup_insert_eq.
Qed.

Lemma obj_of_short det :
  length (bounding_box det) < 4 → exporter.obj_of det = Raise IndexError.
Proof.
  unfold exporter.obj_of, index.
  destruct (bounding_box det) as [|x [|y [|bw [|bh rest]]]]; simpl;
    [done..|lia].
Qed.

Lemma obj_of_Raise det e : exporter.obj_of det = Raise e → e = IndexError.
Proof.
  unfold exporter.obj_of, index.
  destruct (bounding_box det) as [|x [|y [|bw [|bh rest]]]]; simpl;
    by intros [= <-].
Qed.

Lemma mapM_obj_of_short dets :
  Exists (λ det, length (bounding_box det) < 4) dets →
  mapM exporter.obj_of dets = Raise IndexError.
Proof.
  induction 1 as [det dets Hd|det dets _ IH]; simpl.
  - by rewrite (obj_of_short _ Hd).
  - destruct (exporter.obj_of det) as [j|e] eqn:Hj; simpl.
    + by rewrite IH.
    + by rewrite (obj_of_Raise _ _ Hj).
Qed.

(** X4. A detection whose box has fewer than four numbers makes the
    serializer raise [IndexError]; nothing is written, the world is as
    before. *)
Theorem short_box_raises sample dets m save_dir w :
  fields sample !! "ground_truth" = Some (Detections dets) →
  fields sample !! "metadata" = Some (Metadata m) →
  Exists (λ det, length (bounding_box det) < 4) dets →
  exporter._export_one_sample_anno sample save_dir w = (w, Raise IndexError).
Proof.
  intros Hg Hm Hshort. rewrite export_one_sample_anno_eq.
  assert (Hgt : get_sample_field sample "ground_truth" PyNone
                = Detections dets)
    by (unfold get_sample_field; by rewrite Hg).
  assert (Hb : exporter.build_result sample = Raise IndexError).
  { unfold exporter.build_result, getitem.
    rewrite Hm, Hgt. cbn -[mapM exporter.copy_fields].
    by rewrite (mapM_obj_of_short _ Hshort). }
  unfold task_files, task_result. rewrite Hb. simpl.
  by rewrite set_files_id.
Qed.

(** X5. Whatever it returns, the serializer touches one path only, that
    of the sample's [.anno] file: every other file, the cache and the
    trace are as before. *)
Theorem serializer_touches_one_path sample save_dir w :
  cache_dataset (fst (exporter._export_one_sample_anno sample save_dir w))
  = cache_dataset w
  ∧ cache_session (fst (exporter._export_one_sample_anno sample save_dir w))
    = cache_session w
  ∧ trace (fst (exporter._export_one_sample_anno sample save_dir w))
    = trace w
  ∧ ∀ p, p ≠ exporter.anno_path sample save_dir →
      files (fst (exporter._export_one_sample_anno sample save_dir w)) !! p
      = files w !! p.
Proof.
  rewrite export_one_sample_anno_eq. simpl. split_and!; try done.
  intros p Hp. unfold task_files.
  destruct (exporter.build_result sample) as [result|]; [|done].
  destruct (can_open _ _); [|done].
  destruct (json_dump result); by rewrite lookup_insert_ne.
Qed.

(** X6. The path of the [.anno] file is made of the directory and the
    stem of the file name alone.  Two samples with the same stem are
    written to the same path, and of two successful writes, one after
    the other, the file keeps the document of the second. *)
Theorem same_stem_overwrites (s1 s2 : Sample) save_dir w w1 w2 :
  path.splitext_root (path.basename (filepath s1))
  = path.splitext_root (path.basename (filepath s2)) →
  exporter._export_one_sample_anno s1 save_dir w = (w1, Ok tt) →
  exporter._export_one_sample_anno s2 save_dir w1 = (w2, Ok tt) →
  exporter.anno_path s1 save_dir = exporter.anno_path s2 save_dir
  ∧ ∃ doc2,
      anno_doc s2 = Ok doc2
      ∧ files w2 !! exporter.anno_path s1 save_dir = Some (JsonDoc doc2).
Proof.
  intros Hstem _ (result & doc & Hb & Hd & ->)%export_one_sample_anno_Ok.
  assert (Hp : exporter.anno_path s1 save_dir = exporter.anno_path s2 save_dir)
    by (unfold exporter.anno_path; by rewrite Hstem).
  split; [done|]. exists doc. split.
  - unfold anno_doc. rewrite Hb. simpl. done.
  - rewrite Hp. apply lookup_insert_eq.
Qed.

End serializer_more.

(** ** The dispatch of the serializer over a dataset *)

Section dispatch.

Implicit Types (sample : Sample) (ds : list Sample).
Implicit Types (w : World) (save_dir : string) (fs : gmap string File).

Lemma tasks_files_cons save_dir fs s ds :
  tasks_files save_dir fs (s :: ds)
  = tasks_files save_dir (task_files save_dir fs s) ds.
Proof. reflexivity. Qed.

Lemma task_files_other save_dir fs s p :
  p ≠ exporter.anno_path s save_dir →
  task_files save_dir fs s !! p = fs !! p.
Proof.
  intros Hp. unfold task_files.
  destruct (exporter.build_result s) as [result|]; [|done].
  destruct (can_open _ _); [|done].
  destruct (json_dump result); by rewrite lookup_insert_ne.
Qed.

Lemma tasks_files_other save_dir fs ds p :
  p ∉ (λ s, exporter.anno_path s save_dir) <$> ds →
  tasks_files save_dir fs ds !! p = fs !! p.
Proof.
  revert fs. induction ds as [|s ds IH]; intros fs Hp; [done|].
  rewrite fmap_cons in Hp. apply not_elem_of_cons in Hp as [Hne Hp].
  rewrite tasks_files_cons, IH by done. by apply task_files_other.
Qed.

Lemma submit_all_anno save_dir ds w :
  submit_all (λ sample, exporter._export_one_sample_anno sample save_dir)
             ds w
  = (set_files (tasks_files save_dir (files w) ds) w,
     Ok (tasks_results save_dir (files w) ds)).
Proof.
  revert w. induction ds as [|s ds IH]; intros w; simpl.
  - unfold_M. by rewrite set_files_id.
  - unfold mbind at 1, M_bind at 1. unfold submit at 1.
    rewrite export_one_sample_anno_eq.
    unfold mbind at 1, M_bind at 1. rewrite IH. unfold_M. simpl.
    reflexivity.
Qed.

(** Collecting the results raises the first exception that a task
    kept, and changes nothing. *)
Lemma collect_eq (tasks : list (res unit)) w :
  exporter.collect tasks w = (w, first_error tasks).
Proof.
  unfold exporter.collect. induction tasks as [|[[]|e] tasks IH]; simpl.
  - done.
  - unfold mbind at 1, M_bind at 1. unfold_M. simpl. exact IH.
  - by unfold_M.
Qed.

Lemma os_mkdir_eq p w :
  os_mkdir p w
  = match can_mkdir (files w) p with
    | Ok _ => (set_files (<[p := Dir]> (files w)) w, Ok tt)
    | Raise e => (w, Raise e)
    end.
Proof.
  unfold os_mkdir, can_mkdir. unfold_M.
  destruct (String.eqb p ""); [done|].
  destruct (_ || _); [done|].
  by destruct (isdir (files w) (path.split_head p)) as [[]|].
Qed.

Lemma export_anno_file_eq save_dir ds w :
  exporter.export_anno_file save_dir (Some ds) w
  = match dir_found (files w) save_dir with
    | Ok _ =>
        (set_files (tasks_files save_dir (with_dir save_dir (files w)) ds) w,
         first_error (tasks_results save_dir
                        (with_dir save_dir (files w)) ds))
    | Raise e => (w, Raise e)
    end.
Proof.
  unfold exporter.export_anno_file, dir_found, with_dir.
  unfold mbind at 1, M_bind at 1. unfold os_path_exists at 1.
  destruct (bool_decide (is_Some (files w !! save_dir))); simpl.
  - unfold mbind at 1, M_bind at 1. unfold mret at 1, M_ret at 1.
    unfold mbind at 1, M_bind at 1. rewrite submit_all_anno.
    by rewrite collect_eq.
  - unfold mbind at 1, M_bind at 1. rewrite os_mkdir_eq.
    destruct (can_mkdir (files w) save_dir) as [[]|e]; [|done].
    unfold mbind at 1, M_bind at 1. rewrite submit_all_anno.
    by rewrite collect_eq.
Qed.

Lemma isdir_Dir fs d : fs !! d = Some Dir → isdir fs d = Ok tt.
Proof. unfold isdir. intros ->. by destruct (path.all_char _ _). Qed.

Lemma takes_files_ready save_dir fs ds :
  takes_files fs save_dir ds →
  dir_found fs save_dir = Ok tt ∧ ready save_dir (with_dir save_dir fs) ds.
Proof.
  unfold takes_files, dir_found, with_dir.
  intros [[Hd|[Hd Hmk]] Hall].
  - rewrite bool_decide_eq_true_2 by (rewrite Hd; eauto). by split.
  - rewrite bool_decide_eq_false_2 by (rewrite Hd; by intros [? ?]).
    split; [done|]. split; [apply lookup_insert_eq|].
    intros s Hs. destruct (Hall s Hs) as [Hhead Hp]. split; [done|].
    destruct (decide (exporter.anno_path s save_dir = save_dir)) as [Heq|];
      [|by rewrite lookup_insert_ne].
    exfalso. rewrite Heq in Hhead. unfold can_mkdir in Hmk.
    destruct (String.eqb save_dir ""); [done|].
    destruct (path.all_char "/" save_dir) eqn:Hroot;
      [by rewrite orb_true_r in Hmk|].
    destruct (bool_decide _); [done|]. simpl in Hmk.
    rewrite Hhead in Hmk. unfold isdir in Hmk.
    rewrite Hroot, Hd in Hmk. done.
Qed.

Lemma task_ready save_dir fs s ds :
  ready save_dir fs (s :: ds) →
  can_open fs (exporter.anno_path s save_dir) = Ok tt
  ∧ ready save_dir (task_files save_dir fs s) ds.
Proof.
  intros [Hd Hall]. destruct (Hall s) as [Hhead Hp]; [by left|].
  assert (Hne : save_dir ≠ exporter.anno_path s save_dir) by congruence.
  split.
  - unfold can_open. rewrite Hhead, (isdir_Dir _ _ Hd).
    unfold mbind, res_bind.
    by destruct (fs !! exporter.anno_path s save_dir) as [[]|].
  - split; [by rewrite task_files_other|].
    intros s' Hs'. destruct (Hall s') as [Hhead' Hp']; [by right|].
    split; [done|].
    destruct (decide (exporter.anno_path s' save_dir
                      = exporter.anno_path s save_dir)) as [->|];
      [|by rewrite task_files_other].
    unfold task_files.
    destruct (exporter.build_result s) as [result|]; [|done].
    destruct (can_open _ _); [|done].
    destruct (json_dump result); by rewrite lookup_insert_eq.
Qed.

(** There the result of a task is that of building and dumping the
    document. *)
Lemma tasks_results_ready save_dir fs ds :
  ready save_dir fs ds →
  tasks_results save_dir fs ds = (λ s, anno_doc s ;; Ok tt) <$> ds.
Proof.
  revert fs. induction ds as [|s ds IH]; intros fs Hr; [done|].
  destruct (task_ready _ _ _ _ Hr) as [Hopen Hr']. simpl.
  rewrite IH by done. f_equal.
  unfold task_result, anno_doc. rewrite Hopen.
  destruct (exporter.build_result s) as [result|]; simpl; [|done].
  by destruct (json_dump result).
Qed.

Lemma first_error_Ok ds :
  first_error ((λ s, anno_doc s ;; Ok tt) <$> ds) = Ok tt
  ↔ Forall (λ s, ∃ doc, anno_doc s = Ok doc) ds.
Proof.
  induction ds as [|s ds IH]; simpl.
  - split; [intros _; constructor|done].
  - destruct (anno_doc s) as [doc|e] eqn:Hs; simpl.
    + rewrite IH. split.
      * intros ?. constructor; [by exists doc|done].
      * by intros [_ ?]%Forall_cons.
    + split; [done|]. intros [[? ?] _]%Forall_cons. congruence.
Qed.

(** With one path per sample, the file of a sample that the serializer
    accepts holds the document of that sample. *)
Lemma tasks_files_own save_dir fs ds s doc :
  ready save_dir fs ds →
  NoDup ((λ s, exporter.anno_path s save_dir) <$> ds) →
  s ∈ ds → anno_doc s = Ok doc →
  tasks_files save_dir fs ds !! exporter.anno_path s save_dir
  = Some (JsonDoc doc).
Proof.
  revert fs. induction ds as [|s0 ds IH]; intros fs Hr Hnd Hin Hdoc.
  - by apply elem_of_nil in Hin.
  - rewrite fmap_cons in Hnd. apply NoDup_cons in Hnd as [Hfresh Hnd].
    destruct (task_ready _ _ _ _ Hr) as [Hopen Hr'].
    apply elem_of_cons in Hin as [->|Hin].
    + rewrite tasks_files_cons, tasks_files_other by done.
      unfold task_files, anno_doc in *. rewrite Hopen.
      destruct (exporter.build_result s0) as [result|]; [|done].
      simpl in Hdoc. rewrite Hdoc. apply lookup_insert_eq.
    + rewrite tasks_files_cons. by apply IH.
Qed.

Lemma with_dir_exists save_dir fs : is_Some (with_dir save_dir fs !! save_dir).
Proof.
  unfold with_dir. case_bool_decide; [done|].
  rewrite lookup_insert_eq. by eexists.
Qed.

Lemma task_files_keeps save_dir fs s p :
  is_Some (fs !! p) → is_Some (task_files save_dir fs s !! p).
Proof.
  intros Hp. unfold task_files.
  destruct (exporter.build_result s) as [result|]; [|done].
  destruct (can_open _ _); [|done].
  destruct (json_dump result);
    (destruct (decide (exporter.anno_path s save_dir = p)) as [->|];
     [rewrite lookup_insert_eq; by eexists|by rewrite lookup_insert_ne]).
Qed.

Lemma tasks_files_keeps save_dir fs ds p :
  is_Some (fs !! p) → is_Some (tasks_files save_dir fs ds !! p).
Proof.
  revert fs. induction ds as [|s ds IH]; intros fs Hp; [done|].
  rewrite tasks_files_cons. by apply IH, task_files_keeps.
Qed.

(** X7. Given a dataset, [export_anno_file] does not look at the cache.
    When [save_dir] is a directory or can be made, the files of the
    samples can be opened in it and the serializer accepts every
    sample, the call returns, the directory exists afterwards, the
    cache and the trace are as before and, the samples having one path
    each, every sample's file holds that sample's document. *)
Theorem export_anno_file_writes_every_sample save_dir ds w :
  takes_files (files w) save_dir ds →
  Forall (λ s, ∃ doc, anno_doc s = Ok doc) ds →
  NoDup ((λ s, exporter.anno_path s save_dir) <$> ds) →
  ∃ w',
    exporter.export_anno_file save_dir (Some ds) w = (w', Ok tt)
    ∧ is_Some (files w' !! save_dir)
    ∧ cache_dataset w' = cache_dataset w
    ∧ cache_session w' = cache_session w
    ∧ trace w' = trace w
    ∧ ∀ s doc, s ∈ ds → anno_doc s = Ok doc →
        files w' !! exporter.anno_path s save_dir = Some (JsonDoc doc).
Proof.
  intros [Hfound Hr]%takes_files_ready Hall Hnd.
  eexists. rewrite export_anno_file_eq, Hfound.
  rewrite tasks_results_ready by done.
  split; [by rewrite (proj2 (first_error_Ok ds) Hall)|].
  simpl. split_and!; try done.
  - apply tasks_files_keeps, with_dir_exists.
  - intros s doc Hin Hdoc. by apply tasks_files_own.
Qed.

(** X8. In a directory that takes the files, a sample that the
    serializer refuses does not keep the others from being written: the
    call raises, and still the file of every sample that the serializer
    accepts holds that sample's document.  The call raises exactly when
    some sample is refused. *)
Theorem export_anno_file_failure_is_not_contagious save_dir ds w :
  takes_files (files w) save_dir ds →
  NoDup ((λ s, exporter.anno_path s save_dir) <$> ds) →
  (snd (exporter.export_anno_file save_dir (Some ds) w) = Ok tt
   ↔ Forall (λ s, ∃ doc, anno_doc s = Ok doc) ds)
  ∧ ∀ s doc, s ∈ ds → anno_doc s = Ok doc →
      files (fst (exporter.export_anno_file save_dir (Some ds) w))
        !! exporter.anno_path s save_dir
      = Some (JsonDoc doc).
Proof.
  intros [Hfound Hr]%takes_files_ready Hnd.
  rewrite export_anno_file_eq, Hfound.
  rewrite tasks_results_ready by done. split.
  - apply first_error_Ok.
  - intros s doc Hin Hdoc. simpl. by apply tasks_files_own.
Qed.

End dispatch.

(** ** The export of media and labels *)

Section media_export.

Context (E : Collaborators).
Implicit Types (sample : Sample) (ds : list Sample).
Implicit Types (w : World) (save_dir : string) (fs : gmap string File).


(** The start of [export_sample]: the directory, then the exporter. *)
Lemma export_sample_eq save_dir ds get_anno kwargs w :
  exporter.export_sample E save_dir (Some ds) get_anno kwargs w
  = match dir_found (files w) save_dir with
    | Ok _ =>
        (exporter ← lift (SGCCGameDatasetExporter E save_dir
                            (delete "export_dir" kwargs));
         exporter.with_exporter exporter (
           emit LogCollection ;;
           tasks ← submit_all
                     (λ sample, exporter._export_one_sample E sample
                                  exporter get_anno save_dir)
                     ds;
           exporter.collect tasks))
          (set_files (with_dir save_dir (files w)) w)
    | Raise e => (w, Raise e)
    end.
Proof.
  unfold exporter.export_sample, dir_found, with_dir.
  unfold mbind at 1, M_bind at 1. unfold os_path_exists at 1.
  destruct (bool_decide (is_Some (files w !! save_dir))); simpl.
  - unfold mbind at 1, M_bind at 1. unfold mret at 1, M_ret at 1.
    by rewrite set_files_id.
  - unfold mbind at 1, M_bind at 1. rewrite os_mkdir_eq.
    by destruct (can_mkdir (files w) save_dir) as [[]|e].
Qed.

(** X10. Once [save_dir] is there and the exporter is made and
    entered, the exporter is left again whatever the tasks do: the files
    after [export_sample] are those the exporter's exit leaves, also
    when a task raised.  The exporter is made for [save_dir] and without
    the [export_dir] of the caller's keyword arguments. *)
Theorem exporter_is_always_left save_dir ds get_anno kwargs w exporter fs1 :
  dir_found (files w) save_dir = Ok tt →
  SGCCGameDatasetExporter E save_dir (delete "export_dir" kwargs)
  = Ok exporter →
  exporter_enter exporter (with_dir save_dir (files w)) = Ok fs1 →
  ∃ fs2,
    files (fst (exporter.export_sample E save_dir (Some ds) get_anno
                  kwargs w))
    = exporter_exit exporter fs2.
Proof.
  intros Hd Hc He. rewrite export_sample_eq, Hd.
  unfold exporter.with_exporter. unfold_M. simpl.
  rewrite Hc; simpl; rewrite He; simpl;
    match goal with
    | |- context [submit_all ?f ds ?w0] =>
        destruct (submit_all f ds w0) as [w2 [tasks|e]]
    end; simpl.
  all: try (match goal with
            | |- context [exporter.collect ?t ?w0] =>
                destruct (exporter.collect t w0) as [w3 [[]|e']]
            end; simpl).
  all: eexists; try reflexivity.
  all: by destruct r.
Qed.


End media_export.

(** ** More on the updater *)

Section updater_more.

Context (E : Collaborators).
Implicit Types (fs : gmap string File) (s : Sample) (w : World).
Implicit Types (ds : list Sample) (evs : list Event).

Lemma given_call_rule fs has s : Forall given_call (rule_calls E fs has s).
Proof.
  unfold rule_calls. constructor; [done|].
  destruct (md5sum E fs _); destruct (cached_checksum has s); try done.
  destruct (differs_from_str _ _); [|done]. by constructor.
Qed.

Lemma sync_calls_loop fs ds s : Forall loop_call (sync_calls E fs ds s).
Proof.
  unfold sync_calls, rule_calls. destruct (sidecar_exists fs s); [|done].
  constructor; [done|].
  destruct (md5sum E fs _);
    destruct (cached_checksum (in_schema ds "xml_md5") s); try done.
  destruct (differs_from_str _ _); [|done]. by constructor.
Qed.

Lemma save_call_loop fs ds s s' : Forall loop_call (save_call fs ds s s').
Proof. unfold save_call. destruct (_ && _); repeat constructor. Qed.

Lemma frame_refl P w : frame P w w.
Proof.
  split_and!; [done..|]. exists []. by rewrite app_nil_r.
Qed.

Lemma frame_trans P w1 w2 w3 : frame P w1 w2 → frame P w2 w3 → frame P w1 w3.
Proof.
  intros (Hf1 & Hs1 & evs1 & Ht1 & Hp1) (Hf2 & Hs2 & evs2 & Ht2 & Hp2).
  split_and!; [congruence..|]. exists (evs1 ++ evs2)%list.
  split; [by rewrite Ht2, Ht1, app_assoc|by apply Forall_app].
Qed.

Lemma frame_add_events P evs w d :
  Forall P evs → frame P w (set_cache_dataset d (add_events evs w)).
Proof. intros H. split_and!; [done..|]. by exists evs. Qed.

Lemma frame_add_events' P evs w : Forall P evs → frame P w (add_events evs w).
Proof. intros H. split_and!; [done..|]. by exists evs. Qed.

Lemma update_listed_frame p w :
  frame loop_call w (fst (exporter.update_listed E p w)).
Proof.
  destruct (cache_dataset w) as [ds|] eqn:Hc.
  - destruct (exporter.dataset_find ds p) as [[i s]|] eqn:Hf.
    + rewrite (update_listed_member E _ _ _ _ _ Hc Hf).
      pose proof (sync_calls_loop (files w) ds s) as Hl.
      destruct (kept E (files w) ds s) as [s'|e]; simpl.
      * apply frame_add_events, Forall_app. split; [done|].
        apply save_call_loop.
      * by apply frame_add_events'.
    + rewrite (update_listed_new E _ _ _ Hc Hf).
      destruct (generate_sgcc_sample E (files w) p) as [g|e]; simpl.
      * apply frame_add_events. by repeat constructor.
      * apply frame_add_events'. by repeat constructor.
  - unfold exporter.update_listed, exporter.the_dataset.
    unfold mbind, M_bind. rewrite Hc. simpl. apply frame_refl.
Qed.

Lemma for_each_listed_frame imgs w :
  frame loop_call w (fst (for_each imgs (exporter.update_listed E) w)).
Proof.
  revert w. induction imgs as [|p imgs IH]; intros w; simpl.
  - apply frame_refl.
  - unfold mbind, M_bind.
    pose proof (update_listed_frame p w) as H1.
    destruct (exporter.update_listed E p w) as [w1 [[]|e]]; simpl in *.
    + eapply frame_trans; [exact H1|apply IH].
    + exact H1.
Qed.

(** The attached loop, also when it is cut short: its calls, and the
    samples it saved, which are those it returns when it returns. *)
Lemma update_each_frame todo seen w w' r :
  exporter.update_each E seen todo w = (w', r) →
  frame given_call w w'
  ∧ ∀ out, r = Ok out →
      ∃ evs, trace w' = (trace w ++ evs)%list
             ∧ out = (seen ++ autosaved evs)%list.
Proof.
  revert seen w w' r. induction todo as [|s rest IH];
    intros seen w w' r; simpl.
  - intros [= <- <-]. split; [apply frame_refl|].
    intros out [= <-]. exists []. by rewrite !app_nil_r.
  - unfold mbind at 1, M_bind at 1. rewrite update_given_eq.
    set (d := exporter.home _ _ _).
    assert (H1 : frame given_call w (add_events (sync_calls E (files w) d s) w))
      by apply frame_add_events', sync_calls_given.
    destruct (synced E (files w) d s) as [s'|e]; simpl;
      [|by intros [= <- <-]].
    unfold mbind at 1, M_bind at 1. rewrite autosave_eq.
    assert (H2 : frame given_call w
                   (set_cache_dataset
                      (exporter.save_in s' <$>
                         cache_dataset (add_events (sync_calls E (files w) d s) w))
                      (add_events [Autosave s']
                         (add_events (sync_calls E (files w) d s) w)))).
    { rewrite add_events_app. apply frame_add_events, Forall_app.
      split; [apply sync_calls_given|by constructor]. }
    intros Hrest. apply IH in Hrest as [H3 H4].
    split; [by eapply frame_trans|].
    intros out Hout. destruct (H4 out Hout) as (evs & Ht & ->).
    exists (sync_calls E (files w) d s ++ Autosave s' :: evs)%list. split.
    + rewrite Ht. simpl. by rewrite <- !app_assoc.
    + pose proof (sync_calls_autosaved E (files w) d s) as Hn.
      unfold autosaved in *. rewrite omap_app, Hn. simpl.
      by rewrite <- app_assoc.
Qed.

Lemma update_dataset_frame dataset w w' r :
  exporter.update_dataset E dataset w = (w', r) →
  files w' = files w ∧ cache_session w' = cache_session w.
Proof.
  unfold exporter.update_dataset.
  destruct dataset as [ds|].
  - unfold mbind at 1, M_bind at 1. unfold mbind at 1, M_bind at 1.
    destruct (exporter.update_each E [] ds w) as [w1 [k|e]] eqn:Hloop;
      destruct (update_each_frame _ _ _ _ _ Hloop) as [(Hf & Hs & _) _];
      simpl in *; [|by intros [= <- <-]].
    unfold_M. destruct (cache_session w1) eqn:Hcs; intros [= <- <-];
      simpl; split; congruence.
  - unfold_M. destruct (cache_dataset w) as [[|first rest]|]; simpl;
      [by intros [= <- <-]| |by intros [= <- <-]].
    destruct (get_all_file_path E (files w) _ _) as [imgs|e]; simpl;
      [|by intros [= <- <-]].
    destruct (for_each_listed_frame imgs w) as (Hf & Hs & _).
    destruct (for_each imgs _ w) as [w1 [[]|e]]; simpl in *;
      [|by intros [= <- <-]].
    destruct (cache_session w1) eqn:Hcs; intros [= <- <-];
      simpl; split; congruence.
Qed.

(** X11. [update_dataset] writes no file and leaves the cached session
    alone: in either mode and whatever it returns or raises, the files
    after the call are the files before it. *)
Theorem update_keeps_files dataset w :
  files (fst (exporter.update_dataset E dataset w)) = files w
  ∧ cache_session (fst (exporter.update_dataset E dataset w))
    = cache_session w.
Proof.
  destruct (exporter.update_dataset E dataset w) as [w' r] eqn:Hrun.
  by apply update_dataset_frame in Hrun.
Qed.

(** X12. When [update_dataset] raises, neither [dataset.save()] nor
    [session.refresh()] has been called: an exception of a collaborator
    in the middle of a loop leaves the session showing the old state. *)
Theorem failed_update_skips_save_and_refresh dataset w w' e :
  exporter.update_dataset E dataset w = (w', Raise e) →
  ∃ evs,
    trace w' = (trace w ++ evs)%list
    ∧ (DatasetSave ∉ evs) ∧ (SessionRefresh ∉ evs).
Proof.
  assert (Hnone : ∀ evs, Forall (λ e, loop_call e ∨ given_call e) evs →
            (DatasetSave ∉ evs) ∧ (SessionRefresh ∉ evs)).
  { intros evs Hall. rewrite Forall_forall in Hall.
    split; intros Hin; by apply Hall in Hin as [?|?]. }
  unfold exporter.update_dataset.
  destruct dataset as [ds|].
  - unfold mbind at 1, M_bind at 1. unfold mbind at 1, M_bind at 1.
    destruct (exporter.update_each E [] ds w) as [w1 [k|e1]] eqn:Hloop;
      destruct (update_each_frame _ _ _ _ _ Hloop)
        as [(_ & _ & evs & Ht & Hall) _]; simpl in *.
    + unfold_M. by destruct (cache_session w1).
    + intros [= <- <-]. exists evs. split; [done|].
      apply Hnone. eapply Forall_impl; [done|]. by right.
  - unfold_M. destruct (cache_dataset w) as [[|first rest]|]; simpl.
    + intros [= <- <-]. exists []. rewrite app_nil_r.
      split_and!; [done|by intros ?%elem_of_nil..].
    + destruct (get_all_file_path E (files w) _ _) as [imgs|e1]; simpl.
      * destruct (for_each_listed_frame imgs w) as (_ & _ & evs & Ht & Hall).
        destruct (for_each imgs _ w) as [w1 [[]|e1]]; simpl in *.
        -- by destruct (cache_session w1).
        -- intros [= <- <-]. exists evs. split; [done|].
           apply Hnone. eapply Forall_impl; [done|]. by left.
      * intros [= <- <-]. exists []. rewrite app_nil_r.
        split_and!; [done|by intros ?%elem_of_nil..].
    + done.
Qed.

Lemma attached_run ds w w' r :
  exporter.update_dataset E (Some ds) w = (w', r) →
  ∃ evs,
    Forall given_call evs
    ∧ match r with
      | Ok out =>
          trace w' = (trace w ++ evs ++ refresh_calls w)%list
          ∧ out = Some (autosaved evs)
      | Raise _ => trace w' = (trace w ++ evs)%list
      end.
Proof.
  unfold exporter.update_dataset, refresh_calls.
  unfold mbind at 1, M_bind at 1. unfold mbind at 1, M_bind at 1.
  destruct (exporter.update_each E [] ds w) as [w1 [k|e1]] eqn:Hloop;
    destruct (update_each_frame _ _ _ _ _ Hloop)
      as [(_ & Hs & evs & Ht & Hall) Hout]; simpl in *.
  - destruct (Hout k eq_refl) as (evs' & Ht' & ->).
    rewrite Ht in Ht'. apply app_inv_head in Ht' as <-.
    unfold_M. rewrite Hs.
    destruct (cache_session w); simpl; intros [= <- <-]; exists evs;
      (split; [done|]); simpl; by rewrite Ht, ?app_assoc, ?app_nil_r.
  - intros [= <- <-]. by exists evs.
Qed.

(** X13. Attached mode computes checksums, parses sidecars and saves:
    every sample that the loop leaves is saved by the iteration of the
    collection, in the order of the collection and as the loop left it,
    changed or not.  The session refresh comes last, and only when the
    call returns.  Whatever the call returns or raises, it calls neither
    [context.save] nor [dataset.save()], builds no sample and adds
    none. *)
Theorem attached_mode_calls ds w :
  ∃ evs,
    trace (fst (exporter.update_dataset E (Some ds) w))
    = (trace w ++ evs
       ++ match snd (exporter.update_dataset E (Some ds) w) with
          | Ok _ => refresh_calls w
          | Raise _ => []
          end)%list
    ∧ Forall given_call evs
    ∧ ∀ r, snd (exporter.update_dataset E (Some ds) w) = Ok r →
           r = Some (autosaved evs).
Proof.
  destruct (exporter.update_dataset E (Some ds) w) as [w' r] eqn:Hrun.
  apply attached_run in Hrun as (evs & Hall & Hr). exists evs. simpl.
  destruct r as [out|e].
  - destruct Hr as [Ht ->]. split_and!; [done..|]. by intros r [= <-].
  - rewrite app_nil_r. by split_and!.
Qed.

(** X14. On an empty cached dataset unattached mode raises at
    [dataset.first()]: no file is listed, nothing is saved, the session
    is not refreshed, the world is as before. *)
Theorem empty_cached_dataset_raises w :
  cache_dataset w = Some [] →
  exporter.update_dataset E None w = (w, Raise ValueError).
Proof.
  intros Hc. unfold exporter.update_dataset. unfold_M. by rewrite Hc.
Qed.

(** The paths of the dataset after the steps: those before, then those
    of the samples that were added, in the order they were added. *)
Lemma steps_paths fs imgs ds ds' evs :
  steps E fs imgs ds ds' evs →
  paths ds' = (paths ds ++ paths (added evs))%list.
Proof.
  induction 1 as [ds|q imgs ds i0 s0 s0' ds' evs Hf0 Hs0 _ IH
                    |q imgs ds g ds' evs Hf0 Hg _ IH].
  - by rewrite app_nil_r.
  - destruct (kept_filepath E _ _ _ _ Hs0) as [Hp0 _].
    destruct (find_Some _ _ _ _ Hf0) as [Hi0 _].
    by rewrite added_step, IH, (paths_insert ds i0 s0 s0').
  - change (added (GenerateSample q :: AddSample g :: evs))
      with (g :: added evs).
    rewrite IH. unfold paths. rewrite fmap_app, fmap_cons. simpl.
    by rewrite <- app_assoc.
Qed.

(** X15. Unattached mode never removes or moves a member: after a run
    the paths of the dataset are the paths before, in the same order,
    followed by the paths of the samples that were added.  A member
    whose media file is gone from the directory stays. *)
Theorem update_never_removes w w' r ds :
  cache_dataset w = Some ds →
  exporter.update_dataset E None w = (w', Ok r) →
  ∃ ds' evs,
    cache_dataset w' = Some ds'
    ∧ trace w' = (trace w ++ evs)%list
    ∧ paths ds' = (paths ds ++ paths (added evs))%list.
Proof.
  intros Hc Hrun.
  destruct (update_dataset_unattached E _ _ _ _ Hc Hrun)
    as (imgs & ds' & evs & _ & Hst & _ & ->).
  eexists ds', _. split_and!; [done..|].
  rewrite (steps_paths _ _ _ _ _ Hst). f_equal.
  unfold added. rewrite omap_app. simpl.
  fold (added (refresh_calls w)). by rewrite added_refresh, app_nil_r.
Qed.

(** A sample behind another sample of the same path is never the one
    that is found, so no step touches it. *)
Lemma steps_keep_shadowed fs imgs ds ds' evs j s :
  steps E fs imgs ds ds' evs →
  ds !! j = Some s →
  (∃ i s0, i < j ∧ ds !! i = Some s0 ∧ filepath s0 = filepath s) →
  ds' !! j = Some s.
Proof.
  induction 1 as [ds|q imgs ds i0 s0 s0' ds' evs Hf0 Hs0 _ IH
                    |q imgs ds g ds' evs Hf0 Hg _ IH];
    intros Hj (i & t & Hlt & Hi & Hp).
  - done.
  - destruct (kept_filepath E _ _ _ _ Hs0) as [Hp0 _].
    apply list_find_Some in Hf0 as (Hi0 & Hq & Hleast).
    assert (i0 ≠ j).
    { intros ->. rewrite Hi0 in Hj. injection Hj as ->.
      apply (Hleast i t Hi Hlt). congruence. }
    apply IH.
    + by rewrite list_lookup_insert_ne.
    + destruct (decide (i0 = i)) as [->|].
      * exists i, s0'. split_and!; [done| |congruence].
        apply list_lookup_insert_eq. by eapply lookup_lt_Some.
      * exists i, t. split_and!; [done| |done].
        by rewrite list_lookup_insert_ne.
  - apply IH.
    + rewrite lookup_app_l; [done|]. by eapply lookup_lt_Some.
    + exists i, t. split_and!; [done| |done].
      rewrite lookup_app_l; [done|]. by eapply lookup_lt_Some.
Qed.

(** X16. In unattached mode a path names the first sample that has it:
    a sample that comes after another sample with the same path is left
    as it is by a run, stale or not. *)
Theorem shadowed_duplicate_is_never_updated w w' r ds i j s0 s :
  cache_dataset w = Some ds →
  exporter.update_dataset E None w = (w', Ok r) →
  i < j → ds !! i = Some s0 → ds !! j = Some s →
  filepath s0 = filepath s →
  ∃ ds', cache_dataset w' = Some ds' ∧ ds' !! j = Some s.
Proof.
  intros Hc Hrun Hlt Hi Hj Hp.
  destruct (update_dataset_unattached E _ _ _ _ Hc Hrun)
    as (imgs & ds' & evs & _ & Hst & _ & ->).
  exists ds'. split; [done|].
  eapply steps_keep_shadowed; eauto 10.
Qed.

(** X17. In a dataset that has the checksum field, a second run keeps
    what the first run made of a member: the member found under a
    listed path is, after a second run on the world the first run left,
    at the same position and the same sample as after the first. *)
Theorem second_run_keeps_visited_member w w1 w2 r1 r2 ds imgs p i s :
  cache_dataset w = Some ds →
  in_schema ds "xml_md5" = true →
  media_files E w = Ok imgs →
  exporter.update_dataset E None w = (w1, Ok r1) →
  exporter.update_dataset E None w1 = (w2, Ok r2) →
  p ∈ imgs →
  exporter.dataset_find ds p = Some (i, s) →
  ∃ s1 ds1 ds2,
    cache_dataset w1 = Some ds1
    ∧ exporter.dataset_find ds1 p = Some (i, s1)
    ∧ cache_dataset w2 = Some ds2
    ∧ exporter.dataset_find ds2 p = Some (i, s1).
Proof.
  intros Hc Hhas Hm Hrun1 Hrun2 Hp Hf.
  destruct (update_dataset_unattached E _ _ _ _ Hc Hrun1)
    as (imgs' & ds1 & evs1 & Hm' & Hst1 & _ & ->).
  rewrite Hm in Hm'. injection Hm' as <-.
  assert (∃ s1, exporter.dataset_find ds1 p = Some (i, s1)
                ∧ settled E (files w) s1) as (s1 & Hf1 & Hs1).
  { destruct (sidecar_exists (files w) s) eqn:Hx.
    - destruct (steps_visit_member E _ _ _ _ _ _ _ _ Hst1 Hf Hp Hx)
        as (has & s1 & H1 & _ & H3 & H4 & _).
      rewrite (H1 Hhas) in H3. exists s1. split; [done|].
      by eapply in_sync_settled, refreshed_by_true.
    - exists s. split; [|by apply missing_settled].
      eapply steps_keep_member; [done..|]. right.
      by apply missing_settled. }
  assert (Hc1 : cache_dataset
                  (set_cache_dataset (Some ds1)
                     (add_events (evs1 ++ DatasetSave :: refresh_calls w) w))
                = Some ds1) by done.
  destruct (update_dataset_unattached E _ _ _ _ Hc1 Hrun2)
    as (imgs2 & ds2 & evs2 & _ & Hst2 & _ & ->).
  simpl in Hst2.
  exists s1, ds1, ds2. split_and!; [done..|].
  eapply steps_keep_member; [exact Hst2|exact Hf1|]. by right.
Qed.

(** What a save leaves of a member that is the saved sample as it was
    before the loop. *)
Lemma union_keeps_names s s' :
  keeps_names s s' → fields s' ∪ fields s = fields s'.
Proof.
  intros Hk. apply map_eq. intros k. rewrite lookup_union.
  destruct (fields s' !! k) as [v|] eqn:Hv; simpl.
  - by destruct (fields s !! k).
  - destruct (fields s !! k) as [u|] eqn:Hu; [|done].
    destruct (Hk k) as [? ?]; [by eexists|congruence].
Qed.

Lemma save_in_self s s' d j :
  d !! j = Some s → id s' = id s → keeps_names s s' →
  exporter.save_in s' d !! j = Some s'.
Proof.
  intros Hj Hid Hk. unfold exporter.save_in.
  rewrite list_lookup_fmap, Hj. simpl.
  rewrite bool_decide_eq_true_2 by done.
  rewrite union_keeps_names by done. rewrite <- Hid. by destruct s'.
Qed.

Lemma given_steps_in_place fs cached seen todo cached' out evs i s d j :
  given_steps E fs cached seen todo cached' out evs →
  NoDup (id <$> todo) →
  todo !! i = Some s →
  cached = Some d → d !! j = Some s →
  ∃ s' d',
    out !! (length seen + i) = Some s'
    ∧ cached' = Some d'
    ∧ d' !! j = Some s'.
Proof.
  intros Hst. revert i d.
  induction Hst as [cached seen|cached seen s0 rest s0' cached' out evs
                      Hs Hst IH]; intros i d Hnd Hi -> Hj.
  - done.
  - destruct (synced_filepath E _ _ _ _ Hs) as (_ & Hid & Hk).
    rewrite fmap_cons in Hnd. apply NoDup_cons in Hnd as [Hfresh Hnd].
    destruct i as [|i]; simpl in Hi.
    + injection Hi as ->.
      pose proof (given_steps_cache E _ _ _ _ _ _ _ Hst) as Hcache.
      simpl in Hcache. destruct cached' as [d'|]; [|done].
      destruct Hcache as [_ Hkeep].
      destruct (given_steps_out E _ _ _ _ _ _ _ Hst) as (left & -> & _).
      exists s0', d'. split_and!; [|done|].
      * rewrite Nat.add_0_r, <- app_assoc. simpl.
        by rewrite list_lookup_middle.
      * apply Hkeep; [by eapply save_in_self|]. by rewrite Hid.
    + destruct (IH i (exporter.save_in s0' d) Hnd Hi eq_refl)
        as (s' & d' & H1 & H2 & H3).
      * apply save_in_other; [done|]. rewrite Hid. intros Heq.
        apply Hfresh. rewrite <- Heq. apply list_elem_of_fmap_2.
        by eapply list_elem_of_lookup_2.
      * exists s', d'. split_and!; [|done..].
        rewrite length_app in H1. simpl in H1.
        by replace (length seen + S i) with (length seen + 1 + i) by lia.
Qed.

(** X28. Attached mode updates the cached dataset in place.  When the
    collection that is passed holds a member of the cached dataset, as
    the dataset itself and a view of it do, that member is, after the
    call, what the loop made of the sample: the cached dataset has been
    changed although it was not the dataset of the call.  (The samples
    of the collection have one id each.) *)
Theorem attached_mode_saves_in_place ds ds' w w' cached i j s :
  exporter.update_dataset E (Some ds) w = (w', Ok (Some ds')) →
  cache_dataset w = Some cached →
  NoDup (id <$> ds) →
  ds !! i = Some s →
  cached !! j = Some s →
  ∃ s' cached',
    ds' !! i = Some s'
    ∧ cache_dataset w' = Some cached'
    ∧ cached' !! j = Some s'.
Proof.
  intros Hrun Hc Hnd Hi Hj.
  destruct (update_dataset_attached E _ _ _ _ Hrun)
    as (ds0 & cached' & evs & [= <-] & Hst & ->).
  destruct (given_steps_in_place _ _ _ _ _ _ _ _ _ _ _ Hst Hnd Hi Hc Hj)
    as (s' & d' & H1 & -> & H3).
  by exists s', d'.
Qed.

(** X29. Clearing the label needs the label field: where the sidecar of
    the first sample that the loop reaches is missing and the dataset
    of the sample has no [ground_truth] field, [clear_field] raises and
    so does [update_dataset], in either mode, with the world as it
    was. *)
Theorem clearing_an_undeclared_label_raises w :
  (∀ ds p imgs i s,
     cache_dataset w = Some ds →
     media_files E w = Ok (p :: imgs) →
     exporter.dataset_find ds p = Some (i, s) →
     files w !! exporter.xml_path_of s = None →
     in_schema ds "ground_truth" = false →
     exporter.update_dataset E None w = (w, Raise ValueError))
  ∧ (∀ s rest,
       files w !! exporter.xml_path_of s = None →
       in_schema (exporter.home (cache_dataset w) (s :: rest) s)
                 "ground_truth" = false →
       exporter.update_dataset E (Some (s :: rest)) w
       = (w, Raise ValueError)).
Proof.
  split.
  - intros ds p imgs i s Hc Hm Hf Hx Hno.
    assert (Hk : kept E (files w) ds s = Raise ValueError).
    { unfold kept, synced, clear_field.
      by rewrite (sidecar_missing _ _ Hx), Hno. }
    assert (Hcalls : sync_calls E (files w) ds s = []).
    { unfold sync_calls. by rewrite (sidecar_missing _ _ Hx). }
    unfold exporter.update_dataset, media_files in *. unfold_M.
    rewrite Hc in *. destruct ds as [|first rest]; [done|]. simpl.
    rewrite Hm. simpl. unfold mbind, M_bind.
    rewrite (update_listed_member E _ _ _ _ _ Hc Hf), Hk, Hcalls.
    by rewrite add_events_nil.
  - intros s rest Hx Hno.
    unfold exporter.update_dataset. simpl.
    unfold mbind at 1, M_bind at 1. unfold mbind at 1, M_bind at 1.
    unfold mbind at 1, M_bind at 1. rewrite update_given_eq.
    unfold synced, sync_calls, clear_field.
    rewrite (sidecar_missing _ _ Hx), Hno. by rewrite add_events_nil.
Qed.

End updater_more.

(** ** The selection *)

Section selection.
Context (E : Collaborators).

(** X18. [get_select_dv] only looks: whatever the cache, the files and
    the argument, and also when the listing raises, the world after the
    call is the world before it. *)
Theorem get_select_dv_changes_nothing txt_path w :
  fst (exporter.get_select_dv E txt_path w) = w.
Proof.
  unfold exporter.get_select_dv. unfold_M.
  destruct (cache_dataset w) as [[|s d]|], (cache_session w) as [ss|];
    simpl; try done.
  destruct txt_path as [p|]; [|done].
  destruct (bool_decide (is_Some (files w !! p))); [|done].
  by destruct (get_all_file_path E (files w) p None).
Qed.

(** X19. With a path list that exists, the view holds the members whose
    path the list names, and only them, in the order of the dataset: a
    path that is listed twice selects its member once, a listed path
    that no member has selects nothing.  The list is read without a
    filter on extensions, and when reading it raises, the call raises. *)
Theorem get_select_dv_by_path_list txt_path w s dataset session :
  cache_dataset w = Some (s :: dataset) →
  cache_session w = Some session →
  is_Some (files w !! txt_path) →
  match get_all_file_path E (files w) txt_path None with
  | Ok imgs_path =>
      ∃ view,
        exporter.get_select_dv E (Some txt_path) w = (w, Ok (Some view))
        ∧ view `sublist_of` (s :: dataset)
        ∧ ∀ x, x ∈ view ↔ x ∈ s :: dataset ∧ filepath x ∈ imgs_path
  | Raise e =>
      exporter.get_select_dv E (Some txt_path) w = (w, Raise e)
  end.
Proof.
  intros Hd Hs Hex.
  unfold exporter.get_select_dv. unfold_M. rewrite Hd, Hs. simpl.
  rewrite bool_decide_eq_true_2 by done.
  destruct (get_all_file_path E (files w) txt_path None) as [imgs|e];
    [|done].
  eexists. split; [done|]. split.
  - apply sublist_filter.
  - intros x. unfold exporter.select_by_filepath.
    rewrite list_elem_of_filter. tauto.
Qed.

End selection.

(** ** The assignment of fields *)

Section fields.
Context (E : Collaborators).
Context (json_load_file
         : gmap string File → string → res (list (string * Json))).

Lemma with_fields_same s : with_fields s (fields s) = s.
Proof. by destruct s. Qed.

(** An assignment is the library's answer, then the new value. *)
Lemma setitem_eq s k v :
  exporter.setitem E s k v
  = (accepts E (k, v) ;; Ok (set_value s (k, v))).
Proof.
  unfold exporter.setitem, accepts, set_value, id_after, path_after,
    fields_after. simpl. unfold mbind, res_bind.
  destruct (validate_field E k v) as [[]|]; [|done].
  destruct (String.eqb k "filepath") eqn:Hp; simpl.
  - apply String.eqb_eq in Hp as ->. simpl.
    by destruct v as [[]| |].
  - destruct (String.eqb k "id"); [|done].
    by destruct v as [[]| |].
Qed.

(** The loop over the items: the first refusal, else every value is
    set, one after the other. *)
Lemma assign_fields_eq fields_dict s :
  exporter.assign_fields E fields_dict s
  = (accepts_all E fields_dict ;; Ok (foldl set_value s fields_dict)).
Proof.
  revert s. induction fields_dict as [|[k v] fd IH]; intros s; simpl;
    [done|].
  rewrite setitem_eq. unfold mbind, res_bind.
  destruct (accepts E (k, v)) as [[]|]; [|done]. apply IH.
Qed.

(** Steps that each overwrite or do nothing: taking them all again
    changes nothing more. *)
Lemma foldl_overwrite {A B} (step : A → B → A) (l : list B) :
  (∀ b, (∀ x y, step x b = step y b) ∨ (∀ x, step x b = x)) →
  ∀ a, foldl step (foldl step a l) l = foldl step a l.
Proof.
  intros Hstep.
  assert (H : (∀ x y, foldl step x l = foldl step y l)
              ∨ (∀ x, foldl step x l = x)).
  { induction l as [|b l IH]; [by right|]. simpl.
    destruct (Hstep b) as [Hc|Hi].
    - left. intros x y. by rewrite (Hc x y).
    - destruct IH as [IH|IH]; [left|right].
      + intros x y. apply IH.
      + intros x. by rewrite IH, Hi. }
  intros a. destruct H as [H|H]; [apply H|by rewrite !H].
Qed.

Lemma foldl_set_value s fields_dict :
  foldl set_value s fields_dict
  = {| id := foldl id_after (id s) fields_dict;
       filepath := foldl path_after (filepath s) fields_dict;
       fields := foldl fields_after (fields s) fields_dict |}.
Proof.
  revert s. induction fields_dict as [|item fd IH]; intros s; simpl.
  - by destruct s.
  - by rewrite IH.
Qed.

Lemma fields_after_lookup m fields_dict k :
  foldl fields_after m fields_dict !! k
  = foldl (λ o item,
             if String.eqb item.1 "filepath" || String.eqb item.1 "id"
             then o
             else if String.eqb item.1 k then Some item.2 else o)
          (m !! k) fields_dict.
Proof.
  revert m. induction fields_dict as [|item fd IH]; intros m; simpl;
    [done|].
  rewrite IH. f_equal. unfold fields_after.
  destruct (_ || _); [done|].
  destruct (String.eqb item.1 k) eqn:Hk.
  - apply String.eqb_eq in Hk as <-. apply lookup_insert_eq.
  - apply String.eqb_neq in Hk. by apply lookup_insert_ne.
Qed.

Lemma set_value_twice s fields_dict :
  foldl set_value (foldl set_value s fields_dict) fields_dict
  = foldl set_value s fields_dict.
Proof.
  rewrite !foldl_set_value. simpl. f_equal.
  - apply foldl_overwrite. intros item. unfold id_after.
    destruct (String.eqb item.1 "id"); [|by right].
    destruct item.2 as [[]| |]; auto.
  - apply foldl_overwrite. intros item. unfold path_after.
    destruct (String.eqb item.1 "filepath"); [|by right].
    destruct item.2 as [[]| |]; auto.
  - apply map_eq. intros k. rewrite !fields_after_lookup.
    apply foldl_overwrite. intros item.
    destruct (_ || _); [by right|].
    destruct (String.eqb item.1 k); auto.
Qed.

(** A sample that was assigned to is assigned to again without
    change; a refusal does not hang on the sample. *)
Lemma assign_fields_again fields_dict s s' :
  exporter.assign_fields E fields_dict s = Ok s' →
  exporter.assign_fields E fields_dict s' = Ok s'.
Proof.
  rewrite !assign_fields_eq. unfold mbind, res_bind.
  destruct (accepts_all E fields_dict) as [[]|]; [|done].
  intros [= <-]. by rewrite set_value_twice.
Qed.

Lemma assign_fields_refused fields_dict s t e :
  exporter.assign_fields E fields_dict s = Raise e →
  exporter.assign_fields E fields_dict t = Raise e.
Proof.
  rewrite !assign_fields_eq. unfold mbind, res_bind.
  by destruct (accepts_all E fields_dict) as [[]|].
Qed.

(** With a dict that is assignable, every item is accepted and the
    values are those of the dict. *)
Lemma accepts_all_assignable fields_dict :
  assignable E fields_dict → accepts_all E fields_dict = Ok tt.
Proof.
  intros (_ & Hattr & Hvalid).
  induction fields_dict as [|[k v] fd IH]; [done|]. simpl.
  unfold accepts. simpl. rewrite (Hvalid k v) by (by left).
  assert (String.eqb k "filepath" = false) as ->.
  { apply String.eqb_neq. intros ->.
    apply (Hattr "filepath"); [by left|]. by left. }
  assert (String.eqb k "id" = false) as ->.
  { apply String.eqb_neq. intros ->.
    apply (Hattr "id"); [right; by left|]. by left. }
  simpl. apply IH.
  - intros k' Hk' Hin. apply (Hattr k' Hk'). by right.
  - intros k' v' Hin. apply Hvalid. by right.
Qed.

Lemma foldl_set_value_assignable fields_dict s :
  NoDup fields_dict.*1 →
  (∀ k, k ∈ attribute_names → k ∉ fields_dict.*1) →
  foldl set_value s fields_dict = assigned fields_dict s.
Proof.
  revert s. induction fields_dict as [|[k v] fd IH]; intros s Hnd Hattr.
  - unfold assigned. simpl.
    by rewrite (left_id_L ∅ (∪)), with_fields_same.
  - simpl in *. apply NoDup_cons in Hnd as [Hk Hnd].
    rewrite IH; [|done|].
    2: { intros k' Hk' Hin. apply (Hattr k' Hk'). by right. }
    assert (String.eqb k "filepath" = false) as Hp.
    { apply String.eqb_neq. intros ->.
      apply (Hattr "filepath"); [by left|]. by left. }
    assert (String.eqb k "id" = false) as Hi.
    { apply String.eqb_neq. intros ->.
      apply (Hattr "id"); [right; by left|]. by left. }
    unfold assigned, set_value, id_after, path_after, fields_after,
      with_fields. simpl. rewrite Hp, Hi. simpl. f_equal.
    rewrite <- insert_union_r by (by apply not_elem_of_list_to_map_1).
    by rewrite insert_union_l.
Qed.

Lemma assign_fields_assignable fields_dict s :
  assignable E fields_dict →
  exporter.assign_fields E fields_dict s = Ok (assigned fields_dict s).
Proof.
  intros Ha. rewrite assign_fields_eq, accepts_all_assignable by done.
  simpl. f_equal. destruct Ha as (? & ? & _).
  by apply foldl_set_value_assignable.
Qed.

Lemma assigned_lookup fields_dict s k :
  NoDup fields_dict.*1 →
  (∀ v, (k, v) ∈ fields_dict → fields (assigned fields_dict s) !! k = Some v)
  ∧ (k ∉ fields_dict.*1 →
     fields (assigned fields_dict s) !! k = fields s !! k).
Proof.
  intros Hnd. unfold assigned, with_fields. simpl. split.
  - intros v Hin. apply lookup_union_Some_l.
    by apply elem_of_list_to_map_1.
  - intros Hk. rewrite lookup_union_r; [done|].
    by apply not_elem_of_list_to_map_1.
Qed.

(** The loop over the view of the cached dataset. *)
Lemma assign_selected_eq imgs fields_dict seen todo w :
  cache_dataset w = Some (seen ++ todo)%list →
  exporter.assign_selected E true imgs fields_dict (length seen) todo w
  = (set_cache_dataset
       (Some (seen
              ++ (assign_run (exporter.assign_fields E fields_dict)
                    imgs todo).1.1)%list)
       (add_events
          (ContextSave
             <$> (assign_run (exporter.assign_fields E fields_dict)
                    imgs todo).1.2) w),
     match (assign_run (exporter.assign_fields E fields_dict)
              imgs todo).2 with
     | Ok _ =>
         Ok (assign_run (exporter.assign_fields E fields_dict)
               imgs todo).1.1
     | Raise e => Raise e
     end).
Proof.
  revert seen w. induction todo as [|s rest IH]; intros seen w Hc.
  - simpl. unfold_M. by rewrite add_events_nil, set_cache_dataset_id.
  - cbn [exporter.assign_selected assign_run].
    unfold mbind at 1, M_bind at 1.
    destruct (decide (filepath s ∈ imgs)) as [Hin|Hout].
    + unfold mbind at 1, M_bind at 1, lift at 1.
      destruct (exporter.assign_fields E fields_dict s) as [s'|e] eqn:Hs.
      2: { simpl. by rewrite add_events_nil, set_cache_dataset_id. }
      unfold exporter.context_save, exporter.store, exporter.the_dataset,
        exporter.put_dataset.
      unfold_M. simpl. rewrite Hc. simpl.
      rewrite insert_app_r_alt, Nat.sub_diag by done. simpl insert.
      specialize (IH (seen ++ [s'])%list
                    (set_cache_dataset (Some (seen ++ s' :: rest)%list)
                       (add_event (ContextSave s') w))).
      rewrite length_app, Nat.add_1_r in IH.
      rewrite IH by (simpl; by rewrite <- app_assoc).
      destruct (assign_run _ imgs rest) as [[rest' saved] r]. simpl.
      unfold set_cache_dataset, add_events, add_event. simpl.
      rewrite <- !app_assoc. simpl. by destruct r.
    + unfold mret at 1, M_ret at 1.
      unfold mbind at 1, M_bind at 1.
      specialize (IH (seen ++ [s])%list w).
      rewrite length_app, Nat.add_1_r in IH.
      rewrite IH by (by rewrite <- app_assoc).
      destruct (assign_run _ imgs rest) as [[rest' saved] r]. simpl.
      rewrite <- app_assoc. simpl. by destruct r.
Qed.

(** The call on the cached dataset, when the path list can be read. *)
Lemma add_fields_cached_eq txt_path fields_dict w ds imgs :
  cache_dataset w = Some ds →
  get_all_file_path E (files w) txt_path (Some exporter.image_filter)
  = Ok imgs →
  exporter.add_dataset_fields_by_txt E json_load_file txt_path
    (inr fields_dict) None w
  = (set_cache_dataset
       (Some (assign_run (exporter.assign_fields E fields_dict)
                imgs ds).1.1)
       (add_events
          ((ContextSave
              <$> (assign_run (exporter.assign_fields E fields_dict)
                     imgs ds).1.2)
           ++ match (assign_run (exporter.assign_fields E fields_dict)
                       imgs ds).2 with
              | Ok _ => refresh_calls w
              | Raise _ => []
              end) w),
     match (assign_run (exporter.assign_fields E fields_dict) imgs ds).2 with
     | Ok _ => Ok None
     | Raise e => Raise e
     end).
Proof.
  intros Hc Hl. unfold exporter.add_dataset_fields_by_txt.
  unfold mbind at 1, M_bind at 1, WEAK_CACHE_get_dataset at 1.
  rewrite Hc.
  unfold mbind at 1, M_bind at 1, get_files at 1.
  unfold mbind at 1, M_bind at 1, lift at 1. rewrite Hl.
  unfold mbind at 1, M_bind at 1, mret at 1, M_ret at 1.
  unfold mbind at 1, M_bind at 1.
  pose proof (assign_selected_eq imgs fields_dict [] ds w Hc) as Hsel.
  simpl in Hsel. rewrite Hsel. clear Hsel.
  destruct (assign_run _ imgs ds) as [[ds' saved] r]. simpl.
  destruct r as [[]|e]; simpl.
  - unfold refresh_calls. unfold_M. simpl.
    destruct (cache_session w); simpl;
      unfold add_event, add_events, set_cache_dataset; simpl;
      by rewrite <- ?app_assoc, ?app_nil_r.
  - by rewrite app_nil_r.
Qed.

(** The loop on a dict that is assignable. *)
Lemma assign_run_assignable imgs fields_dict ds :
  assignable E fields_dict →
  assign_run (exporter.assign_fields E fields_dict) imgs ds
  = ((λ s, if decide (filepath s ∈ imgs)
           then assigned fields_dict s else s) <$> ds,
     assigned fields_dict <$> exporter.select_by_filepath ds imgs,
     Ok tt).
Proof.
  intros Ha. unfold exporter.select_by_filepath.
  induction ds as [|s ds IH]; [done|]. simpl.
  destruct (decide (filepath s ∈ imgs)) as [Hin|Hout].
  - rewrite assign_fields_assignable, IH by done.
    by rewrite filter_cons_True.
  - rewrite IH. by rewrite filter_cons_False.
Qed.

(** X20. Fields are assigned to the listed members and to no other
    sample.  With a cached dataset, a path list that can be read and a
    dict that the library accepts and that names fields only, each
    once, the call returns; the files are as before; the dataset has
    the samples it had, at the same positions, with the same ids and
    paths.  A member whose path is not listed is as before.  A member
    whose path is listed has every key of the dict at the value of the
    dict, and its other fields as before. *)
Theorem listed_members_get_the_fields txt_path fields_dict w ds imgs :
  cache_dataset w = Some ds →
  get_all_file_path E (files w) txt_path (Some exporter.image_filter)
  = Ok imgs →
  assignable E fields_dict →
  ∃ w' ds',
    exporter.add_dataset_fields_by_txt E json_load_file txt_path
      (inr fields_dict) None w = (w', Ok None)
    ∧ files w' = files w
    ∧ cache_dataset w' = Some ds'
    ∧ length ds' = length ds
    ∧ ∀ i s, ds !! i = Some s →
        ∃ s',
          ds' !! i = Some s'
          ∧ id s' = id s ∧ filepath s' = filepath s
          ∧ (filepath s ∉ imgs → s' = s)
          ∧ (filepath s ∈ imgs →
             (∀ k v, (k, v) ∈ fields_dict → fields s' !! k = Some v)
             ∧ ∀ k, k ∉ fields_dict.*1 → fields s' !! k = fields s !! k).
Proof.
  intros Hc Hl Ha. eexists _, _.
  rewrite (add_fields_cached_eq _ _ _ _ _ Hc Hl).
  rewrite assign_run_assignable by done. simpl.
  split; [done|]. split; [done|]. split; [done|].
  split; [by rewrite length_fmap|].
  intros i s Hi. eexists. split; [by rewrite list_lookup_fmap, Hi|].
  destruct (decide (filepath s ∈ imgs)) as [Hin|Hout].
  - split_and!; [done|done|done|]. intros _.
    destruct Ha as (Hnd & _). split.
    + intros k v. by apply assigned_lookup.
    + intros k. by apply assigned_lookup.
  - by split_and!.
Qed.

(** X21. With such a dict the call saves each selected member once,
    after its fields were assigned, in the order of the dataset, and
    then refreshes the session if there is one.  It makes no other
    call: a listed path that no member has is passed over, nothing is
    added, the dataset itself is not saved. *)
Theorem listed_members_are_saved_once txt_path fields_dict w ds imgs :
  cache_dataset w = Some ds →
  get_all_file_path E (files w) txt_path (Some exporter.image_filter)
  = Ok imgs →
  assignable E fields_dict →
  ∃ evs,
    trace (fst (exporter.add_dataset_fields_by_txt E json_load_file
                  txt_path (inr fields_dict) None w))
    = (trace w ++ evs ++ refresh_calls w)%list
    ∧ evs = ContextSave <$> saved evs
    ∧ saved evs
      = assigned fields_dict <$> filter (λ s, filepath s ∈ imgs) ds.
Proof.
  intros Hc Hl Ha. rewrite (add_fields_cached_eq _ _ _ _ _ Hc Hl).
  rewrite assign_run_assignable by done. simpl.
  exists (ContextSave <$>
            (assigned fields_dict <$> exporter.select_by_filepath ds imgs)).
  split; [done|].
  assert (Hsaved : ∀ l : list Sample, saved (ContextSave <$> l) = l).
  { induction l as [|x l IH]; [done|].
    rewrite fmap_cons. change (saved (ContextSave x :: (ContextSave <$> l)))
      with (x :: saved (ContextSave <$> l)). by rewrite IH. }
  by rewrite Hsaved.
Qed.


(** X22. The path list is read first, the JSON file of the fields
    second, and the samples are touched last: when the listing raises,
    or when the listing returns and loading the fields raises, the call
    raises that exception and the world is as before; no sample has a
    field assigned, none is saved, the session is not refreshed. *)
Theorem failed_reading_assigns_nothing txt_path fields_dict dataset w e :
  (dataset = None → cache_dataset w ≠ None) →
  get_all_file_path E (files w) txt_path (Some exporter.image_filter)
  = Raise e
  ∨ (∃ imgs json_path,
       get_all_file_path E (files w) txt_path (Some exporter.image_filter)
       = Ok imgs
       ∧ fields_dict = inl json_path
       ∧ json_load_file (files w) json_path = Raise e) →
  exporter.add_dataset_fields_by_txt E json_load_file txt_path
    fields_dict dataset w
  = (w, Raise e).
Proof.
  intros Hd Hfail. unfold exporter.add_dataset_fields_by_txt. unfold_M.
  destruct dataset as [ds|].
  - destruct Hfail as [->|(imgs & p & -> & -> & Hload)]; [done|].
    simpl. by rewrite Hload.
  - destruct (cache_dataset w) as [ds|]; [|by destruct Hd].
    destruct Hfail as [->|(imgs & p & -> & -> & Hload)]; [done|].
    simpl. by rewrite Hload.
Qed.

(** The loop, run again on the dataset it left, leaves it as it is. *)
Lemma assign_run_again imgs fields_dict ds :
  (assign_run (exporter.assign_fields E fields_dict) imgs
     (assign_run (exporter.assign_fields E fields_dict) imgs ds).1.1).1.1
  = (assign_run (exporter.assign_fields E fields_dict) imgs ds).1.1.
Proof.
  induction ds as [|s ds IH]; [done|]. simpl.
  destruct (decide (filepath s ∈ imgs)) as [Hin|Hout].
  - destruct (exporter.assign_fields E fields_dict s) as [s'|e] eqn:Hs.
    + destruct (assign_run _ imgs ds) as [[ds' saved] r] eqn:Hrun.
      simpl in *.
      destruct (decide (filepath s' ∈ imgs)).
      * rewrite (assign_fields_again _ _ _ Hs).
        destruct (assign_run _ imgs ds') as [[ds'' saved'] r'].
        simpl in *. by rewrite IH.
      * destruct (assign_run _ imgs ds') as [[ds'' saved'] r'].
        simpl in *. by rewrite IH.
    + simpl. rewrite decide_True by done. by rewrite Hs.
  - destruct (assign_run _ imgs ds) as [[ds' saved] r] eqn:Hrun.
    simpl in *. rewrite decide_False by done.
    destruct (assign_run _ imgs ds') as [[ds'' saved'] r'].
    simpl in *. by rewrite IH.
Qed.

(** X23. Assigning the same fields again changes nothing more: a second
    call with the same arguments, on the world the first call left,
    leaves the same dataset. *)
Theorem field_assignment_is_idempotent txt_path fields_dict w ds imgs :
  cache_dataset w = Some ds →
  get_all_file_path E (files w) txt_path (Some exporter.image_filter)
  = Ok imgs →
  cache_dataset
    (fst (exporter.add_dataset_fields_by_txt E json_load_file txt_path
            (inr fields_dict) None
            (fst (exporter.add_dataset_fields_by_txt E json_load_file
                    txt_path (inr fields_dict) None w))))
  = cache_dataset
      (fst (exporter.add_dataset_fields_by_txt E json_load_file txt_path
              (inr fields_dict) None w))
  ∧ cache_dataset
      (fst (exporter.add_dataset_fields_by_txt E json_load_file txt_path
              (inr fields_dict) None w))
    ≠ None.
Proof.
  intros Hc Hl.
  rewrite (add_fields_cached_eq _ _ _ _ _ Hc Hl).
  cbn [fst].
  erewrite add_fields_cached_eq; [|reflexivity|exact Hl].
  cbn [fst cache_dataset set_cache_dataset]. split; [|done]. f_equal.
  apply assign_run_again.
Qed.

End fields.

(** ** The dispatch of [export.py] *)

Section export_copy.
Context (session_dataset : Session → list Sample).

Lemma export_copy_one_eq sample save_dir w :
  export._export_one_sample_anno sample save_dir w
  = (set_files (task_files save_dir (files w) sample) w,
     task_path save_dir (files w) sample).
Proof.
  unfold export._export_one_sample_anno, task_files, task_path, task_result.
  change (export.build_result sample) with (exporter.build_result sample).
  change (export.anno_path sample save_dir)
    with (exporter.anno_path sample save_dir).
  unfold_M.
  destruct (exporter.build_result sample) as [result|e]; simpl.
  - rewrite write_json_eq. unfold mbind, res_bind.
    destruct (can_open _ _) as [[]|e]; [|by rewrite set_files_id].
    by destruct (json_dump result).
  - by rewrite set_files_id.
Qed.

(** The results of the tasks of this copy: those of the other copy,
    with the path where a task returned. *)
Lemma submit_all_copy save_dir ds w :
  submit_all (λ sample, export._export_one_sample_anno sample save_dir)
             ds w
  = (set_files (tasks_files save_dir (files w) ds) w,
     Ok (zip_with (λ r s, r ;; Ok (exporter.anno_path s save_dir))
                  (tasks_results save_dir (files w) ds) ds)).
Proof.
  revert w. induction ds as [|s ds IH]; intros w; simpl.
  - unfold_M. by rewrite set_files_id.
  - unfold mbind at 1, M_bind at 1. unfold submit at 1.
    rewrite export_copy_one_eq.
    unfold mbind at 1, M_bind at 1. rewrite IH. unfold_M. simpl.
    reflexivity.
Qed.

Lemma collect_copy_eq (tasks : list (res string)) w :
  export.collect tasks w = (w, first_error tasks).
Proof.
  unfold export.collect. induction tasks as [|[p|e] tasks IH]; simpl.
  - done.
  - unfold mbind at 1, M_bind at 1. unfold_M. simpl. exact IH.
  - by unfold_M.
Qed.

Lemma first_error_copy save_dir (tasks : list (res unit)) ds :
  length tasks = length ds →
  first_error (zip_with (λ r s, r ;; Ok (exporter.anno_path s save_dir))
                        tasks ds)
  = first_error tasks.
Proof.
  revert ds. induction tasks as [|[[]|e] tasks IH]; intros [|s ds] Hlen;
    simpl in *; try done.
  apply IH. lia.
Qed.

Lemma tasks_results_length save_dir fs ds :
  length (tasks_results save_dir fs ds) = length ds.
Proof.
  revert fs. induction ds as [|s ds IH]; intros fs; simpl; [done|].
  by rewrite IH.
Qed.

Lemma export_copy_eq save_dir ds w :
  export.export_anno_file session_dataset save_dir (Some ds) w
  = match dir_found (files w) save_dir with
    | Ok _ =>
        (set_files (tasks_files save_dir (with_dir save_dir (files w)) ds) w,
         _ ← first_error (tasks_results save_dir
                            (with_dir save_dir (files w)) ds);
         Ok ["anno ????????????"])
    | Raise e => (w, Raise e)
    end.
Proof.
  unfold export.export_anno_file, dir_found, with_dir.
  unfold mbind at 1, M_bind at 1. unfold os_path_exists at 1.
  destruct (bool_decide (is_Some (files w !! save_dir))); simpl.
  - unfold mbind at 1, M_bind at 1. unfold mret at 1, M_ret at 1.
    unfold mbind at 1, M_bind at 1. rewrite submit_all_copy.
    unfold mbind at 1, M_bind at 1.
    rewrite collect_copy_eq, first_error_copy
      by apply tasks_results_length.
    by destruct (first_error _).
  - unfold mbind at 1, M_bind at 1. rewrite os_mkdir_eq.
    destruct (can_mkdir (files w) save_dir) as [[]|e]; [|done].
    unfold mbind at 1, M_bind at 1. rewrite submit_all_copy.
    unfold mbind at 1, M_bind at 1.
    rewrite collect_copy_eq, first_error_copy
      by apply tasks_results_length.
    by destruct (first_error _).
Qed.

(** X24. Given a dataset, the two copies of [export_anno_file] leave
    the same world behind, and one raises when the other does, with the
    same exception.  They differ in the line that the copy of
    [export.py] prints when it returns. *)
Theorem dispatch_copies_agree save_dir ds w :
  fst (export.export_anno_file session_dataset save_dir (Some ds) w)
  = fst (exporter.export_anno_file save_dir (Some ds) w)
  ∧ match snd (exporter.export_anno_file save_dir (Some ds) w),
          snd (export.export_anno_file session_dataset save_dir
                 (Some ds) w) with
    | Ok tt, Ok printed => printed = ["anno ????????????"]
    | Raise e1, Raise e2 => e1 = e2
    | _, _ => False
    end.
Proof.
  rewrite export_copy_eq, export_anno_file_eq.
  destruct (dir_found (files w) save_dir) as [[]|e]; [|done].
  split; [done|]. simpl. by destruct (first_error _) as [[]|e].
Qed.

(** X25. The two copies look for their dataset in different places.
    With a dataset in the cache and no session, the copy of [export.py]
    warns and writes nothing, where the copy of [exporter.py] exports
    the cached dataset.  With a session, the copy of [export.py] exports
    what the session shows, whatever the cache holds as dataset. *)
Theorem export_copy_asks_the_session save_dir w ds :
  cache_dataset w = Some ds →
  match cache_session w with
  | None =>
      export.export_anno_file session_dataset save_dir None w
      = (add_event (Warning "no dataset in cache,no thing export") w, Ok [])
  | Some s =>
      fst (export.export_anno_file session_dataset save_dir None w)
      = fst (exporter.export_anno_file save_dir (Some (session_dataset s)) w)
  end
  ∧ exporter.export_anno_file save_dir None w
    = exporter.export_anno_file save_dir (Some ds) w.
Proof.
  intros Hc. split.
  - destruct (cache_session w) as [s|] eqn:Hs.
    + rewrite export_anno_file_eq.
      unfold export.export_anno_file at 1.
      unfold mbind at 1, M_bind at 1, WEAK_CACHE_get_session at 1.
      rewrite Hs.
      pose proof (export_copy_eq save_dir (session_dataset s) w) as Heq.
      unfold export.export_anno_file in Heq. rewrite Heq.
      by destruct (dir_found (files w) save_dir) as [[]|e].
    + unfold export.export_anno_file. unfold_M. by rewrite Hs.
  - unfold exporter.export_anno_file.
    unfold mbind at 1, M_bind at 1, WEAK_CACHE_get_dataset at 1.
    by rewrite Hc.
Qed.

End export_copy.

(** ** The further properties on the sample worlds *)

Lemma serializer_needs_metadata_witness :
  (∀ m, fields demo.bare !! "metadata" ≠ Some (Metadata m))
  ∧ fields demo.bare !! "metadata" = None
  ∧ exporter._export_one_sample_anno demo.bare "/data" demo.w
    = (demo.w, Raise AttributeError).
Proof.
  assert (H : ∀ m, fields demo.bare !! "metadata" ≠ Some (Metadata m))
    by (intros m; vm_compute; discriminate).
  split; [exact H|]. split; [vm_compute; reflexivity|].
  exact (serializer_needs_metadata demo.bare "/data" demo.w H).
Defined.

Lemma written_document_shape_witness :
  exporter._export_one_sample_anno demo.a "/data" demo.w
  = (demo.after_anno, Ok tt)
  ∧ ∃ doc,
      files demo.after_anno !! "/data/a.anno" = Some (JsonDoc doc)
      ∧ doc !! "img_shape" = Some (JArr [JInt 10; JInt 20; JInt 3])
      ∧ doc !! "chiebot_sample_tags" = Some (JArr [])
      ∧ ∀ k, is_Some (doc !! k) → k ∈ anno_keys.
Proof.
  assert (H : exporter._export_one_sample_anno demo.a "/data" demo.w
              = (demo.after_anno, Ok tt)) by (vm_compute; reflexivity).
  split; [exact H|].
  destruct (written_document_shape demo.a "/data" demo.w demo.after_anno H)
    as (doc & m & tags & Hdoc & Hm & Hshape & Htags & Hct & _ & Hkeys).
  vm_compute in Hm. injection Hm as <-.
  vm_compute in Htags. injection Htags as <-.
  exists doc. split; [exact Hdoc|]. split; [exact Hshape|].
  split; [exact Hct|exact Hkeys].
Defined.

Lemma no_label_no_objects_witness :
  truthy (get_sample_field demo.unlabelled "ground_truth" PyNone) = false
  ∧ ∃ w' doc,
      exporter._export_one_sample_anno demo.unlabelled "/data" demo.w
      = (w', Ok tt)
      ∧ files w' !! "/data/f.anno" = Some (JsonDoc doc)
      ∧ doc !! "objs_info" = Some (JArr []).
Proof.
  assert (Ht : truthy (get_sample_field demo.unlabelled "ground_truth" PyNone)
               = false) by (vm_compute; reflexivity).
  split; [exact Ht|].
  assert (Hrun : exporter._export_one_sample_anno demo.unlabelled "/data" demo.w
                 = (fst (exporter._export_one_sample_anno demo.unlabelled
                           "/data" demo.w), Ok tt))
    by (vm_compute; reflexivity).
  destruct (no_label_no_objects demo.unlabelled "/data" demo.w _ Ht Hrun)
    as (doc & H1 & H2).
  eexists _, doc. split; [exact Hrun|]. split; [exact H1|exact H2].
Defined.

Lemma short_box_raises_witness :
  fields demo.short_box !! "ground_truth"
  = Some (Detections [mkDetection "cat" [0.25; 0.5; 0.125]%float None ∅])
  ∧ fields demo.short_box !! "metadata" = Some (Metadata demo.meta)
  ∧ exporter._export_one_sample_anno demo.short_box "/data" demo.w
    = (demo.w, Raise IndexError).
Proof.
  assert (Hg : fields demo.short_box !! "ground_truth"
               = Some (Detections
                         [mkDetection "cat" [0.25; 0.5; 0.125]%float None ∅]))
    by (vm_compute; reflexivity).
  assert (Hm : fields demo.short_box !! "metadata"
               = Some (Metadata demo.meta)) by (vm_compute; reflexivity).
  split; [exact Hg|]. split; [exact Hm|].
  apply (short_box_raises demo.short_box _ demo.meta "/data" demo.w Hg Hm).
  apply Exists_cons_hd. simpl. lia.
Defined.

Lemma same_stem_overwrites_witness :
  path.splitext_root (path.basename (filepath demo.a))
  = path.splitext_root (path.basename (filepath demo.a_png))
  ∧ ∃ w2 doc2,
      exporter._export_one_sample_anno demo.a_png "/data" demo.after_anno
      = (w2, Ok tt)
      ∧ exporter.anno_path demo.a "/data"
        = exporter.anno_path demo.a_png "/data"
      ∧ anno_doc demo.a_png = Ok doc2
      ∧ files w2 !! exporter.anno_path demo.a "/data" = Some (JsonDoc doc2).
Proof.
  assert (Hstem : path.splitext_root (path.basename (filepath demo.a))
                  = path.splitext_root (path.basename (filepath demo.a_png)))
    by (vm_compute; reflexivity).
  split; [exact Hstem|].
  assert (H1 : exporter._export_one_sample_anno demo.a "/data" demo.w
               = (demo.after_anno, Ok tt)) by (vm_compute; reflexivity).
  assert (H2 : exporter._export_one_sample_anno demo.a_png "/data"
                 demo.after_anno
               = (fst (exporter._export_one_sample_anno demo.a_png "/data"
                         demo.after_anno), Ok tt))
    by (vm_compute; reflexivity).
  destruct (same_stem_overwrites demo.a demo.a_png "/data" demo.w
              demo.after_anno _ Hstem H1 H2) as (Hp & doc2 & Hd & Hf).
  eexists _, doc2. split; [exact H2|]. split; [exact Hp|].
  split; [exact Hd|exact Hf].
Defined.

Ltac takes_files_here :=
  split;
  [right; split; vm_compute; reflexivity
  |let s := fresh "s" in
   let Hs := fresh "Hs" in
   let H := fresh "H" in
   intros s Hs;
   repeat (apply elem_of_cons in Hs as [->|Hs]);
   [..|by apply elem_of_nil in Hs];
   (split; [vm_compute; reflexivity
           |intros H; vm_compute in H; discriminate H])].

Lemma export_anno_file_writes_every_sample_witness :
  takes_files (files demo.w_no_session) "/out" [demo.a; demo.unlabelled]
  ∧ Forall (λ s, ∃ doc, anno_doc s = Ok doc) [demo.a; demo.unlabelled]
  ∧ NoDup ((λ s, exporter.anno_path s "/out") <$> [demo.a; demo.unlabelled])
  ∧ files demo.w_no_session !! "/out" = None
  ∧ ∃ w',
      exporter.export_anno_file "/out" (Some [demo.a; demo.unlabelled])
        demo.w_no_session
      = (w', Ok tt)
      ∧ is_Some (files w' !! "/out")
      ∧ ∀ s doc, s ∈ [demo.a; demo.unlabelled] → anno_doc s = Ok doc →
          files w' !! exporter.anno_path s "/out" = Some (JsonDoc doc).
Proof.
  assert (Htakes : takes_files (files demo.w_no_session) "/out"
                     [demo.a; demo.unlabelled]).
    by takes_files_here.
  assert (Hall : Forall (λ s, ∃ doc, anno_doc s = Ok doc)
                   [demo.a; demo.unlabelled]).
  { apply Forall_cons_2; [|apply Forall_cons_2; [|apply Forall_nil_2]].
    - destruct (anno_doc demo.a) as [doc|e] eqn:H; [by exists doc|].
      vm_compute in H. discriminate H.
    - destruct (anno_doc demo.unlabelled) as [doc|e] eqn:H; [by exists doc|].
      vm_compute in H. discriminate H. }
  assert (Hnd : NoDup ((λ s, exporter.anno_path s "/out")
                         <$> [demo.a; demo.unlabelled])).
  { rewrite !fmap_cons. apply NoDup_cons. split; [|apply NoDup_singleton].
    intros Hin%list_elem_of_singleton. vm_compute in Hin. discriminate Hin. }
  split; [exact Htakes|]. split; [exact Hall|]. split; [exact Hnd|].
  split; [vm_compute; reflexivity|].
  destruct (export_anno_file_writes_every_sample "/out"
              [demo.a; demo.unlabelled] demo.w_no_session Htakes Hall Hnd)
    as (w' & Hrun & Hdir & _ & _ & _ & Hfiles).
  exists w'. split; [exact Hrun|]. split; [exact Hdir|exact Hfiles].
Defined.

Lemma export_anno_file_failure_is_not_contagious_witness :
  takes_files (files demo.w) "/out" [demo.bare; demo.a]
  ∧ NoDup ((λ s, exporter.anno_path s "/out") <$> [demo.bare; demo.a])
  ∧ snd (exporter.export_anno_file "/out" (Some [demo.bare; demo.a]) demo.w)
    ≠ Ok tt
  ∧ ∃ doc,
      anno_doc demo.a = Ok doc
      ∧ files (fst (exporter.export_anno_file "/out"
                      (Some [demo.bare; demo.a]) demo.w))
          !! exporter.anno_path demo.a "/out"
        = Some (JsonDoc doc).
Proof.
  assert (Htakes : takes_files (files demo.w) "/out" [demo.bare; demo.a]).
    by takes_files_here.
  assert (Hnd : NoDup ((λ s, exporter.anno_path s "/out")
                         <$> [demo.bare; demo.a])).
  { rewrite !fmap_cons. apply NoDup_cons. split; [|apply NoDup_singleton].
    intros Hin%list_elem_of_singleton. vm_compute in Hin. discriminate Hin. }
  split; [exact Htakes|]. split; [exact Hnd|].
  destruct (export_anno_file_failure_is_not_contagious "/out"
              [demo.bare; demo.a] demo.w Htakes Hnd) as [Hiff Hfiles].
  split.
  - intros Hok. apply Hiff in Hok.
    apply Forall_cons in Hok as [[doc Hdoc] _].
    vm_compute in Hdoc. discriminate Hdoc.
  - destruct (anno_doc demo.a) as [doc|e] eqn:H.
    + exists doc. split; [reflexivity|].
      apply Hfiles; [|exact H]. apply list_elem_of_further, list_elem_of_here.
    + vm_compute in H. discriminate H.
Defined.


Lemma exporter_is_always_left_witness :
  dir_found (files demo.w) "/out" = Ok tt
  ∧ SGCCGameDatasetExporter demo.E_marking "/out" (delete "export_dir" ∅)
    = Ok demo.marking_exporter
  ∧ exporter_enter demo.marking_exporter (with_dir "/out" (files demo.w))
    = Ok (with_dir "/out" (files demo.w))
  ∧ ∃ fs2,
      files (fst (exporter.export_sample demo.E_marking "/out"
                    (Some [demo.unlabelled; demo.a]) false ∅ demo.w))
      = exporter_exit demo.marking_exporter fs2.
Proof.
  assert (Hd : dir_found (files demo.w) "/out" = Ok tt)
    by (vm_compute; reflexivity).
  split; [exact Hd|]. split; [reflexivity|]. split; [reflexivity|].
  apply (exporter_is_always_left demo.E_marking "/out"
           [demo.unlabelled; demo.a] false ∅ demo.w demo.marking_exporter
           (with_dir "/out" (files demo.w)) Hd);
    reflexivity.
Defined.


Lemma failed_update_skips_save_and_refresh_witness :
  ∃ w',
    exporter.update_dataset demo.E None demo.w_bad
    = (w', Raise (CollaboratorError "md5sum"))
    ∧ ∃ evs,
        trace w' = (trace demo.w_bad ++ evs)%list
        ∧ (DatasetSave ∉ evs) ∧ (SessionRefresh ∉ evs).
Proof.
  assert (H : exporter.update_dataset demo.E None demo.w_bad
              = (fst (exporter.update_dataset demo.E None demo.w_bad),
                 Raise (CollaboratorError "md5sum")))
    by (vm_compute; reflexivity).
  eexists. split; [exact H|].
  exact (failed_update_skips_save_and_refresh demo.E None demo.w_bad _ _ H).
Defined.

Lemma empty_cached_dataset_raises_witness :
  cache_dataset demo.w_empty = Some []
  ∧ exporter.update_dataset demo.E None demo.w_empty
    = (demo.w_empty, Raise ValueError).
Proof.
  split; [reflexivity|].
  apply (empty_cached_dataset_raises demo.E demo.w_empty). reflexivity.
Defined.

Lemma update_never_removes_witness :
  cache_dataset demo.w = Some [demo.a; demo.b]
  ∧ exporter.update_dataset demo.E None demo.w = (demo.after, Ok None)
  ∧ ∃ ds' evs,
      cache_dataset demo.after = Some ds'
      ∧ trace demo.after = (trace demo.w ++ evs)%list
      ∧ paths ds' = (paths [demo.a; demo.b] ++ paths (added evs))%list.
Proof.
  assert (Hrun : exporter.update_dataset demo.E None demo.w
                 = (demo.after, Ok None)) by (vm_compute; reflexivity).
  split; [reflexivity|]. split; [exact Hrun|].
  apply (update_never_removes demo.E demo.w demo.after None
           [demo.a; demo.b]); [reflexivity|exact Hrun].
Defined.

Lemma shadowed_duplicate_is_never_updated_witness :
  cache_dataset demo.w_twice = Some [demo.a; demo.a]
  ∧ ∃ w' ds',
      exporter.update_dataset demo.E None demo.w_twice = (w', Ok None)
      ∧ cache_dataset w' = Some ds'
      ∧ ds' !! 1 = Some demo.a.
Proof.
  split; [reflexivity|].
  assert (Hrun : exporter.update_dataset demo.E None demo.w_twice
                 = (fst (exporter.update_dataset demo.E None demo.w_twice),
                    Ok None)) by (vm_compute; reflexivity).
  destruct (shadowed_duplicate_is_never_updated demo.E demo.w_twice
              (fst (exporter.update_dataset demo.E None demo.w_twice)) None
              [demo.a; demo.a] 0 1 demo.a demo.a)
    as (ds' & Hc & Hj); [reflexivity|exact Hrun|lia|reflexivity..|].
  eexists _, ds'. split; [exact Hrun|]. split; [exact Hc|exact Hj].
Defined.

Lemma second_run_keeps_visited_member_witness :
  in_schema [demo.a; demo.b] "xml_md5" = true
  ∧ media_files demo.E demo.w
    = Ok ["/data/a.jpg"; "/data/b.jpg"; "/data/c.jpg"]
  ∧ exporter.update_dataset demo.E None demo.w = (demo.after, Ok None)
  ∧ exporter.update_dataset demo.E None demo.after
    = (demo.after_again, Ok None)
  ∧ exporter.dataset_find [demo.a; demo.b] "/data/a.jpg" = Some (0, demo.a)
  ∧ ∃ s1 ds1 ds2,
      cache_dataset demo.after = Some ds1
      ∧ exporter.dataset_find ds1 "/data/a.jpg" = Some (0, s1)
      ∧ cache_dataset demo.after_again = Some ds2
      ∧ exporter.dataset_find ds2 "/data/a.jpg" = Some (0, s1).
Proof.
  assert (Hm : media_files demo.E demo.w
               = Ok ["/data/a.jpg"; "/data/b.jpg"; "/data/c.jpg"])
    by (vm_compute; reflexivity).
  assert (H1 : exporter.update_dataset demo.E None demo.w
               = (demo.after, Ok None)) by (vm_compute; reflexivity).
  assert (H2 : exporter.update_dataset demo.E None demo.after
               = (demo.after_again, Ok None)) by (vm_compute; reflexivity).
  assert (Hf : exporter.dataset_find [demo.a; demo.b] "/data/a.jpg"
               = Some (0, demo.a)) by (vm_compute; reflexivity).
  assert (Hs : in_schema [demo.a; demo.b] "xml_md5" = true)
    by (vm_compute; reflexivity).
  split; [exact Hs|].
  split; [exact Hm|]. split; [exact H1|]. split; [exact H2|].
  split; [exact Hf|].
  apply (second_run_keeps_visited_member demo.E demo.w demo.after
           demo.after_again None None [demo.a; demo.b]
           ["/data/a.jpg"; "/data/b.jpg"; "/data/c.jpg"] "/data/a.jpg"
           0 demo.a);
    [reflexivity|exact Hs|exact Hm|exact H1|exact H2| |exact Hf].
  apply list_elem_of_here.
Defined.

Lemma get_select_dv_by_path_list_witness :
  cache_dataset demo.w = Some [demo.a; demo.b]
  ∧ cache_session demo.w = Some demo.session
  ∧ is_Some (files demo.w !! "/data")
  ∧ ∃ view,
      exporter.get_select_dv demo.E (Some "/data") demo.w
      = (demo.w, Ok (Some view))
      ∧ view `sublist_of` [demo.a; demo.b]
      ∧ ∀ x, x ∈ view
             ↔ x ∈ [demo.a; demo.b]
               ∧ filepath x ∈ ["/data/a.jpg"; "/data/b.jpg"; "/data/c.jpg"].
Proof.
  assert (Hex : is_Some (files demo.w !! "/data"))
    by (exists Dir; vm_compute; reflexivity).
  split; [reflexivity|]. split; [reflexivity|]. split; [exact Hex|].
  pose proof (get_select_dv_by_path_list demo.E "/data" demo.w demo.a
                [demo.b] demo.session eq_refl eq_refl Hex) as H.
  assert (Hl : get_all_file_path demo.E (files demo.w) "/data" None
               = Ok ["/data/a.jpg"; "/data/b.jpg"; "/data/c.jpg"])
    by (vm_compute; reflexivity).
  rewrite Hl in H. exact H.
Defined.

Lemma review_is_assignable : assignable demo.E demo.review.
Proof.
  split_and!.
  - simpl. apply NoDup_cons. split; [|apply NoDup_singleton].
    intros Hin%list_elem_of_singleton. discriminate Hin.
  - intros k Hk Hin. simpl in Hin. unfold attribute_names in Hk.
    repeat (apply elem_of_cons in Hk as [->|Hk]);
      [..|by apply elem_of_nil in Hk];
      repeat (apply elem_of_cons in Hin as [Hin|Hin]; [discriminate Hin|]);
      by apply elem_of_nil in Hin.
  - intros k v Hin. unfold demo.review in Hin.
    repeat (apply elem_of_cons in Hin as [[= -> ->]|Hin]; [reflexivity|]).
    by apply elem_of_nil in Hin.
Qed.

Lemma listed_members_get_the_fields_witness :
  get_all_file_path demo.E demo.fs_bad "/list.txt"
    (Some exporter.image_filter)
  = Ok ["/data/a.jpg"]
  ∧ assignable demo.E demo.review
  ∧ ∃ w' a' b',
      exporter.add_dataset_fields_by_txt demo.E demo.load "/list.txt"
        (inr demo.review) None
        (mkWorld demo.fs_bad (Some [demo.a; demo.b]) (Some demo.session) [])
      = (w', Ok None)
      ∧ cache_dataset w' = Some [a'; b']
      ∧ fields a' !! "checked" = Some (Plain (JBool true))
      ∧ fields a' !! "data_source" = Some (Plain (JStr "review"))
      ∧ fields a' !! "xml_md5" = Some (Plain (JStr "old"))
      ∧ b' = demo.b.
Proof.
  assert (Hl : get_all_file_path demo.E demo.fs_bad "/list.txt"
                 (Some exporter.image_filter)
               = Ok ["/data/a.jpg"]) by (vm_compute; reflexivity).
  split; [exact Hl|]. split; [exact review_is_assignable|].
  destruct (listed_members_get_the_fields demo.E demo.load "/list.txt"
              demo.review
              (mkWorld demo.fs_bad (Some [demo.a; demo.b])
                 (Some demo.session) [])
              [demo.a; demo.b] ["/data/a.jpg"] eq_refl Hl
              review_is_assignable)
    as (w' & ds' & Hrun & _ & Hc & Hlen & Hall).
  destruct (Hall 0 demo.a eq_refl) as (a' & Ha & _ & _ & _ & Hin).
  destruct (Hall 1 demo.b eq_refl) as (b' & Hb & _ & _ & Hout & _).
  destruct ds' as [|x [|y [|z ds']]]; try discriminate Hlen.
  injection Ha as ->. injection Hb as ->.
  exists w', a', b'. split; [exact Hrun|]. split; [exact Hc|].
  assert (Hina : filepath demo.a ∈ ["/data/a.jpg"]) by apply list_elem_of_here.
  destruct (Hin Hina) as [Hset Hkept].
  split; [apply Hset; right; by left|].
  split; [apply Hset; by left|].
  split.
  - rewrite Hkept; [vm_compute; reflexivity|]. simpl. intros H.
    repeat (apply elem_of_cons in H as [H|H]; [discriminate H|]).
    by apply elem_of_nil in H.
  - apply Hout. intros H%list_elem_of_singleton. discriminate H.
Defined.

Lemma listed_members_are_saved_once_witness :
  get_all_file_path demo.E demo.fs_bad "/list.txt"
    (Some exporter.image_filter)
  = Ok ["/data/a.jpg"]
  ∧ assignable demo.E demo.review
  ∧ ∃ evs,
      trace (fst (exporter.add_dataset_fields_by_txt demo.E demo.load
                    "/list.txt" (inr demo.review) None
                    (mkWorld demo.fs_bad (Some [demo.a; demo.b])
                       (Some demo.session) [])))
      = (evs ++ [SessionRefresh])%list
      ∧ evs = ContextSave <$> saved evs
      ∧ saved evs = [assigned demo.review demo.a].
Proof.
  assert (Hl : get_all_file_path demo.E demo.fs_bad "/list.txt"
                 (Some exporter.image_filter)
               = Ok ["/data/a.jpg"]) by (vm_compute; reflexivity).
  split; [exact Hl|]. split; [exact review_is_assignable|].
  destruct (listed_members_are_saved_once demo.E demo.load "/list.txt"
              demo.review
              (mkWorld demo.fs_bad (Some [demo.a; demo.b])
                 (Some demo.session) [])
              [demo.a; demo.b] ["/data/a.jpg"] eq_refl Hl
              review_is_assignable)
    as (evs & Ht & Hsaved & Hall).
  exists evs. split; [exact Ht|]. split; [exact Hsaved|].
  rewrite Hall. vm_compute; reflexivity.
Defined.


Lemma failed_reading_assigns_nothing_witness :
  get_all_file_path demo.E (files demo.w) "/list.txt"
    (Some exporter.image_filter)
  = Ok ["/data/a.jpg"; "/data/b.jpg"; "/data/c.jpg"]
  ∧ demo.load (files demo.w) "/data/a.xml"
    = Raise (CollaboratorError "json.load")
  ∧ exporter.add_dataset_fields_by_txt demo.E demo.load "/list.txt"
      (inl "/data/a.xml") None demo.w
    = (demo.w, Raise (CollaboratorError "json.load")).
Proof.
  assert (Hl : get_all_file_path demo.E (files demo.w) "/list.txt"
                 (Some exporter.image_filter)
               = Ok ["/data/a.jpg"; "/data/b.jpg"; "/data/c.jpg"])
    by (vm_compute; reflexivity).
  assert (Hj : demo.load (files demo.w) "/data/a.xml"
               = Raise (CollaboratorError "json.load"))
    by (vm_compute; reflexivity).
  split; [exact Hl|]. split; [exact Hj|].
  apply (failed_reading_assigns_nothing demo.E demo.load "/list.txt"
           (inl "/data/a.xml") None demo.w).
  - intros _. discriminate.
  - right. exists ["/data/a.jpg"; "/data/b.jpg"; "/data/c.jpg"], "/data/a.xml".
    split; [exact Hl|]. split; [reflexivity|exact Hj].
Defined.

Lemma field_assignment_is_idempotent_witness :
  get_all_file_path demo.E (files demo.w) "/list.txt"
    (Some exporter.image_filter)
  = Ok ["/data/a.jpg"; "/data/b.jpg"; "/data/c.jpg"]
  ∧ cache_dataset
      (fst (exporter.add_dataset_fields_by_txt demo.E demo.load "/list.txt"
              (inr demo.review) None
              (fst (exporter.add_dataset_fields_by_txt demo.E demo.load
                      "/list.txt" (inr demo.review) None demo.w))))
    = cache_dataset
        (fst (exporter.add_dataset_fields_by_txt demo.E demo.load
                "/list.txt" (inr demo.review) None demo.w)).
Proof.
  assert (Hl : get_all_file_path demo.E (files demo.w) "/list.txt"
                 (Some exporter.image_filter)
               = Ok ["/data/a.jpg"; "/data/b.jpg"; "/data/c.jpg"])
    by (vm_compute; reflexivity).
  split; [exact Hl|].
  exact (proj1 (field_assignment_is_idempotent demo.E demo.load "/list.txt"
                  demo.review demo.w [demo.a; demo.b] _ eq_refl Hl)).
Defined.

Lemma export_copy_asks_the_session_witness :
  cache_dataset demo.w_no_session = Some [demo.a; demo.b]
  ∧ export.export_anno_file demo.shown "/out" None demo.w_no_session
    = (add_event (Warning "no dataset in cache,no thing export")
         demo.w_no_session, Ok [])
  ∧ exporter.export_anno_file "/out" None demo.w_no_session
    = exporter.export_anno_file "/out" (Some [demo.a; demo.b])
        demo.w_no_session.
Proof.
  split; [reflexivity|].
  exact (export_copy_asks_the_session demo.shown "/out" demo.w_no_session
           [demo.a; demo.b] eq_refl).
Defined.

Lemma attached_mode_saves_in_place_witness :
  NoDup (id <$> [demo.a; demo.b])
  ∧ exporter.update_dataset demo.E (Some [demo.a; demo.b]) demo.w
    = (demo.after_given, Ok (Some [demo.a_new; demo.b_cleared]))
  ∧ ∃ s' cached',
      [demo.a_new; demo.b_cleared] !! 1 = Some s'
      ∧ cache_dataset demo.after_given = Some cached'
      ∧ cached' !! 1 = Some s'.
Proof.
  assert (Hnd : NoDup (id <$> [demo.a; demo.b])).
  { rewrite !fmap_cons. apply NoDup_cons. split; [|apply NoDup_singleton].
    intros Hin%list_elem_of_singleton. discriminate Hin. }
  assert (Hrun : exporter.update_dataset demo.E (Some [demo.a; demo.b])
                   demo.w
                 = (demo.after_given,
                    Ok (Some [demo.a_new; demo.b_cleared])))
    by (vm_compute; reflexivity).
  split; [exact Hnd|]. split; [exact Hrun|].
  exact (attached_mode_saves_in_place demo.E [demo.a; demo.b]
           [demo.a_new; demo.b_cleared] demo.w demo.after_given
           [demo.a; demo.b] 1 1 demo.b Hrun eq_refl Hnd eq_refl eq_refl).
Defined.

Lemma clearing_an_undeclared_label_raises_witness :
  files demo.w !! exporter.xml_path_of demo.bare = None
  ∧ in_schema (exporter.home (cache_dataset demo.w) [demo.bare] demo.bare)
              "ground_truth" = false
  ∧ exporter.update_dataset demo.E (Some [demo.bare]) demo.w
    = (demo.w, Raise ValueError).
Proof.
  assert (Hx : files demo.w !! exporter.xml_path_of demo.bare = None)
    by (vm_compute; reflexivity).
  assert (Hno : in_schema
                  (exporter.home (cache_dataset demo.w) [demo.bare]
                     demo.bare) "ground_truth" = false)
    by (vm_compute; reflexivity).
  split; [exact Hx|]. split; [exact Hno|].
  exact (proj2 (clearing_an_undeclared_label_raises demo.E demo.w)
           demo.bare [] Hx Hno).
Defined.
